(** * AI DevOps Robot: deployment orchestration and repository automation

    A shallow embedding of [DevOps_Robot.py] (class [AIDevOpsRobot]) and the
    properties of its orchestration core: the platform trigger adapters, the
    deployment fan-out, the workflow sequencer, the repository improvement
    planner and the batch runner.

    The methods talk to three outside parties: the HTTP endpoints reached
    through [requests], the [git] executable reached through
    [subprocess.run], and the file system.  Their answers are not decided by
    the program, so they are taken from a [world]: a record of answer
    functions that may depend on everything that happened so far.  Every
    method is a computation in a monad that threads the chronological list
    of external events and carries Python exceptions, so that "no network
    call", "before any file is written" and "the exception escapes" are
    statements about the result and the trace of a run.

    Contents: Python values and strings; the outside world and the monad;
    the methods, in the order of the source; observations on runs and
    sample worlds; then the lemmas on events and exceptions and the
    properties of each component. *)

From Stdlib Require Import List String Ascii ZArith Bool Arith Lia DecimalString.
Import ListNotations.
Open Scope string_scope.

(* ===================================================================== *)
(** ** Python values *)
(* ===================================================================== *)

(** The values that [yaml.safe_load] and [Response.json] hand to the
    program: null, booleans, integers, strings, lists and dicts (floats and
    dates are left out). *)
#[warnings="-register-all"]
Inductive pyval : Type :=
| PNone
| PBool (b : bool)
| PInt (z : Z)
| PStr (s : string)
| PList (l : list pyval)
| PDict (d : list (pyval * pyval)).

(** Python truthiness, as tested by [if x], [not x] and [x or y]. *)
Definition truthy (v : pyval) : bool :=
  match v with
  | PNone => false
  | PBool b => b
  | PInt z => negb (z =? 0)%Z
  | PStr s => negb (s =? "")
  | PList l => match l with [] => false | _ :: _ => true end
  | PDict d => match d with [] => false | _ :: _ => true end
  end.

Definition key_is (k : string) (v : pyval) : bool :=
  match v with PStr s => s =? k | _ => false end.

(** Lookup of a string key in a dict. *)
Fixpoint dict_find (d : list (pyval * pyval)) (k : string) : option pyval :=
  match d with
  | [] => None
  | (k', v) :: d' => if key_is k k' then Some v else dict_find d' k
  end.

(** [d.get(k, default)] on a dict. *)
Definition dict_get (d : list (pyval * pyval)) (k : string) (default : pyval) : pyval :=
  match dict_find d k with Some v => v | None => default end.

(** [x == s] for a string literal [s]. *)
Definition py_eq_str (v : pyval) (s : string) : bool := key_is s v.

(* ===================================================================== *)
(** ** Strings *)
(* ===================================================================== *)

Definition lower_ascii (c : ascii) : ascii :=
  let n := nat_of_ascii c in
  if andb (65 <=? n)%nat (n <=? 90)%nat then ascii_of_nat (n + 32) else c.

(** [s.lower()] on UTF-8 text, as far as a comparison with an ASCII
    literal can tell: the ASCII capitals become small, and so does the
    Kelvin sign (bytes 226 132 170), the one other character whose lower
    case is an ASCII letter on its own.  The other characters stay as they
    are. *)
Fixpoint lower (s : string) : string :=
  match s with
  | EmptyString => EmptyString
  | String c s' =>
      match s' with
      | String c2 (String c3 rest) =>
          if andb (nat_of_ascii c =? 226)%nat
               (andb (nat_of_ascii c2 =? 132)%nat (nat_of_ascii c3 =? 170)%nat)
          then String "k"%char (lower rest)
          else String (lower_ascii c) (lower s')
      | _ => String (lower_ascii c) (lower s')
      end
  end.

(** [s.startswith(p)] is [String.prefix p s]. *)
Definition startswith (s p : string) : bool := String.prefix p s.

(** [s.endswith(p)]. *)
Definition endswith (s p : string) : bool :=
  let n := String.length s in
  let m := String.length p in
  if (m <=? n)%nat then String.substring (n - m) m s =? p else false.

(** [p in s] for strings. *)
Fixpoint contains (p s : string) : bool :=
  if String.prefix p s then true
  else match s with
       | EmptyString => false
       | String _ s' => contains p s'
       end.

(** The white space of [str.strip()], on UTF-8 text.  In ASCII: the
    space, the characters 9 to 13 and 28 to 31. *)
Definition is_space (c : ascii) : bool :=
  let n := nat_of_ascii c in
  orb (n =? 32)%nat
    (orb (andb (9 <=? n)%nat (n <=? 13)%nat) (andb (28 <=? n)%nat (n <=? 31)%nat)).

(** In two bytes: U+0085 (194 133) and U+00A0 (194 160). *)
Definition is_space2 (c1 c2 : ascii) : bool :=
  let n1 := nat_of_ascii c1 in
  let n2 := nat_of_ascii c2 in
  andb (n1 =? 194)%nat (orb (n2 =? 133)%nat (n2 =? 160)%nat).

(** In three bytes: U+1680 (225 154 128); U+2000 to U+200A (226 128 128
    to 226 128 138), U+2028 (226 128 168), U+2029 (226 128 169) and U+202F
    (226 128 175); U+205F (226 129 159); U+3000 (227 128 128). *)
Definition is_space3 (c1 c2 c3 : ascii) : bool :=
  let n1 := nat_of_ascii c1 in
  let n2 := nat_of_ascii c2 in
  let n3 := nat_of_ascii c3 in
  orb (andb (n1 =? 225)%nat (andb (n2 =? 154)%nat (n3 =? 128)%nat))
    (orb (andb (n1 =? 226)%nat
            (andb (n2 =? 128)%nat
               (orb (andb (128 <=? n3)%nat (n3 <=? 138)%nat)
                  (orb (n3 =? 168)%nat (orb (n3 =? 169)%nat (n3 =? 175)%nat)))))
       (orb (andb (n1 =? 226)%nat (andb (n2 =? 129)%nat (n3 =? 159)%nat))
          (andb (n1 =? 227)%nat (andb (n2 =? 128)%nat (n3 =? 128)%nat)))).

(** [s.lstrip()]. *)
Fixpoint lstrip (s : string) : string :=
  match s with
  | EmptyString => EmptyString
  | String c1 s1 =>
      if is_space c1 then lstrip s1
      else match s1 with
           | String c2 s2 =>
               if is_space2 c1 c2 then lstrip s2
               else match s2 with
                    | String c3 s3 => if is_space3 c1 c2 c3 then lstrip s3 else s
                    | EmptyString => s
                    end
           | EmptyString => s
           end
  end.

(** [s.rstrip()]: the text up to its last character that is not white
    space.  No white space character starts with a continuation byte, so a
    tail of white space starts where a character starts. *)
Fixpoint rstrip (s : string) : string :=
  match s with
  | EmptyString => EmptyString
  | String c s' => if lstrip s =? "" then EmptyString else String c (rstrip s')
  end.

(** [s.strip()]. *)
Definition strip (s : string) : string := rstrip (lstrip s).

(** [str(n)] for a length. *)
Definition str_of_nat (n : nat) : string := NilEmpty.string_of_uint (Nat.to_uint n).

Definition slash : ascii := "/"%char.

(** [os.path.join(a, b)] on POSIX. *)
Definition path_join (a b : string) : string :=
  if startswith b "/" then b
  else if orb (a =? "") (endswith a "/") then a ++ b
  else a ++ "/" ++ b.

(** The part of [s] up to and including its last slash. *)
Fixpoint upto_last_slash (s : string) : string :=
  match s with
  | EmptyString => EmptyString
  | String c s' =>
      match upto_last_slash s' with
      | EmptyString => if Ascii.eqb c slash then String c EmptyString else EmptyString
      | r => String c r
      end
  end.

Fixpoint all_slashes (s : string) : bool :=
  match s with
  | EmptyString => true
  | String c s' => andb (Ascii.eqb c slash) (all_slashes s')
  end.

Fixpoint rstrip_slashes (s : string) : string :=
  match s with
  | EmptyString => EmptyString
  | String c s' =>
      match rstrip_slashes s' with
      | EmptyString => if Ascii.eqb c slash then EmptyString else String c EmptyString
      | r => String c r
      end
  end.

(** [os.path.dirname(p)] on POSIX. *)
Definition dirname (p : string) : string :=
  let head := upto_last_slash p in
  if andb (negb (head =? "")) (negb (all_slashes head)) then rstrip_slashes head else head.

(* ===================================================================== *)
(** ** The outside world *)
(* ===================================================================== *)

(** The kinds of [requests.RequestException]. *)
Inductive transport_error : Type :=
| ConnectionError
| ReadTimeout
| InvalidURL.

Inductive exn : Type :=
| RequestException (k : transport_error)
| CalledProcessError (returncode : Z)
| ValueError (msg : string)
| JSONDecodeError
| AttributeError
| KeyError (k : string)
| IndexError
| TypeError
| OSError
| UnicodeDecodeError.

Inductive http_method : Type := GET | POST | PUT.

(** The first argument of a [requests] call. *)
Inductive url : Type :=
| UrlStr (s : string)
    (** a string built from literals, the user name and the repository name *)
| UrlObj (v : pyval)
    (** a configuration value passed as it is: [requests.post(hook)] *)
| UrlRender (service_id : pyval)
    (** [f"https://api.render.com/v1/services/{service_id}/deploys"] *).

(** A call of [requests.get], [requests.post] or [requests.put], with the
    keyword arguments the call site passes.  [timeout] is the [timeout=]
    argument in seconds; [None] is its absence, with which [requests] waits
    without a bound. *)
Record request : Type := mk_request {
  meth : http_method;
  target : url;
  headers : list (string * string);
  json_body : option pyval;
  timeout : option Z
}.

(** What the program reads of a [requests.Response]: [json] is [None] when
    the body is not JSON, so that [res.json()] raises. *)
Record response : Type := mk_response {
  status_code : Z;
  json : option pyval;
  text : string
}.

Inductive http_outcome : Type :=
| Responded (r : response)
| Failed (k : transport_error).

(** A call of [subprocess.run(args, cwd=cwd, ...)].  The [git] executable is
    taken to be installed, so that every call yields an exit status. *)
Record command : Type := mk_command {
  args : list string;
  cwd : option string
}.

(** What a process leaves: its exit status, and the text that its output
    decodes to, as a call with [text=True] reads it. *)
Record completed : Type := mk_completed {
  returncode : Z;
  stdout : string
}.

(** The texts the program prints, one constructor per [print] call; the
    arguments are the values that the text interpolates. *)
Inductive message : Type :=
| MError (prefix : string) (status : Z) (data : pyval)
    (** [_print_err]: "{prefix} (HTTP {status}): {data}" *)
| MIdentityWarn (code : Z)          (** "Could not ensure git identity: ..." *)
| MRepoCreated (repo : string) (html_url : pyval)
    (** "Repository '{repo}' created: {html_url}" *)
| MCloned (path : string)           (** "Repository cloned to {path}" *)
| MCloneFailed (repo : string) (code : Z)
    (** "Failed to clone repository {repo}: ..." *)
| MPushed (branch msg : string)
    (** "Changes committed and pushed to {branch}: {msg}" *)
| MGitFailed (code : Z)             (** "Git operation failed: ..." *)
| MPrCreated (number : pyval)       (** "Pull request created: #{number}" *)
| MPrMerged (number : Z)            (** "Pull request #{number} merged successfully!" *)
| MVercelNotEnabled                 (** "Vercel deployment not enabled in config" *)
| MVercelMissingHook                (** "Missing vercel.deploy_hook_url in config ..." *)
| MVercelTriggered                  (** "Vercel deployment triggered!" *)
| MVercelRequestError (k : transport_error)   (** "Vercel request error: ..." *)
| MRenderNotEnabled                 (** "Render deployment not enabled in config" *)
| MRenderTokenMissing               (** "RENDER_TOKEN is not set (.env)" *)
| MRenderMissingService             (** "Missing render.service_id in config" *)
| MRenderTriggered                  (** "Render deployment triggered!" *)
| MNetlifyNotEnabled                (** "Netlify deployment not enabled in config" *)
| MNetlifyMissingHook               (** "Missing netlify.deploy_hook_url in config ..." *)
| MNetlifyTriggered                 (** "Netlify deployment (build hook) triggered!" *)
| MNetlifyRequestError (k : transport_error)  (** "Netlify request error: ..." *)
| MStarting (repo : string)         (** "Starting automated workflow for {repo}" *)
| MUpdated (file_path : string)     (** "Updated {file_path}" *)
| MNoDeployments                    (** "No deployments triggered (check config)." *)
| MImproved (repo : string) (n : nat)
    (** "Repository {repo} improved with {n} files" *)
| MNoImprovements                   (** "No improvements needed." *)
| MProcessing (repo : string)       (** "Processing {repo}..." *)
| MUnknownOperation (operation : string)      (** "Unknown operation: {operation}" *)
| MHealthSkipped                    (** "No GITHUB_TOKEN: skipping health check." *).

(** What the outside sees of a run, in the order it happens. *)
Inductive event : Type :=
| EPrint (m : message)
| EHttp (req : request) (out : http_outcome)
| ERun (c : command) (out : completed)
| EMakedirs (path : string) (ok : bool)
| EWriteFile (path content : string) (ok : bool)
| ESleep (milliseconds : Z).

Definition trace : Type := list event.

(** The answers of the outside world.  Each may depend on the events so
    far: the same hook can accept one request and refuse the next, and a
    directory exists after it has been cloned. *)
Record world : Type := mk_world {
  http_reply : trace -> request -> http_outcome;
  proc_reply : trace -> command -> completed;
  path_exists : trace -> string -> bool;
  makedirs_ok : trace -> string -> bool;
  write_ok : trace -> string -> string -> bool;
  getenv : string -> option string;
  clock : trace -> string;
  output_decodes : trace -> command -> bool
    (** whether the bytes that the process writes decode in the encoding of
        the locale: a call with [capture_output=True, text=True] raises a
        [UnicodeDecodeError] when they do not *)
}.

(* ===================================================================== *)
(** ** The monad of the methods *)
(* ===================================================================== *)

Inductive res (A : Type) : Type :=
| Ret (a : A)
| Raise (e : exn).

Arguments Ret {A} a.
Arguments Raise {A} e.

(** A computation reads the world, extends the trace, and either returns a
    value or raises.  The events of a computation that raises have
    happened all the same. *)
Definition M (A : Type) : Type := world -> trace -> res A * trace.

Definition ret {A} (a : A) : M A := fun _ t => (Ret a, t).

Definition raise {A} (e : exn) : M A := fun _ t => (Raise e, t).

Definition bind {A B} (m : M A) (f : A -> M B) : M B :=
  fun w t =>
    match m w t with
    | (Ret a, t') => f a w t'
    | (Raise e, t') => (Raise e, t')
    end.

(** [try: m  except ...: h e].  The handler answers [None] for the
    exceptions that the [except] clause does not name. *)
Definition try_except {A} (m : M A) (h : exn -> option (M A)) : M A :=
  fun w t =>
    match m w t with
    | (Ret a, t') => (Ret a, t')
    | (Raise e, t') =>
        match h e with
        | Some k => k w t'
        | None => (Raise e, t')
        end
    end.

Declare Scope py_scope.
Delimit Scope py_scope with py.
Notation "x <- m ;; k" := (bind m (fun x => k))
  (at level 61, m at next level, right associativity) : py_scope.
Notation "m ;; k" := (bind m (fun _ => k))
  (at level 61, right associativity) : py_scope.
Open Scope py_scope.

Definition emit (e : event) : M unit := fun _ t => (Ret tt, (t ++ [e])%list).

Definition print (m : message) : M unit := emit (EPrint m).

(** [time.sleep(1.2)]. *)
Definition sleep (milliseconds : Z) : M unit := emit (ESleep milliseconds).

(** [requests.get/post/put]: the reply of the world, a transport failure
    being raised as a [RequestException]. *)
Definition requests_call (r : request) : M response :=
  fun w t =>
    let out := http_reply w t r in
    (match out with
     | Responded resp => Ret resp
     | Failed k => Raise (RequestException k)
     end, (t ++ [EHttp r out])%list).

(** [subprocess.run(args, cwd=cwd, check=check)]. *)
Definition subprocess_run (c : command) (check : bool) : M completed :=
  fun w t =>
    let out := proc_reply w t c in
    (if andb check (negb (returncode out =? 0)%Z)
     then Raise (CalledProcessError (returncode out))
     else Ret out, (t ++ [ERun c out])%list).

(** [subprocess.run(args, cwd=cwd, capture_output=True, text=True,
    check=check)].  The output is decoded when it is read, before the exit
    status is looked at: bytes that do not decode raise a
    [UnicodeDecodeError], whatever the status. *)
Definition subprocess_read (c : command) (check : bool) : M completed :=
  fun w t =>
    let out := proc_reply w t c in
    (if negb (output_decodes w t c) then Raise UnicodeDecodeError
     else if andb check (negb (returncode out =? 0)%Z)
     then Raise (CalledProcessError (returncode out))
     else Ret out, (t ++ [ERun c out])%list).

(** [os.path.exists(p)]. *)
Definition os_path_exists (p : string) : M bool :=
  fun w t => (Ret (path_exists w t p), t).

(** [os.makedirs(p, exist_ok=True)]. *)
Definition os_makedirs (p : string) : M unit :=
  fun w t =>
    let ok := makedirs_ok w t p in
    (if ok then Ret tt else Raise OSError, (t ++ [EMakedirs p ok])%list).

(** [with open(p, "w", encoding="utf-8") as f: f.write(content)]. *)
Definition write_file (p content : string) : M unit :=
  fun w t =>
    let ok := write_ok w t p content in
    (if ok then Ret tt else Raise OSError, (t ++ [EWriteFile p content ok])%list).

(** [os.getenv(name)]. *)
Definition os_getenv (name : string) : M (option string) :=
  fun w t => (Ret (getenv w name), t).

(** [datetime.now().strftime("%Y-%m-%d %H:%M")]. *)
Definition now_stamp : M string := fun w t => (Ret (clock w t), t).

(** [v.get(k, default)]: an [AttributeError] on what is not a dict. *)
Definition py_get (v : pyval) (k : string) (default : pyval) : M pyval :=
  match v with
  | PDict d => ret (dict_get d k default)
  | _ => raise AttributeError
  end.

(** [v[k]] for a string key. *)
Definition py_getitem (v : pyval) (k : string) : M pyval :=
  match v with
  | PDict d => match dict_find d k with Some x => ret x | None => raise (KeyError k) end
  | _ => raise TypeError
  end.

(** [res.json()]. *)
Definition res_json (r : response) : M pyval :=
  match json r with Some v => ret v | None => raise JSONDecodeError end.

(** [_safe_json]: the parsed body, or the text and the status. *)
Definition _safe_json (r : response) : pyval :=
  match json r with
  | Some v => v
  | None => PDict [(PStr "text", PStr (text r)); (PStr "status", PInt (status_code r))]
  end.

Definition _print_err (prefix : string) (r : response) : M unit :=
  print (MError prefix (status_code r) (_safe_json r)).

(* ===================================================================== *)
(** ** The robot *)
(* ===================================================================== *)

(** The attributes that [__init__] sets.  The token is a string or absent;
    the configuration is whatever the YAML file holds. *)
Record robot : Type := mk_robot {
  config : list (pyval * pyval);
  github_token : option string;
  github_username : string
}.

(** [if self.github_token]. *)
Definition has_token (self : robot) : bool :=
  match github_token self with
  | Some s => negb (s =? "")
  | None => false
  end.

Definition base_headers (self : robot) : list (string * string) :=
  [("Authorization",
    match github_token self with
    | Some s => if negb (s =? "") then "token " ++ s else ""
    | None => ""
    end);
   ("Accept", "application/vnd.github.v3+json")].

Definition api : string := "https://api.github.com".

(** [res.status_code in (200, 201, 202)]. *)
Definition accepted (code : Z) : bool :=
  orb (code =? 200)%Z (orb (code =? 201)%Z (code =? 202)%Z).

(** [self.config.get("hosting_platforms", {}).get(name, {})]. *)
Definition platform_cfg (self : robot) (name : string) : M pyval :=
  py_get (dict_get (config self) "hosting_platforms" (PDict [])) name (PDict []).

(* --------------------------------------------------------------------- *)
(** *** Deployment (hooks first) *)
(* --------------------------------------------------------------------- *)

Definition deploy_to_vercel (self : robot) (repo_name : string) : M bool :=
  cfg <- platform_cfg self "vercel" ;;
  enabled <- py_get cfg "enabled" PNone ;;
  if negb (truthy enabled) then
    print MVercelNotEnabled ;; ret false
  else
    hook <- py_get cfg "deploy_hook_url" PNone ;;
    if negb (truthy hook) then
      print MVercelMissingHook ;; ret false
    else
      try_except
        (res <- requests_call (mk_request POST (UrlObj hook) [] None None) ;;
         if accepted (status_code res) then
           print MVercelTriggered ;; ret true
         else
           _print_err "Vercel deployment failed" res ;; ret false)
        (fun e =>
           match e with
           | RequestException k => Some (print (MVercelRequestError k) ;; ret false)
           | _ => None
           end).

Definition deploy_to_render (self : robot) (service_id : pyval) : M bool :=
  cfg <- platform_cfg self "render" ;;
  enabled <- py_get cfg "enabled" PNone ;;
  if negb (truthy enabled) then
    print MRenderNotEnabled ;; ret false
  else
    render_token <- os_getenv "RENDER_TOKEN" ;;
    match render_token with
    | None => print MRenderTokenMissing ;; ret false
    | Some "" => print MRenderTokenMissing ;; ret false
    | Some tok =>
        service_id <- (if truthy service_id then ret service_id
                       else py_get cfg "service_id" PNone) ;;
        if negb (truthy service_id) then
          print MRenderMissingService ;; ret false
        else
          res <- requests_call
                   (mk_request POST (UrlRender service_id)
                      [("Authorization", "Bearer " ++ tok);
                       ("Content-Type", "application/json")] None None) ;;
          if accepted (status_code res) then
            print MRenderTriggered ;; ret true
          else
            _print_err "Render deployment failed" res ;; ret false
    end.

Definition deploy_to_netlify (self : robot) : M bool :=
  cfg <- platform_cfg self "netlify" ;;
  enabled <- py_get cfg "enabled" PNone ;;
  if negb (truthy enabled) then
    print MNetlifyNotEnabled ;; ret false
  else
    hook <- py_get cfg "deploy_hook_url" PNone ;;
    if truthy hook then
      try_except
        (res <- requests_call (mk_request POST (UrlObj hook) [] None None) ;;
         if accepted (status_code res) then
           print MNetlifyTriggered ;; ret true
         else
           _print_err "Netlify deployment failed" res ;; ret false)
        (fun e =>
           match e with
           | RequestException k => Some (print (MNetlifyRequestError k) ;; ret false)
           | _ => None
           end)
    else
      print MNetlifyMissingHook ;; ret false.

(* --------------------------------------------------------------------- *)
(** *** Git helpers *)
(* --------------------------------------------------------------------- *)

Definition git (arguments : list string) (repo_path : string) : command :=
  mk_command ("git" :: arguments) (Some repo_path).

(** The [capture_output=True, text=True] calls read [stdout]; the others
    only their exit status.  The [except] clause names
    [CalledProcessError] alone. *)
Definition _ensure_git_identity (self : robot) (repo_path : string) : M unit :=
  try_except
    (name <- subprocess_read (git ["config"; "user.name"] repo_path) false ;;
     email <- subprocess_read (git ["config"; "user.email"] repo_path) false ;;
     (if strip (stdout name) =? "" then
        subprocess_run (git ["config"; "user.name"; "AI DevOps Robot"] repo_path) true ;;
        ret tt
      else ret tt) ;;
     (if strip (stdout email) =? "" then
        let noreply := github_username self ++ "@users.noreply.github.com" in
        subprocess_run (git ["config"; "user.email"; noreply] repo_path) true ;;
        ret tt
      else ret tt))
    (fun e =>
       match e with
       | CalledProcessError c => Some (print (MIdentityWarn c))
       | _ => None
       end).

Definition repo_url (self : robot) (repo_name : string) : string :=
  api ++ "/repos/" ++ github_username self ++ "/" ++ repo_name.

Definition api_request (self : robot) (m : http_method) (u : string)
    (body : option pyval) : request :=
  mk_request m (UrlStr u) (base_headers self) body None.

Definition get_default_branch (self : robot) (repo_name : string) : M pyval :=
  let fallback := ret (dict_get (config self) "default_branch" (PStr "main")) in
  if has_token self then
    res <- requests_call (api_request self GET (repo_url self repo_name) None) ;;
    if (status_code res =? 200)%Z then
      body <- res_json res ;;
      py_get body "default_branch" (PStr "main")
    else fallback
  else fallback.

(* --------------------------------------------------------------------- *)
(** *** GitHub operations *)
(* --------------------------------------------------------------------- *)

Definition missing_token : exn := ValueError "Missing GITHUB_TOKEN for GitHub API calls.".

Definition create_repository (self : robot) (repo_name description : string)
    (private : bool) : M pyval :=
  if negb (has_token self) then raise missing_token
  else
    let data := PDict [(PStr "name", PStr repo_name);
                       (PStr "description", PStr description);
                       (PStr "private", PBool private);
                       (PStr "auto_init", PBool true)] in
    res <- requests_call (api_request self POST (api ++ "/user/repos") (Some data)) ;;
    if (status_code res =? 201)%Z then
      repo_data <- res_json res ;;
      html_url <- py_get repo_data "html_url" PNone ;;
      print (MRepoCreated repo_name html_url) ;;
      ret repo_data
    else
      _print_err "Failed to create repository" res ;;
      ret (PDict []).

Definition clone_repository (self : robot) (repo_name : string)
    (local_path : option string) : M string :=
  let local_path :=
    match local_path with
    | Some p => if p =? "" then "./" ++ repo_name else p
    | None => "./" ++ repo_name
    end in
  let clone_url := "https://github.com/" ++ github_username self ++ "/" ++ repo_name ++ ".git" in
  try_except
    (subprocess_run (mk_command ["git"; "clone"; clone_url; local_path] None) true ;;
     print (MCloned local_path) ;;
     ret local_path)
    (fun e =>
       match e with
       | CalledProcessError c => Some (print (MCloneFailed repo_name c) ;; ret "")
       | _ => None
       end).

(** [for file in files: subprocess.run(["git", "add", file], ...)]. *)
Fixpoint git_add_each (repo_path : string) (files : list string) : M unit :=
  match files with
  | [] => ret tt
  | file :: rest =>
      subprocess_run (git ["add"; file] repo_path) true ;;
      git_add_each repo_path rest
  end.

Definition commit_and_push (self : robot) (repo_path : string)
    (message : option string) (files : option (list string))
    (branch : option string) : M unit :=
  _ensure_git_identity self repo_path ;;
  branch <-
    (match branch with
     | Some (String c b) => ret (String c b)
     | _ =>
         try_except
           (cur <- subprocess_read (git ["rev-parse"; "--abbrev-ref"; "HEAD"] repo_path) true ;;
            let b := strip (stdout cur) in
            ret (if b =? "" then "main" else b))
           (fun e =>
              match e with
              | CalledProcessError _ => Some (ret "main")
              | _ => None
              end)
     end) ;;
  try_except
    ((match files with
      | Some (f :: fs) => git_add_each repo_path (f :: fs)
      | _ => subprocess_run (git ["add"; "."] repo_path) true ;; ret tt
      end) ;;
     message <-
       (match message with
        | Some (String c m) => ret (String c m)
        | _ =>
            timestamp <- now_stamp ;;
            ret ("🤖 Auto-commit: Updated files at " ++ timestamp)
        end) ;;
     subprocess_run (git ["commit"; "-m"; message] repo_path) true ;;
     subprocess_run (git ["push"; "origin"; branch] repo_path) true ;;
     print (MPushed branch message))
    (fun e =>
       match e with
       | CalledProcessError c => Some (print (MGitFailed c))
       | _ => None
       end).

Definition create_pull_request (self : robot)
    (repo_name title body head_branch base_branch : string) : M pyval :=
  if negb (has_token self) then raise missing_token
  else
    let data := PDict [(PStr "title", PStr title); (PStr "body", PStr body);
                       (PStr "head", PStr head_branch); (PStr "base", PStr base_branch)] in
    res <- requests_call
             (api_request self POST (repo_url self repo_name ++ "/pulls") (Some data)) ;;
    if (status_code res =? 201)%Z then
      pr_data <- res_json res ;;
      number <- py_getitem pr_data "number" ;;
      print (MPrCreated number) ;;
      ret pr_data
    else
      _print_err "Failed to create pull request" res ;;
      ret (PDict []).

(** [str(n)] for an integer. *)
Definition str_of_Z (z : Z) : string := NilEmpty.string_of_int (Z.to_int z).

Definition merge_pull_request (self : robot) (repo_name : string) (pr_number : Z)
    (merge_method : string) : M bool :=
  if negb (has_token self) then raise missing_token
  else
    let u := repo_url self repo_name ++ "/pulls/" ++ str_of_Z pr_number ++ "/merge" in
    res <- requests_call
             (api_request self PUT u
                (Some (PDict [(PStr "merge_method", PStr merge_method)]))) ;;
    if (status_code res =? 200)%Z then
      print (MPrMerged pr_number) ;; ret true
    else
      _print_err "Failed to merge pull request" res ;; ret false.

(* --------------------------------------------------------------------- *)
(** *** Automation *)
(* --------------------------------------------------------------------- *)

(** [if platforms.get(name, {}).get("enabled")]. *)
Definition platform_enabled (platforms : pyval) (name : string) : M bool :=
  block <- py_get platforms name (PDict []) ;;
  enabled <- py_get block "enabled" PNone ;;
  ret (truthy enabled).

(** The method has no [return]: its value is [None]. *)
Definition trigger_all_deployments (self : robot) (repo_name : string) : M pyval :=
  let platforms := dict_get (config self) "hosting_platforms" (PDict []) in
  let ok_any := false in
  vercel <- platform_enabled platforms "vercel" ;;
  ok_any <- (if vercel then
               r <- deploy_to_vercel self repo_name ;; ret (orb r ok_any)
             else ret ok_any) ;;
  render <- platform_enabled platforms "render" ;;
  ok_any <- (if render then
               block <- py_getitem platforms "render" ;;
               service_id <- py_get block "service_id" PNone ;;
               r <- deploy_to_render self service_id ;; ret (orb r ok_any)
             else ret ok_any) ;;
  netlify <- platform_enabled platforms "netlify" ;;
  ok_any <- (if netlify then
               r <- deploy_to_netlify self ;; ret (orb r ok_any)
             else ret ok_any) ;;
  (if negb ok_any then print MNoDeployments else ret tt) ;;
  ret PNone.

(** The loop over [files_to_update.items()]. *)
Fixpoint write_files (repo_path : string) (files : list (string * string)) : M unit :=
  match files with
  | [] => ret tt
  | (file_path, content) :: rest =>
      let full_path := path_join repo_path file_path in
      os_makedirs (dirname full_path) ;;
      write_file full_path content ;;
      print (MUpdated file_path) ;;
      write_files repo_path rest
  end.

(** The part of [auto_workflow_update_and_deploy] that follows the early
    [return False]: it runs once [repo_path] is the working copy. *)
Definition update_in_working_copy (self : robot) (repo_name : string)
    (files_to_update : list (string * string)) (repo_path : string) : M bool :=
  write_files repo_path files_to_update ;;
  let commit_msg :=
    "🤖 Auto-update: " ++ str_of_nat (List.length files_to_update) ++ " files updated" in
  commit_and_push self repo_path (Some commit_msg) None None ;;
  (if truthy (dict_get (config self) "auto_deploy" (PBool true)) then
     trigger_all_deployments self repo_name ;; ret tt
   else ret tt) ;;
  ret true.

Definition auto_workflow_update_and_deploy (self : robot) (repo_name : string)
    (files_to_update : list (string * string)) : M bool :=
  print (MStarting repo_name) ;;
  let repo_path := "./" ++ repo_name in
  present <- os_path_exists repo_path ;;
  repo_path <- (if negb present then clone_repository self repo_name None
                else ret repo_path) ;;
  if repo_path =? "" then ret false
  else update_in_working_copy self repo_name files_to_update repo_path.

(* --------------------------------------------------------------------- *)
(** *** Repo quality helpers *)
(* --------------------------------------------------------------------- *)

(** [for f in v]: the items of a list, the keys of a dict, the characters
    of a string. *)
Definition py_iter (v : pyval) : M (list pyval) :=
  match v with
  | PList l => ret l
  | PDict d => ret (map fst d)
  | PStr s => ret (map (fun c => PStr (String c EmptyString)) (list_ascii_of_string s))
  | _ => raise TypeError
  end.

(** [[f x for x in l]]. *)
Fixpoint for_each {A B} (f : A -> M B) (l : list A) : M (list B) :=
  match l with
  | [] => ret []
  | x :: rest => y <- f x ;; ys <- for_each f rest ;; ret (y :: ys)
  end.

(** [any(p x for x in l)]: stops at the first hit. *)
Fixpoint any_of {A} (p : A -> M bool) (l : list A) : M bool :=
  match l with
  | [] => ret false
  | x :: rest => b <- p x ;; if b then ret true else any_of p rest
  end.

(** [v.lower()] and the other string methods: an [AttributeError] on what
    is not a string. *)
Definition py_string (v : pyval) : M string :=
  match v with
  | PStr s => ret s
  | _ => raise AttributeError
  end.

(** [s in v] for a string literal [s]. *)
Definition py_contains (s : string) (v : pyval) : M bool :=
  match v with
  | PStr x => ret (contains s x)
  | PList l => ret (existsb (key_is s) l)
  | PDict d => ret (existsb (key_is s) (map fst d))
  | _ => raise TypeError
  end.

Record analysis : Type := mk_analysis {
  files : list pyval;
  has_readme : bool;
  has_package_json : bool;
  has_dockerfile : bool;
  suggestions : list string
}.

(** The result is [None] for the empty dict of the failure path. *)
Definition analyze_repository (self : robot) (repo_name : string) : M (option analysis) :=
  res <- requests_call (api_request self GET (repo_url self repo_name ++ "/contents") None) ;;
  if negb (status_code res =? 200)%Z then
    _print_err "Failed to analyze repository" res ;;
    ret None
  else
    body <- res_json res ;;
    entries <- py_iter body ;;
    names <- for_each (fun f => py_getitem f "name") entries ;;
    readme <- any_of (fun n => s <- py_string n ;; ret (startswith (lower s) "readme")) names ;;
    let package_json := existsb (fun n => py_eq_str n "package.json") names in
    dockerfile <- any_of (fun n => s <- py_string n ;; ret (lower s =? "dockerfile")) names ;;
    let suggestions := [] in
    let suggestions :=
      if negb readme then (suggestions ++ ["Add a README.md file"])%list else suggestions in
    js <- (if negb package_json then any_of (py_contains ".js") names else ret false) ;;
    let suggestions :=
      if js then (suggestions ++ ["Consider adding package.json for Node.js project"])%list
      else suggestions in
    ret (Some (mk_analysis names readme package_json dockerfile suggestions)).

(* --------------------------------------------------------------------- *)
(** *** Generators *)
(* --------------------------------------------------------------------- *)

Definition nl : string := String (ascii_of_nat 10) EmptyString.

Definition dq : string := String (ascii_of_nat 34) EmptyString.

(** The text whose lines are [l], each ended by a line feed. *)
Definition text_of_lines (l : list string) : string :=
  String.concat "" (map (fun line => line ++ nl) l).

Definition generate_readme (repo_name : string) : string :=
  text_of_lines
    ["# " ++ repo_name;
     "";
     "## Description";
     "This project is managed by **AI DevOps Robot**.";
     "";
     "## Features";
     "- GitHub automation (create repo, commit, PR/merge)";
     "- One-click deployments via deploy hooks:";
     "  - Vercel";
     "  - Render";
     "  - Netlify";
     "";
     "## Quick Start";
     "1. Create `.env` (see `.env.example`) and `devops_config.yaml`.";
     "2. `pip install -r requirements.txt`";
     "3. Run: `python devops_robot.py`";
     "4. Use commands like `create_repo`, `improve_repo`, `deploy`.";
     "";
     "## License";
     "MIT"].

Definition generate_gitignore : string :=
  text_of_lines
    ["# Dependencies"; "node_modules/"; "npm-debug.log*"; "yarn-debug.log*";
     "yarn-error.log*"; "";
     "# Environment"; ".env"; ".env.*"; "";
     "# Build outputs"; "dist/"; "build/"; ".next/"; "out/"; "";
     "# IDE"; ".vscode/"; ".idea/"; "*.swp"; "*.swo"; "";
     "# OS"; ".DS_Store"; "Thumbs.db"; "";
     "# Logs"; "logs"; "*.log"; "";
     "# Coverage"; "coverage/"; "";
     "# Cache"; ".cache/"; ".parcel-cache/"].

(** The backslash that ends the first [curl] line of the Render step joins
    it to the next line of the Python literal. *)
Definition generate_github_actions_workflow (platforms : list string) : string :=
  text_of_lines
    ["name: Deploy (Hooks)";
     "";
     "on:";
     "  push:";
     "    branches: [ main ]";
     "";
     "jobs:";
     "  deploy:";
     "    runs-on: ubuntu-latest";
     "    steps:";
     "      - name: Trigger Vercel (if configured)";
     "        if: ${{ secrets.VERCEL_DEPLOY_HOOK != '' }}";
     "        run: curl -X POST " ++ dq ++ "${{ secrets.VERCEL_DEPLOY_HOOK }}" ++ dq;
     "";
     "      - name: Trigger Render (if configured)";
     "        if: ${{ secrets.RENDER_SERVICE_ID != '' && secrets.RENDER_TOKEN != '' }}";
     "        run: |";
     "          curl -X POST " ++ dq
       ++ "https://api.render.com/v1/services/${{ secrets.RENDER_SERVICE_ID }}/deploys"
       ++ dq ++ " "
       ++ "          -H " ++ dq ++ "Authorization: Bearer ${{ secrets.RENDER_TOKEN }}" ++ dq;
     "";
     "      - name: Trigger Netlify (if configured)";
     "        if: ${{ secrets.NETLIFY_BUILD_HOOK != '' }}";
     "        run: curl -X POST " ++ dq ++ "${{ secrets.NETLIFY_BUILD_HOOK }}" ++ dq].

(* --------------------------------------------------------------------- *)
(** *** The improvement planner *)
(* --------------------------------------------------------------------- *)

(** [d[k] = v] on a dict with string keys and values, in insertion order. *)
Fixpoint dict_set (d : list (string * string)) (k v : string) : list (string * string) :=
  match d with
  | [] => [(k, v)]
  | (k', v') :: d' =>
      if k' =? k then (k', v) :: d' else (k', v') :: dict_set d' k v
  end.

(** The [improvements] mapping that [auto_improve_repository] builds from
    the analysis. *)
Definition planned_improvements (repo_name : string) (a : analysis)
    : list (string * string) :=
  let improvements := [] in
  let improvements :=
    if negb (has_readme a) then dict_set improvements "README.md" (generate_readme repo_name)
    else improvements in
  let improvements :=
    if negb (existsb (fun f => py_eq_str f ".gitignore") (files a))
    then dict_set improvements ".gitignore" generate_gitignore
    else improvements in
  dict_set improvements ".github/workflows/deploy.yml"
    (generate_github_actions_workflow ["vercel"; "render"; "netlify"]).

Definition auto_improve_repository (self : robot) (repo_name : string) : M bool :=
  a <- analyze_repository self repo_name ;;
  match a with
  | None => ret false
  | Some a =>
      let improvements := planned_improvements repo_name a in
      match improvements with
      | _ :: _ =>
          auto_workflow_update_and_deploy self repo_name improvements ;;
          print (MImproved repo_name (List.length improvements)) ;;
          ret true
      | [] =>
          print MNoImprovements ;;
          ret true
      end
  end.

(* --------------------------------------------------------------------- *)
(** *** Batch *)
(* --------------------------------------------------------------------- *)

(** An item of the result list: [{"repo": repo, "success": ok}]. *)
Record outcome : Type := mk_outcome {
  repo : string;
  success : bool
}.

(** The dispatch on [operation] in the loop body; [files] is
    [kwargs.get("files")]. *)
Definition run_operation (self : robot) (operation : string)
    (files : option (list (string * string))) (repo : string) : M bool :=
  let ok := false in
  if operation =? "update_and_deploy" then
    auto_workflow_update_and_deploy self repo
      (match files with Some f => f | None => [] end)
  else if operation =? "improve" then
    auto_improve_repository self repo
  else if operation =? "deploy" then
    trigger_all_deployments self repo ;; ret true
  else
    print (MUnknownOperation operation) ;; ret ok.

(** The loop of [batch_repository_operation], [results] being the list
    built so far. *)
Fixpoint batch_loop (self : robot) (operation : string)
    (files : option (list (string * string))) (repos : list string)
    (results : list outcome) : M (list outcome) :=
  match repos with
  | [] => ret results
  | r :: rest =>
      print (MProcessing r) ;;
      ok <- run_operation self operation files r ;;
      let results := (results ++ [mk_outcome r ok])%list in
      sleep 1200 ;;
      batch_loop self operation files rest results
  end.

Definition batch_repository_operation (self : robot) (repos : list string)
    (operation : string) (files : option (list (string * string))) : M (list outcome) :=
  batch_loop self operation files repos [].

(* --------------------------------------------------------------------- *)
(** *** Status, health and pull-request review *)
(* --------------------------------------------------------------------- *)

(** Equality of dict keys: [True == 1] and [False == 0]. *)
Definition py_key_eq (a b : pyval) : bool :=
  let as_int v :=
    match v with
    | PInt z => Some z
    | PBool c => Some (if c then 1%Z else 0%Z)
    | _ => None
    end in
  match a, b with
  | PNone, PNone => true
  | PStr s, PStr s' => s =? s'
  | _, _ =>
      match as_int a, as_int b with
      | Some x, Some y => (x =? y)%Z
      | _, _ => false
      end
  end.

Fixpoint pydict_find (d : list (pyval * pyval)) (k : pyval) : option pyval :=
  match d with
  | [] => None
  | (k', v) :: d' => if py_key_eq k' k then Some v else pydict_find d' k
  end.

(** [d[k] = v]; lists and dicts are not hashable. *)
Fixpoint pydict_insert (d : list (pyval * pyval)) (k v : pyval) : list (pyval * pyval) :=
  match d with
  | [] => [(k, v)]
  | (k', v') :: d' =>
      if py_key_eq k' k then (k', v) :: d' else (k', v') :: pydict_insert d' k v
  end.

Definition pydict_set (d : list (pyval * pyval)) (k v : pyval) : M (list (pyval * pyval)) :=
  match k with
  | PList _ | PDict _ => raise TypeError
  | _ => ret (pydict_insert d k v)
  end.

(** [v[0]]. *)
Definition py_first (v : pyval) : M pyval :=
  match v with
  | PList (x :: _) => ret x
  | PList [] => raise IndexError
  | PStr (String c _) => ret (PStr (String c EmptyString))
  | PStr EmptyString => raise IndexError
  | PDict d =>
      match pydict_find d (PInt 0) with
      | Some x => ret x
      | None => raise (KeyError "0")
      end
  | _ => raise TypeError
  end.

(** [v > n] for an integer literal [n]. *)
Definition py_gt (v : pyval) (n : Z) : M bool :=
  match v with
  | PInt z => ret (z >? n)%Z
  | PBool b => ret ((if b then 1 else 0) >? n)%Z
  | _ => raise TypeError
  end.

Definition check_deployment_status (self : robot) (repo_name : string) : M pyval :=
  let status := PDict [] in
  if negb (has_token self) then ret status
  else
    res <- requests_call
             (api_request self GET (repo_url self repo_name ++ "/actions/runs") None) ;;
    if (status_code res =? 200)%Z then
      body <- res_json res ;;
      runs <- py_get body "workflow_runs" (PList []) ;;
      if truthy runs then
        latest <- py_first runs ;;
        st <- py_get latest "status" PNone ;;
        conclusion <- py_get latest "conclusion" PNone ;;
        updated_at <- py_get latest "updated_at" PNone ;;
        ret (PDict [(PStr "github_actions",
                     PDict [(PStr "status", st);
                            (PStr "conclusion", conclusion);
                            (PStr "updated_at", updated_at)])])
      else ret status
    else ret status.

(** The loop of [health_check_all_repos]: the right-hand side of the
    assignment is evaluated before the key. *)
Fixpoint health_report (repos : list pyval) (report : list (pyval * pyval))
    : M (list (pyval * pyval)) :=
  match repos with
  | [] => ret report
  | r :: rest =>
      last_updated <- py_getitem r "updated_at" ;;
      count <- py_getitem r "open_issues_count" ;;
      has_issues <- py_gt count 0 ;;
      is_private <- py_getitem r "private" ;;
      default_branch <- py_getitem r "default_branch" ;;
      name <- py_getitem r "name" ;;
      report <- pydict_set report name
                  (PDict [(PStr "last_updated", last_updated);
                          (PStr "has_issues", PBool has_issues);
                          (PStr "is_private", is_private);
                          (PStr "default_branch", default_branch)]) ;;
      health_report rest report
  end.

Definition health_check_all_repos (self : robot) : M pyval :=
  if negb (has_token self) then
    print MHealthSkipped ;; ret (PDict [])
  else
    res <- requests_call
             (api_request self GET (api ++ "/users/" ++ github_username self ++ "/repos") None) ;;
    if negb (status_code res =? 200)%Z then
      _print_err "Failed to list repositories" res ;; ret (PDict [])
    else
      body <- res_json res ;;
      repos <- py_iter body ;;
      report <- health_report repos [] ;;
      ret (PDict report).

(** The entries of a review. *)
Inductive remark : Type :=
| ConsoleLogFound (filename : string)
| UseLogging (filename : string)
| LargeChange (filename : string) (additions : pyval).

Record review : Type := mk_review {
  review_suggestions : list remark;
  review_warnings : list remark;
  review_approvals : list remark
}.

Fixpoint review_files (changed : list pyval) (rv : review) : M review :=
  match changed with
  | [] => ret rv
  | file :: rest =>
      filename <- py_getitem file "filename" ;;
      patch <- py_get file "patch" (PStr "") ;;
      let patch := if truthy patch then patch else PStr "" in
      name <- py_string filename ;;
      console <- (if endswith name ".js" then py_contains "console.log" patch else ret false) ;;
      let rv :=
        if console
        then mk_review (review_suggestions rv)
               (review_warnings rv ++ [ConsoleLogFound name])%list (review_approvals rv)
        else rv in
      prints <- (if endswith name ".py" then py_contains "print(" patch else ret false) ;;
      let rv :=
        if prints
        then mk_review (review_suggestions rv ++ [UseLogging name])%list
               (review_warnings rv) (review_approvals rv)
        else rv in
      additions <- py_get file "additions" (PInt 0) ;;
      large <- py_gt additions 500 ;;
      rv <- (if large then
               shown <- py_getitem file "additions" ;;
               ret (mk_review (review_suggestions rv)
                      (review_warnings rv ++ [LargeChange name shown])%list
                      (review_approvals rv))
             else ret rv) ;;
      review_files rest rv
  end.

(** The result is [None] for the empty dict of the failure path. *)
Definition auto_pr_review (self : robot) (repo_name : string) (pr_number : Z)
    : M (option review) :=
  if negb (has_token self) then raise missing_token
  else
    let u := repo_url self repo_name ++ "/pulls/" ++ str_of_Z pr_number ++ "/files" in
    res <- requests_call (api_request self GET u None) ;;
    if negb (status_code res =? 200)%Z then
      _print_err "Failed to fetch PR files" res ;; ret None
    else
      body <- res_json res ;;
      changed <- py_iter body ;;
      rv <- review_files changed (mk_review [] [] []) ;;
      ret (Some rv).

(* ===================================================================== *)
(** ** Observations on runs *)
(* ===================================================================== *)

(** The events that a run started at trace [t] has added when it ends at
    trace [t']. *)
Definition events_since (t t' : trace) : list event := skipn (List.length t) t'.

Definition is_http (e : event) : bool :=
  match e with EHttp _ _ => true | _ => false end.

Definition is_clone (e : event) : bool :=
  match e with
  | ERun c _ => match args c with "git" :: "clone" :: _ => true | _ => false end
  | _ => false
  end.

Definition is_commit (e : event) : bool :=
  match e with
  | ERun c _ => match args c with "git" :: "commit" :: _ => true | _ => false end
  | _ => false
  end.

Definition is_file_write (e : event) : bool :=
  match e with
  | EMakedirs _ _ | EWriteFile _ _ _ => true
  | _ => false
  end.

(** The request of an HTTP event carries no [timeout=]. *)
Definition untimed (e : event) : Prop :=
  match e with
  | EHttp r _ => timeout r = None
  | _ => True
  end.

(** The three hosting platforms and their adapters. *)
Inductive platform : Type := Vercel | Render | Netlify.

Definition platform_key (p : platform) : string :=
  match p with
  | Vercel => "vercel"
  | Render => "render"
  | Netlify => "netlify"
  end.

Definition trigger_adapter (self : robot) (p : platform) (repo_name : string)
    (service_id : pyval) : M bool :=
  match p with
  | Vercel => deploy_to_vercel self repo_name
  | Render => deploy_to_render self service_id
  | Netlify => deploy_to_netlify self
  end.

Definition not_enabled_message (p : platform) : message :=
  match p with
  | Vercel => MVercelNotEnabled
  | Render => MRenderNotEnabled
  | Netlify => MNetlifyNotEnabled
  end.

(** The configuration block of a platform, when the configuration holds
    dicts where the program expects them; a missing block is the empty
    dict. *)
Definition target_configuration (self : robot) (name : string)
    : option (list (pyval * pyval)) :=
  match dict_get (config self) "hosting_platforms" (PDict []) with
  | PDict platforms =>
      match dict_get platforms name (PDict []) with
      | PDict block => Some block
      | _ => None
      end
  | _ => None
  end.

Definition enabled_flag (block : list (pyval * pyval)) : bool :=
  truthy (dict_get block "enabled" PNone).

(* ===================================================================== *)
(** ** Sample configurations and worlds *)
(* ===================================================================== *)

Definition hook_block (enabled : bool) (hook : string) : pyval :=
  PDict [(PStr "enabled", PBool enabled); (PStr "deploy_hook_url", PStr hook)].

Definition render_block (enabled : bool) (service : string) : pyval :=
  PDict [(PStr "enabled", PBool enabled); (PStr "service_id", PStr service)].

Definition platforms_config (vercel render netlify : pyval) : list (pyval * pyval) :=
  [(PStr "hosting_platforms",
    PDict [(PStr "vercel", vercel); (PStr "render", render); (PStr "netlify", netlify)])].

(** The configuration that [create_default_config] writes. *)
Definition default_config : list (pyval * pyval) :=
  [(PStr "github_username", PStr "your_github_username");
   (PStr "default_branch", PStr "main");
   (PStr "auto_deploy", PBool true);
   (PStr "hosting_platforms",
    PDict [(PStr "vercel", hook_block false "");
           (PStr "render", render_block false "");
           (PStr "netlify", hook_block false "")]);
   (PStr "commit_message_templates",
    PList [PStr "🚀 Auto-deploy: {description}";
           PStr "📝 Update: {description}";
           PStr "🔧 Fix: {description}";
           PStr "✨ Feature: {description}"])].

Definition default_robot : robot := mk_robot default_config (Some "ghp_token") "octocat".

Definition ok_response : response := mk_response 200 (Some (PDict [])) "{}".

(** A world in which every request is answered with 200, every process
    exits with 0 and writes text, every path exists and every write
    succeeds. *)
Definition calm_world : world :=
  mk_world (fun _ _ => Responded ok_response)
           (fun _ _ => mk_completed 0 "main")
           (fun _ _ => true)
           (fun _ _ => true)
           (fun _ _ _ => true)
           (fun _ => None)
           (fun _ => "2024-01-01 00:00")
           (fun _ _ => true).

Definition vercel_hook : string := "https://api.vercel.com/v1/integrations/deploy/prj_1/abc".

Definition netlify_hook : string := "https://api.netlify.com/build_hooks/5c23354f".

(** Only Vercel is enabled; [auto_deploy] is left unspecified. *)
Definition vercel_robot : robot :=
  mk_robot (platforms_config (hook_block true vercel_hook) (render_block false "")
              (hook_block false ""))
           (Some "ghp_token") "octocat".

(** Render and Netlify are enabled. *)
Definition render_netlify_robot : robot :=
  mk_robot (platforms_config (hook_block false "") (render_block true "srv-42")
              (hook_block true netlify_hook))
           (Some "ghp_token") "octocat".

(** Vercel and Netlify are enabled. *)
Definition vercel_netlify_robot : robot :=
  mk_robot (platforms_config (hook_block true vercel_hook) (render_block false "")
              (hook_block true netlify_hook))
           (Some "ghp_token") "octocat".

(** The three platforms are enabled. *)
Definition all_platforms_robot : robot :=
  mk_robot (platforms_config (hook_block true vercel_hook) (render_block true "srv-42")
              (hook_block true netlify_hook))
           (Some "ghp_token") "octocat".

(** No token, neither in the environment nor in the configuration. *)
Definition tokenless_robot : robot := mk_robot default_config None "octocat".

Definition render_env (name : string) : option string :=
  if name =? "RENDER_TOKEN" then Some "rnd_secret" else None.

Definition is_render_request (r : request) : bool :=
  match target r with UrlRender _ => true | _ => false end.

Definition requests_url (u : string) (r : request) : bool :=
  match target r with
  | UrlStr s => s =? u
  | UrlObj v => key_is u v
  | UrlRender _ => false
  end.

(** The event is a request to [u]. *)
Definition posts_to (u : string) (e : event) : bool :=
  match e with EHttp r _ => requests_url u r | _ => false end.

(** Like [calm_world], with [RENDER_TOKEN] set and the Render API out of
    reach: the connection fails. *)
Definition render_unreachable : world :=
  mk_world (fun _ r => if is_render_request r then Failed ConnectionError
                       else Responded ok_response)
           (proc_reply calm_world) (path_exists calm_world) (makedirs_ok calm_world)
           (write_ok calm_world) render_env (clock calm_world)
           (output_decodes calm_world).

(** Like [calm_world], with [RENDER_TOKEN] set and every deploy endpoint
    answering 503. *)
Definition deploys_refused : world :=
  mk_world (fun _ _ => Responded (mk_response 503 None "Service Unavailable"))
           (proc_reply calm_world) (path_exists calm_world) (makedirs_ok calm_world)
           (write_ok calm_world) render_env (clock calm_world)
           (output_decodes calm_world).

(** Like [calm_world], with the Vercel hook out of reach. *)
Definition vercel_unreachable : world :=
  mk_world (fun _ r => if requests_url vercel_hook r then Failed ReadTimeout
                       else Responded ok_response)
           (proc_reply calm_world) (path_exists calm_world) (makedirs_ok calm_world)
           (write_ok calm_world) (getenv calm_world) (clock calm_world)
           (output_decodes calm_world).

(** A content listing as the provider returns it. *)
Definition listing_entry (name : string) : pyval :=
  PDict [(PStr "name", PStr name); (PStr "type", PStr "file")].

Definition listing_of (names : list string) : pyval := PList (map listing_entry names).

(** Like [calm_world], with listings that hold a README and an ignore
    file, and the listing of repository [r2] out of reach. *)
Definition second_repo_unreachable : world :=
  mk_world (fun _ r =>
              if requests_url "https://api.github.com/repos/octocat/r2/contents" r
              then Failed ConnectionError
              else Responded (mk_response 200 (Some (listing_of ["README.md"; ".gitignore"])) ""))
           (proc_reply calm_world) (path_exists calm_world) (makedirs_ok calm_world)
           (write_ok calm_world) (getenv calm_world) (clock calm_world)
           (output_decodes calm_world).

Definition is_processing (r : string) (e : event) : bool :=
  match e with EPrint (MProcessing x) => x =? r | _ => false end.

Definition is_push (c : command) : bool :=
  match args c with "git" :: "push" :: _ => true | _ => false end.

Definition is_failed_push (e : event) : bool :=
  match e with
  | ERun c out => andb (is_push c) (negb (returncode out =? 0)%Z)
  | _ => false
  end.

(** Like [calm_world], with every [git push] rejected. *)
Definition push_rejected : world :=
  mk_world (http_reply calm_world)
           (fun _ c => if is_push c then mk_completed 1 "" else mk_completed 0 "main")
           (path_exists calm_world) (makedirs_ok calm_world)
           (write_ok calm_world) (getenv calm_world) (clock calm_world)
           (output_decodes calm_world).

(** Like [deploys_refused], with every [git commit] and [git push]
    failing as well. *)
Definition everything_fails : world :=
  mk_world (http_reply deploys_refused)
           (fun _ c => match args c with
                       | "git" :: "commit" :: _ => mk_completed 1 ""
                       | "git" :: "push" :: _ => mk_completed 1 ""
                       | _ => mk_completed 0 "main"
                       end)
           (path_exists calm_world) (makedirs_ok calm_world)
           (write_ok calm_world) render_env (clock calm_world)
           (output_decodes calm_world).

(** Like [calm_world], on a read-only disk. *)
Definition read_only_disk : world :=
  mk_world (http_reply calm_world) (proc_reply calm_world) (path_exists calm_world)
           (makedirs_ok calm_world) (fun _ _ _ => false)
           (getenv calm_world) (clock calm_world)
           (output_decodes calm_world).

(** Like [calm_world], with no local directory and every clone failing. *)
Definition clone_refused : world :=
  mk_world (http_reply calm_world)
           (fun _ c => match args c with
                       | "git" :: "clone" :: _ => mk_completed 128 ""
                       | _ => mk_completed 0 "main"
                       end)
           (fun _ _ => false) (makedirs_ok calm_world)
           (write_ok calm_world) (getenv calm_world) (clock calm_world)
           (output_decodes calm_world).

(** The events that follow the first event satisfying [p]. *)
Fixpoint events_after (p : event -> bool) (l : list event) : list event :=
  match l with
  | [] => []
  | e :: rest => if p e then rest else events_after p rest
  end.


Definition has_timeout (e : event) : bool :=
  match e with
  | EHttp r _ => match timeout r with Some _ => true | None => false end
  | _ => false
  end.

Definition sample_files : list (string * string) := [("index.html", "<h1>hello</h1>")].

(** The batch over [repos], started at trace [t], processes every
    repository: each operation returns, its value is recorded in order,
    and the run ends at trace [t']. *)
Inductive processed (self : robot) (operation : string)
    (files : option (list (string * string))) (w : world)
    : list string -> trace -> list outcome -> trace -> Prop :=
| processed_nil (t : trace) :
    processed self operation files w [] t [] t
| processed_cons (r : string) (rest : list string) (t t1 t2 : trace)
    (ok : bool) (results : list outcome) :
    run_operation self operation files r w (t ++ [EPrint (MProcessing r)])%list
    = (Ret ok, t1) ->
    processed self operation files w rest (t1 ++ [ESleep 1200])%list results t2 ->
    processed self operation files w (r :: rest) t (mk_outcome r ok :: results) t2.

(** Like [clone_refused], with a local directory for every repository
    but [r2]. *)
Definition second_repo_missing : world :=
  mk_world (http_reply calm_world) (proc_reply clone_refused)
           (fun _ p => negb (p =? "./r2")) (makedirs_ok calm_world)
           (write_ok calm_world) (getenv calm_world) (clock calm_world)
           (output_decodes calm_world).

(** The public methods of the robot, with their arguments. *)
Inductive method_call : Type :=
| CallGetDefaultBranch (repo_name : string)
| CallCreateRepository (repo_name description : string) (private : bool)
| CallCloneRepository (repo_name : string) (local_path : option string)
| CallCommitAndPush (repo_path : string) (message : option string)
    (files : option (list string)) (branch : option string)
| CallCreatePullRequest (repo_name title body head_branch base_branch : string)
| CallMergePullRequest (repo_name : string) (pr_number : Z) (merge_method : string)
| CallDeployToVercel (repo_name : string)
| CallDeployToRender (service_id : pyval)
| CallDeployToNetlify
| CallAutoWorkflow (repo_name : string) (files_to_update : list (string * string))
| CallTriggerAllDeployments (repo_name : string)
| CallAnalyzeRepository (repo_name : string)
| CallAutoImproveRepository (repo_name : string)
| CallBatch (repos : list string) (operation : string)
    (files : option (list (string * string)))
| CallCheckDeploymentStatus (repo_name : string)
| CallHealthCheckAllRepos
| CallAutoPrReview (repo_name : string) (pr_number : Z).

(** A call of a method, its result dropped. *)
Definition invoke (self : robot) (c : method_call) : M unit :=
  match c with
  | CallGetDefaultBranch r => get_default_branch self r ;; ret tt
  | CallCreateRepository r d p => create_repository self r d p ;; ret tt
  | CallCloneRepository r p => clone_repository self r p ;; ret tt
  | CallCommitAndPush p m f b => commit_and_push self p m f b
  | CallCreatePullRequest r ti bo h b => create_pull_request self r ti bo h b ;; ret tt
  | CallMergePullRequest r n m => merge_pull_request self r n m ;; ret tt
  | CallDeployToVercel r => deploy_to_vercel self r ;; ret tt
  | CallDeployToRender s => deploy_to_render self s ;; ret tt
  | CallDeployToNetlify => deploy_to_netlify self ;; ret tt
  | CallAutoWorkflow r f => auto_workflow_update_and_deploy self r f ;; ret tt
  | CallTriggerAllDeployments r => trigger_all_deployments self r ;; ret tt
  | CallAnalyzeRepository r => analyze_repository self r ;; ret tt
  | CallAutoImproveRepository r => auto_improve_repository self r ;; ret tt
  | CallBatch rs o f => batch_repository_operation self rs o f ;; ret tt
  | CallCheckDeploymentStatus r => check_deployment_status self r ;; ret tt
  | CallHealthCheckAllRepos => health_check_all_repos self ;; ret tt
  | CallAutoPrReview r n => auto_pr_review self r n ;; ret tt
  end.

(** The message with which a hook adapter reports a transport error; the
    Render adapter has none. *)
Definition request_error_message (p : platform) (k : transport_error) : option message :=
  match p with
  | Vercel => Some (MVercelRequestError k)
  | Netlify => Some (MNetlifyRequestError k)
  | Render => None
  end.

(** [requests.post(hook)]. *)
Definition hook_request (hook : pyval) : request :=
  mk_request POST (UrlObj hook) [] None None.

(** The request of [analyze_repository]. *)
Definition contents_request (self : robot) (repo_name : string) : request :=
  api_request self GET (repo_url self repo_name ++ "/contents") None.

(** The command of [clone_repository] for the default local path. *)
Definition clone_command (self : robot) (repo_name : string) : command :=
  mk_command ["git"; "clone";
              "https://github.com/" ++ github_username self ++ "/" ++ repo_name ++ ".git";
              "./" ++ repo_name] None.

(** The first step of [auto_workflow_update_and_deploy], up to the test of
    [repo_path]: the local directory, a fresh clone, or the empty path of
    a failed clone. *)
Definition resolve_working_copy (self : robot) (repo_name : string) : M string :=
  print (MStarting repo_name) ;;
  present <- os_path_exists ("./" ++ repo_name) ;;
  if negb present then clone_repository self repo_name None
  else ret ("./" ++ repo_name).

(** A working copy is at hand: the directory exists when the workflow
    starts, or its clone exits with 0. *)
Definition working_copy_obtained (self : robot) (repo_name : string)
    (w : world) (t : trace) : bool :=
  let t0 := (t ++ [EPrint (MStarting repo_name)])%list in
  orb (path_exists w t0 ("./" ++ repo_name))
      (returncode (proc_reply w t0 (clone_command self repo_name)) =? 0)%Z.

(** The commit message of the sequencer. *)
Definition auto_update_message (files_to_update : list (string * string)) : string :=
  "🤖 Auto-update: " ++ str_of_nat (List.length files_to_update) ++ " files updated".

(** The entry of a content listing names a file. *)
Definition entry_named (entry : pyval) (name : string) : Prop :=
  exists d, entry = PDict d /\ dict_find d "name" = Some (PStr name).

Definition workflow_path : string := ".github/workflows/deploy.yml".

(** The name starts with "readme", whatever the case of its letters. *)
Definition readme_like (name : string) : bool := startswith (lower name) "readme".

(** The analysis of a listing whose entries have the names [names]. *)
Definition analysis_of (names : list string) : analysis :=
  let readme := existsb readme_like names in
  let package_json := existsb (fun n => n =? "package.json") names in
  let dockerfile := existsb (fun n => lower n =? "dockerfile") names in
  mk_analysis (map PStr names) readme package_json dockerfile
    ((if negb readme then ["Add a README.md file"] else [])
     ++ (if andb (negb package_json) (existsb (contains ".js") names)
         then ["Consider adding package.json for Node.js project"] else []))%list.

(** Like [calm_world], with a listing that holds sources only. *)
Definition bare_repository : world :=
  mk_world (fun _ _ => Responded (mk_response 200 (Some (listing_of ["main.py"; "src"])) ""))
           (proc_reply calm_world) (path_exists calm_world) (makedirs_ok calm_world)
           (write_ok calm_world) (getenv calm_world) (clock calm_world)
           (output_decodes calm_world).

(** The request of [deploy_to_render]. *)
Definition render_request (render_token : string) (service_id : pyval) : request :=
  mk_request POST (UrlRender service_id)
    [("Authorization", "Bearer " ++ render_token); ("Content-Type", "application/json")]
    None None.

(** Like [calm_world], with [RENDER_TOKEN] set and the Render API answering
    500. *)
Definition render_refuses : world :=
  mk_world (fun _ r => if is_render_request r
                       then Responded (mk_response 500 None "Internal Server Error")
                       else Responded ok_response)
           (proc_reply calm_world) (path_exists calm_world) (makedirs_ok calm_world)
           (write_ok calm_world) render_env (clock calm_world)
           (output_decodes calm_world).

(* ===================================================================== *)
(** ** Properties of computations *)
(* ===================================================================== *)

(** Every run of [m] only adds events, and the events it adds satisfy [P]. *)
Definition emits {A} (P : event -> Prop) (m : M A) : Prop :=
  forall w t, exists es, snd (m w t) = (t ++ es)%list /\ Forall P es.

(** Every exception that escapes [m] satisfies [Q]. *)
Definition raises_only {A} (Q : exn -> Prop) (m : M A) : Prop :=
  forall w t e, fst (m w t) = Raise e -> Q e.

(** In the world [w], [m] raises within [Q] only. *)
Definition raises_in {A} (w : world) (Q : exn -> Prop) (m : M A) : Prop :=
  forall t e, fst (m w t) = Raise e -> Q e.

Definition is_called_process_error (e : exn) : Prop :=
  match e with CalledProcessError _ => True | _ => False end.

Definition is_decode_error (e : exn) : Prop :=
  match e with UnicodeDecodeError => True | _ => False end.

(** What a [text=True] call with [check=True] can raise. *)
Definition is_read_error (e : exn) : Prop :=
  match e with CalledProcessError _ | UnicodeDecodeError => True | _ => False end.

(** Every output of the world decodes. *)
Definition readable (w : world) : Prop :=
  forall t c, output_decodes w t c = true.

(* ===================================================================== *)
(** ** Commit messages from file types *)
(* ===================================================================== *)

From Stdlib Require Import Permutation.

(** [s.split(sep)] for a one-character separator. *)
Fixpoint split_on (sep : ascii) (s : string) : list string :=
  match s with
  | EmptyString => [EmptyString]
  | String c s' =>
      if Ascii.eqb c sep then EmptyString :: split_on sep s'
      else match split_on sep s' with
           | part :: parts => String c part :: parts
           | [] => [String c EmptyString]
           end
  end.

(** [Path(p).name] on POSIX: the last component of [p], the empty and the
    "." components being dropped. *)
Definition path_name (p : string) : string :=
  last (filter (fun x => andb (negb (x =? "")) (negb (x =? "."))) (split_on slash p)) "".

(** The part of [s] from its last dot on. *)
Fixpoint from_last_dot (s : string) : option string :=
  match s with
  | EmptyString => None
  | String c s' =>
      match from_last_dot s' with
      | Some r => Some r
      | None => if Ascii.eqb c "."%char then Some s else None
      end
  end.

(** [Path(p).suffix], by the rule of [pathlib] before Python 3.14: the
    name from its last dot on, when that dot is neither the first nor the
    last character of the name. *)
Definition path_suffix (p : string) : string :=
  match path_name p with
  | EmptyString => ""
  | String _ rest =>
      match from_last_dot rest with
      | Some r => if (2 <=? String.length r)%nat then r else ""
      | None => ""
      end
  end.

(** [d.get(k, default)] and [d[k] = v] on the dict of counts. *)
Fixpoint tally_get (d : list (string * nat)) (k : string) (default : nat) : nat :=
  match d with
  | [] => default
  | (k', v) :: d' => if k' =? k then v else tally_get d' k default
  end.

Fixpoint tally_set (d : list (string * nat)) (k : string) (v : nat) : list (string * nat) :=
  match d with
  | [] => [(k, v)]
  | (k', v') :: d' => if k' =? k then (k', v) :: d' else (k', v') :: tally_set d' k v
  end.

(** [k in d]. *)
Definition tally_mem (d : list (string * nat)) (k : string) : bool :=
  existsb (fun kv => fst kv =? k) d.

(** The body of the loop of [smart_commit_message].  Suffixes that differ
    in non-ASCII letters only may share a key in Python; the method reads
    the dict at ASCII keys alone. *)
Definition count_file_type (file_types : list (string * nat)) (file : string)
    : list (string * nat) :=
  let ext := lower (path_suffix file) in
  tally_set file_types ext (tally_get file_types ext 0 + 1).

Definition smart_commit_message (changed_files : list string) : string :=
  let file_types := fold_left count_file_type changed_files [] in
  if tally_mem file_types ".py" then
    "🐍 Update Python files (" ++ str_of_nat (tally_get file_types ".py" 0) ++ " files)"
  else if orb (tally_mem file_types ".js") (tally_mem file_types ".ts") then
    let total := tally_get file_types ".js" 0 + tally_get file_types ".ts" 0 in
    "📦 Update JavaScript/TypeScript (" ++ str_of_nat total ++ " files)"
  else if tally_mem file_types ".md" then
    "📝 Update documentation (" ++ str_of_nat (tally_get file_types ".md" 0) ++ " files)"
  else if orb (tally_mem file_types ".css") (tally_mem file_types ".scss") then
    let total := tally_get file_types ".css" 0 + tally_get file_types ".scss" 0 in
    "🎨 Update styles (" ++ str_of_nat total ++ " files)"
  else
    "🔧 Update " ++ str_of_nat (List.length changed_files) ++ " files".

(** The number of files whose suffix, in lower case, is [ext]. *)
Definition suffix_count (ext : string) (changed_files : list string) : nat :=
  List.length (filter (fun f => lower (path_suffix f) =? ext) changed_files).

(* ===================================================================== *)
(** ** Further observations on runs *)
(* ===================================================================== *)

(** The messages of the hook adapters; the Render adapter has its own. *)
Definition missing_hook_message (p : platform) : option message :=
  match p with
  | Vercel => Some MVercelMissingHook
  | Netlify => Some MNetlifyMissingHook
  | Render => None
  end.

Definition triggered_message (p : platform) : message :=
  match p with
  | Vercel => MVercelTriggered
  | Render => MRenderTriggered
  | Netlify => MNetlifyTriggered
  end.

Definition failure_prefix (p : platform) : string :=
  match p with
  | Vercel => "Vercel deployment failed"
  | Render => "Render deployment failed"
  | Netlify => "Netlify deployment failed"
  end.

(** What an adapter prints on a response. *)
Definition response_report (p : platform) (resp : response) : message :=
  if accepted (status_code resp) then triggered_message p
  else MError (failure_prefix p) (status_code resp) (_safe_json resp).

(** The number of requests among the events. *)
Definition request_count (es : list event) : nat := List.length (filter is_http es).

Definition is_sleep (e : event) : bool :=
  match e with ESleep _ => true | _ => false end.

Definition is_print (e : event) : bool :=
  match e with EPrint _ => true | _ => false end.

(** The event is a [POST] without a body to a deploy endpoint: a hook URL
    or the Render API. *)
Definition is_deploy_request (e : event) : bool :=
  match e with
  | EHttp r _ =>
      match meth r, target r, json_body r with
      | POST, UrlObj _, None => true
      | POST, UrlRender _, None => true
      | _, _, _ => false
      end
  | _ => false
  end.

(** Every run of [m] only adds events, at most [n] requests among them. *)
Definition sends_at_most {A} (n : nat) (m : M A) : Prop :=
  forall w t, exists es, snd (m w t) = (t ++ es)%list /\ request_count es <= n.

(** The request of [get_default_branch]. *)
Definition repository_request (self : robot) (repo_name : string) : request :=
  api_request self GET (repo_url self repo_name) None.


(** The request of [health_check_all_repos]. *)
Definition repositories_request (self : robot) : request :=
  api_request self GET (api ++ "/users/" ++ github_username self ++ "/repos") None.

(** The request of [auto_pr_review]. *)
Definition pull_files_request (self : robot) (repo_name : string) (pr_number : Z) : request :=
  api_request self GET
    (repo_url self repo_name ++ "/pulls/" ++ str_of_Z pr_number ++ "/files") None.

(** What [health_check_all_repos] reads of a repository of the listing. *)
Record repository_facts : Type := mk_repository_facts {
  facts_name : string;
  facts_updated_at : pyval;
  facts_open_issues : Z;
  facts_private : pyval;
  facts_default_branch : pyval
}.

(** The entry of the listing holds these facts, among other fields. *)
Definition entry_describes (entry : pyval) (f : repository_facts) : Prop :=
  exists d,
    entry = PDict d
    /\ dict_find d "name" = Some (PStr (facts_name f))
    /\ dict_find d "updated_at" = Some (facts_updated_at f)
    /\ dict_find d "open_issues_count" = Some (PInt (facts_open_issues f))
    /\ dict_find d "private" = Some (facts_private f)
    /\ dict_find d "default_branch" = Some (facts_default_branch f).

(** The entry of the health report for a repository. *)
Definition health_entry (f : repository_facts) : pyval * pyval :=
  (PStr (facts_name f),
   PDict [(PStr "last_updated", facts_updated_at f);
          (PStr "has_issues", PBool (facts_open_issues f >? 0)%Z);
          (PStr "is_private", facts_private f);
          (PStr "default_branch", facts_default_branch f)]).

(** A listing of two repositories, as the provider returns it. *)
Definition sample_repositories : pyval :=
  PList [PDict [(PStr "name", PStr "alpha"); (PStr "private", PBool false);
                (PStr "updated_at", PStr "2024-05-01T10:00:00Z");
                (PStr "open_issues_count", PInt 3);
                (PStr "default_branch", PStr "main")];
         PDict [(PStr "name", PStr "beta"); (PStr "private", PBool true);
                (PStr "updated_at", PStr "2024-04-01T10:00:00Z");
                (PStr "open_issues_count", PInt 0);
                (PStr "default_branch", PStr "trunk")]].

(** Like [calm_world], with every request answered by [body]. *)
Definition answering (body : pyval) : world :=
  mk_world (fun _ _ => Responded (mk_response 200 (Some body) ""))
           (proc_reply calm_world) (path_exists calm_world) (makedirs_ok calm_world)
           (write_ok calm_world) (getenv calm_world) (clock calm_world)
           (output_decodes calm_world).


(** What [auto_pr_review] reads of a changed file of the pull request. *)
Record changed_file : Type := mk_changed_file {
  changed_filename : string;
  changed_patch : string;
  changed_additions : Z
}.

(** The entry of the file listing holds these facts: a patch that is
    absent or null counts as empty, absent additions as 0. *)
Definition entry_changes (entry : pyval) (f : changed_file) : Prop :=
  exists d,
    entry = PDict d
    /\ dict_find d "filename" = Some (PStr (changed_filename f))
    /\ (dict_get d "patch" (PStr "") = PStr (changed_patch f)
        \/ (dict_get d "patch" (PStr "") = PNone /\ changed_patch f = ""))
    /\ dict_get d "additions" (PInt 0) = PInt (changed_additions f).

(** The rules of the review, file by file. *)
Definition file_warnings (f : changed_file) : list remark :=
  ((if andb (endswith (changed_filename f) ".js") (contains "console.log" (changed_patch f))
    then [ConsoleLogFound (changed_filename f)] else [])
   ++ (if (changed_additions f >? 500)%Z
       then [LargeChange (changed_filename f) (PInt (changed_additions f))] else []))%list.

Definition file_suggestions (f : changed_file) : list remark :=
  if andb (endswith (changed_filename f) ".py") (contains "print(" (changed_patch f))
  then [UseLogging (changed_filename f)] else [].

(** The files of a pull request, as the provider lists them. *)
Definition sample_pull_files : pyval :=
  PList [PDict [(PStr "filename", PStr "web/app.js");
                (PStr "patch", PStr "+ console.log(state)");
                (PStr "additions", PInt 12)];
         PDict [(PStr "filename", PStr "tools/gen.py");
                (PStr "patch", PStr "+ print(total)");
                (PStr "additions", PInt 640)];
         PDict [(PStr "filename", PStr "assets/logo.png")]].

(** [local_path] as [clone_repository] uses it: the default when it is
    absent or empty. *)
Definition clone_target (repo_name : string) (local_path : option string) : string :=
  match local_path with
  | Some p => if p =? "" then "./" ++ repo_name else p
  | None => "./" ++ repo_name
  end.

Definition clone_command_to (self : robot) (repo_name path : string) : command :=
  mk_command ["git"; "clone";
              "https://github.com/" ++ github_username self ++ "/" ++ repo_name ++ ".git";
              path] None.

Definition is_push_event (e : event) : bool :=
  match e with ERun c _ => is_push c | _ => false end.

(** The two reports of [commit_and_push]. *)
Definition is_report (e : event) : bool :=
  match e with
  | EPrint (MPushed _ _) => true
  | EPrint (MGitFailed _) => true
  | _ => false
  end.

(** The event is neither a commit, nor a push, nor a report. *)
Definition before_commit (e : event) : bool :=
  andb (negb (is_commit e)) (andb (negb (is_push_event e)) (negb (is_report e))).

(** How a run of [commit_and_push] ends, after the identity, the branch
    and the staging: staging failed; the commit failed; the commit
    succeeded and the push failed; both succeeded. *)
Inductive commit_ending (repo_path : string) : list event -> Prop :=
| staging_failed (code : Z) :
    code <> 0%Z ->
    commit_ending repo_path [EPrint (MGitFailed code)]
| commit_failed (msg : string) (out : completed) :
    returncode out <> 0%Z ->
    commit_ending repo_path
      [ERun (git ["commit"; "-m"; msg] repo_path) out;
       EPrint (MGitFailed (returncode out))]
| push_failed (msg branch : string) (out pushed : completed) :
    returncode out = 0%Z ->
    returncode pushed <> 0%Z ->
    commit_ending repo_path
      [ERun (git ["commit"; "-m"; msg] repo_path) out;
       ERun (git ["push"; "origin"; branch] repo_path) pushed;
       EPrint (MGitFailed (returncode pushed))]
| push_done (msg branch : string) (out pushed : completed) :
    returncode out = 0%Z ->
    returncode pushed = 0%Z ->
    commit_ending repo_path
      [ERun (git ["commit"; "-m"; msg] repo_path) out;
       ERun (git ["push"; "origin"; branch] repo_path) pushed;
       EPrint (MPushed branch msg)].

(** The exception is a [CalledProcessError] with a non-zero code. *)
Definition is_process_failure (e : exn) : Prop :=
  match e with CalledProcessError c => c <> 0%Z | _ => False end.

(** The event comes before the commit. *)
Definition quiet_git (e : event) : Prop := before_commit e = true.



(** Like [bare_repository], with no local directory and every clone
    failing. *)
Definition listed_but_uncloneable : world :=
  mk_world (http_reply bare_repository) (proc_reply clone_refused)
           (path_exists clone_refused) (makedirs_ok calm_world)
           (write_ok calm_world) (getenv calm_world) (clock calm_world)
           (output_decodes calm_world).

(** Like [calm_world], with every request answered by a 404. *)
Definition not_found : world :=
  mk_world (fun _ _ => Responded (mk_response 404 (Some (PDict [(PStr "message", PStr "Not Found")])) ""))
           (proc_reply calm_world) (path_exists calm_world) (makedirs_ok calm_world)
           (write_ok calm_world) (getenv calm_world) (clock calm_world)
           (output_decodes calm_world).

(** Like [calm_world], with a [user.name] whose bytes do not decode. *)
Definition garbled_identity : world :=
  mk_world (http_reply calm_world) (proc_reply calm_world) (path_exists calm_world)
           (makedirs_ok calm_world) (write_ok calm_world) (getenv calm_world)
           (clock calm_world)
           (fun _ c => match args c with
                       | ["git"; "config"; "user.name"] => false
                       | _ => true
                       end).

(* ===================================================================== *)
(** ** Reasoning about runs *)
(* ===================================================================== *)

Open Scope list_scope.

Lemma events_since_app (t es : trace) : events_since t (t ++ es) = es.
Proof.
  unfold events_since. induction t as [|e t IH]; simpl; auto.
Qed.

Lemma bind_ret {A B} (m : M A) (f : A -> M B) w t a t' :
  m w t = (Ret a, t') -> bind m f w t = f a w t'.
Proof. intros E. unfold bind. rewrite E. reflexivity. Qed.

Lemma bind_raise {A B} (m : M A) (f : A -> M B) w t e t' :
  m w t = (Raise e, t') -> bind m f w t = (Raise e, t').
Proof. intros E. unfold bind. rewrite E. reflexivity. Qed.

Lemma platform_cfg_block self name block w t :
  target_configuration self name = Some block ->
  platform_cfg self name w t = (Ret (PDict block), t).
Proof.
  unfold target_configuration, platform_cfg.
  destruct (dict_get (config self) "hosting_platforms" (PDict [])); try discriminate.
  simpl. destruct (dict_get d name (PDict [])); try discriminate.
  intros E. inversion E. reflexivity.
Qed.

(* ===================================================================== *)
(** ** Platform trigger adapters *)
(* ===================================================================== *)

(** C7.  An adapter whose target configuration has a false [enabled] flag
    returns [False] at once: all it does is print that the platform is not
    enabled, and it makes no network call. *)
Theorem disabled_target_short_circuits
    (self : robot) (p : platform) (block : list (pyval * pyval))
    (repo_name : string) (service_id : pyval) (w : world) (t : trace) :
  target_configuration self (platform_key p) = Some block ->
  enabled_flag block = false ->
  trigger_adapter self p repo_name service_id w t
    = (Ret false, (t ++ [EPrint (not_enabled_message p)])%list)
  /\ forallb (fun e => negb (is_http e))
       (events_since t (snd (trigger_adapter self p repo_name service_id w t))) = true.
Proof.
  intros Hcfg Hflag.
  assert (trigger_adapter self p repo_name service_id w t
          = (Ret false, (t ++ [EPrint (not_enabled_message p)])%list)) as E.
  { unfold enabled_flag in Hflag.
    destruct p; simpl in *;
      [unfold deploy_to_vercel | unfold deploy_to_render | unfold deploy_to_netlify];
      rewrite (bind_ret _ _ _ _ _ _ (platform_cfg_block _ _ _ w t Hcfg));
      simpl; unfold bind at 1; simpl; rewrite Hflag; reflexivity. }
  split; [exact E|].
  rewrite E. simpl. rewrite events_since_app. destruct p; reflexivity.
Qed.

Lemma disabled_target_short_circuits_witness :
  trigger_adapter default_robot Render "demo" PNone calm_world []
    = (Ret false, [EPrint MRenderNotEnabled])
  /\ forallb (fun e => negb (is_http e))
       (events_since [] (snd (trigger_adapter default_robot Render "demo" PNone calm_world [])))
     = true.
Proof.
  apply (disabled_target_short_circuits default_robot Render
           [(PStr "enabled", PBool false); (PStr "service_id", PStr "")]).
  - reflexivity.
  - reflexivity.
Defined.

(* ===================================================================== *)
(** ** The events of a computation *)
(* ===================================================================== *)

Section Emits.

Variable P : event -> Prop.

Lemma emits_ret {A} (a : A) : emits P (ret a).
Proof. intros w t. exists []. simpl. rewrite app_nil_r. auto. Qed.

Lemma emits_raise {A} (e : exn) : emits P (@raise A e).
Proof. intros w t. exists []. simpl. rewrite app_nil_r. auto. Qed.

Lemma emits_bind {A B} (m : M A) (f : A -> M B) :
  emits P m -> (forall a, emits P (f a)) -> emits P (bind m f).
Proof.
  intros Hm Hf w t. destruct (Hm w t) as [es [E F]].
  unfold bind. destruct (m w t) as [[a|e] t']; simpl in E; subst t'.
  - destruct (Hf a w (t ++ es)) as [es' [E' F']].
    exists (es ++ es'). rewrite E', app_assoc. split; auto.
    apply Forall_app; auto.
  - exists es. auto.
Qed.

Lemma emits_try {A} (m : M A) (h : exn -> option (M A)) :
  emits P m -> (forall e k, h e = Some k -> emits P k) -> emits P (try_except m h).
Proof.
  intros Hm Hh w t. destruct (Hm w t) as [es [E F]].
  unfold try_except. destruct (m w t) as [[a|e] t']; simpl in E; subst t'.
  - exists es. auto.
  - destruct (h e) as [k|] eqn:Ek.
    + destruct (Hh e k Ek w (t ++ es)) as [es' [E' F']].
      exists (es ++ es'). rewrite E', app_assoc. split; auto.
      apply Forall_app; auto.
    + exists es. auto.
Qed.

Lemma emits_silent {A} (m : M A) :
  (forall w t, snd (m w t) = t) -> emits P m.
Proof. intros H w t. exists []. rewrite H, app_nil_r. auto. Qed.

Lemma emits_emit (e : event) : P e -> emits P (emit e).
Proof. intros H w t. exists [e]. simpl. auto. Qed.

Lemma emits_requests_call (r : request) :
  (forall out, P (EHttp r out)) -> emits P (requests_call r).
Proof. intros H w t. exists [EHttp r (http_reply w t r)]. simpl. auto. Qed.

Lemma emits_subprocess_run (c : command) (check : bool) :
  (forall out, P (ERun c out)) -> emits P (subprocess_run c check).
Proof. intros H w t. exists [ERun c (proc_reply w t c)]. simpl. auto. Qed.

Lemma emits_subprocess_read (c : command) (check : bool) :
  (forall out, P (ERun c out)) -> emits P (subprocess_read c check).
Proof. intros H w t. exists [ERun c (proc_reply w t c)]. simpl. auto. Qed.

Lemma emits_os_makedirs (p : string) :
  (forall ok, P (EMakedirs p ok)) -> emits P (os_makedirs p).
Proof. intros H w t. exists [EMakedirs p (makedirs_ok w t p)]. simpl. auto. Qed.

Lemma emits_write_file (p c : string) :
  (forall ok, P (EWriteFile p c ok)) -> emits P (write_file p c).
Proof. intros H w t. exists [EWriteFile p c (write_ok w t p c)]. simpl. auto. Qed.

Lemma emits_py_get v k d : emits P (py_get v k d).
Proof. apply emits_silent. intros. destruct v; reflexivity. Qed.

Lemma emits_py_getitem v k : emits P (py_getitem v k).
Proof.
  apply emits_silent. intros. destruct v; try reflexivity.
  simpl. destruct (dict_find d k); reflexivity.
Qed.

Lemma emits_res_json r : emits P (res_json r).
Proof. apply emits_silent. intros. unfold res_json. destruct (json r); reflexivity. Qed.

Lemma emits_py_iter v : emits P (py_iter v).
Proof. apply emits_silent. intros. destruct v; reflexivity. Qed.

Lemma emits_py_string v : emits P (py_string v).
Proof. apply emits_silent. intros. destruct v; reflexivity. Qed.

Lemma emits_py_contains s v : emits P (py_contains s v).
Proof. apply emits_silent. intros. destruct v; reflexivity. Qed.

Lemma emits_py_first v : emits P (py_first v).
Proof.
  apply emits_silent. intros. destruct v as [| | | s | l | d]; try reflexivity.
  - destruct s; reflexivity.
  - destruct l; reflexivity.
  - simpl. destruct (pydict_find d (PInt 0)); reflexivity.
Qed.

Lemma emits_py_gt v n : emits P (py_gt v n).
Proof. apply emits_silent. intros. destruct v; reflexivity. Qed.

Lemma emits_pydict_set d k v : emits P (pydict_set d k v).
Proof. apply emits_silent. intros. destruct k; reflexivity. Qed.

Lemma emits_for_each {A B} (f : A -> M B) (l : list A) :
  (forall x, emits P (f x)) -> emits P (for_each f l).
Proof.
  intros H. induction l as [|x l IH]; simpl.
  - apply emits_ret.
  - apply emits_bind; [apply H|]. intros y.
    apply emits_bind; [apply IH|]. intros ys. apply emits_ret.
Qed.

Lemma emits_any_of {A} (p : A -> M bool) (l : list A) :
  (forall x, emits P (p x)) -> emits P (any_of p l).
Proof.
  intros H. induction l as [|x l IH]; simpl.
  - apply emits_ret.
  - apply emits_bind; [apply H|]. intros [|]; [apply emits_ret | apply IH].
Qed.

End Emits.

Create HintDb emits.

#[local] Hint Resolve emits_ret emits_raise emits_py_get emits_py_getitem
  emits_res_json emits_py_iter emits_py_string emits_py_contains emits_py_first
  emits_py_gt emits_pydict_set : emits.

(** One step through the structure of a computation. *)
Ltac emits_step :=
  lazymatch goal with
  | |- emits _ (bind _ _) => apply emits_bind; [ | intro ]
  | |- emits _ (try_except _ _) =>
      apply emits_try;
      [ | let e := fresh "e" in let k := fresh "k" in let H := fresh "H" in
          intros e k H; destruct e; simpl in H; try discriminate H;
          injection H as <- ]
  | |- emits _ (print _) => apply emits_emit
  | |- emits _ (sleep _) => apply emits_emit
  | |- emits _ (emit _) => apply emits_emit
  | |- emits _ (_print_err _ _) => apply emits_emit
  | |- emits _ (requests_call _) => apply emits_requests_call; intro
  | |- emits _ (subprocess_run _ _) => apply emits_subprocess_run; intro
  | |- emits _ (subprocess_read _ _) => apply emits_subprocess_read; intro
  | |- emits _ (os_makedirs _) => apply emits_os_makedirs; intro
  | |- emits _ (write_file _ _) => apply emits_write_file; intro
  | |- emits _ (os_getenv _) => apply emits_silent; reflexivity
  | |- emits _ (os_path_exists _) => apply emits_silent; reflexivity
  | |- emits _ now_stamp => apply emits_silent; reflexivity
  | |- emits _ (if ?b then _ else _) => destruct b
  | |- emits _ (match ?x with _ => _ end) => destruct x
  | |- emits _ _ => solve [auto with emits]
  end.

Ltac emits_walk := repeat emits_step.

(** The events of each method, for a property [P] of events that holds of
    what the method does: printing, pausing, touching files, running [git]
    and sending requests without a [timeout]. *)
Section MethodEvents.

Variable P : event -> Prop.
Hypothesis P_print : forall m, m <> MNoDeployments -> P (EPrint m).
Hypothesis P_summary : P (EPrint MNoDeployments).
Hypothesis P_sleep : forall ms, P (ESleep ms).
Hypothesis P_files : forall e, is_file_write e = true -> P e.
Hypothesis P_git : forall c out, is_clone (ERun c out) = false -> P (ERun c out).
Hypothesis P_clone : forall c out, is_clone (ERun c out) = true -> P (ERun c out).
Hypothesis P_http : forall r out, timeout r = None -> P (EHttp r out).

Ltac method_events :=
  emits_walk;
  try solve [ apply P_print; discriminate | apply P_sleep
            | apply P_files; reflexivity
            | apply P_git; reflexivity
            | apply P_clone; reflexivity
            | apply P_http; reflexivity ].

Lemma platform_cfg_events self name : emits P (platform_cfg self name).
Proof. unfold platform_cfg. auto with emits. Qed.

Lemma deploy_to_vercel_events self repo_name : emits P (deploy_to_vercel self repo_name).
Proof.
  unfold deploy_to_vercel.
  apply emits_bind; [apply platform_cfg_events | intro]. method_events.
Qed.

Lemma deploy_to_render_events self service_id : emits P (deploy_to_render self service_id).
Proof.
  unfold deploy_to_render.
  apply emits_bind; [apply platform_cfg_events | intro]. method_events.
Qed.

Lemma deploy_to_netlify_events self : emits P (deploy_to_netlify self).
Proof.
  unfold deploy_to_netlify.
  apply emits_bind; [apply platform_cfg_events | intro]. method_events.
Qed.

Lemma platform_enabled_events platforms name : emits P (platform_enabled platforms name).
Proof. unfold platform_enabled. method_events. Qed.

Lemma trigger_all_deployments_events self repo_name :
  emits P (trigger_all_deployments self repo_name).
Proof.
  unfold trigger_all_deployments.
  repeat first
    [ apply platform_enabled_events
    | apply deploy_to_vercel_events
    | apply deploy_to_render_events
    | apply deploy_to_netlify_events
    | emits_step ];
    apply P_summary.
Qed.

Lemma write_files_events repo_path files_to_update :
  emits P (write_files repo_path files_to_update).
Proof.
  induction files_to_update as [|[file_path content] rest IH]; simpl.
  - apply emits_ret.
  - repeat first [ exact IH | emits_step ];
      solve [apply P_print; discriminate | apply P_files; reflexivity].
Qed.

Lemma _ensure_git_identity_events self repo_path :
  emits P (_ensure_git_identity self repo_path).
Proof. unfold _ensure_git_identity. method_events. Qed.

Lemma git_add_each_events repo_path files_to_add :
  emits P (git_add_each repo_path files_to_add).
Proof.
  induction files_to_add as [|file rest IH]; simpl.
  - apply emits_ret.
  - repeat first [ exact IH | emits_step ]. apply P_git; reflexivity.
Qed.

Lemma commit_and_push_events self repo_path message files_to_add branch :
  emits P (commit_and_push self repo_path message files_to_add branch).
Proof.
  unfold commit_and_push.
  repeat first
    [ apply _ensure_git_identity_events
    | apply git_add_each_events
    | emits_step ];
    solve [apply P_print; discriminate | apply P_git; reflexivity].
Qed.

Lemma update_in_working_copy_events self repo_name files_to_update repo_path :
  emits P (update_in_working_copy self repo_name files_to_update repo_path).
Proof.
  unfold update_in_working_copy.
  repeat first
    [ apply write_files_events
    | apply commit_and_push_events
    | apply trigger_all_deployments_events
    | emits_step ].
Qed.

Lemma clone_repository_events self repo_name local_path :
  emits P (clone_repository self repo_name local_path).
Proof. unfold clone_repository. method_events. Qed.

Lemma auto_workflow_update_and_deploy_events self repo_name files_to_update :
  emits P (auto_workflow_update_and_deploy self repo_name files_to_update).
Proof.
  unfold auto_workflow_update_and_deploy.
  repeat first
    [ apply clone_repository_events
    | apply update_in_working_copy_events
    | emits_step ].
  apply P_print; discriminate.
Qed.

Lemma get_default_branch_events self repo_name :
  emits P (get_default_branch self repo_name).
Proof. unfold get_default_branch. method_events. Qed.

Lemma create_repository_events self repo_name description private :
  emits P (create_repository self repo_name description private).
Proof. unfold create_repository. method_events. Qed.

Lemma create_pull_request_events self repo_name title body head_branch base_branch :
  emits P (create_pull_request self repo_name title body head_branch base_branch).
Proof. unfold create_pull_request. method_events. Qed.

Lemma merge_pull_request_events self repo_name pr_number merge_method :
  emits P (merge_pull_request self repo_name pr_number merge_method).
Proof. unfold merge_pull_request. method_events. Qed.

Lemma analyze_repository_events self repo_name :
  emits P (analyze_repository self repo_name).
Proof.
  unfold analyze_repository.
  repeat first
    [ apply emits_for_each; intro
    | apply emits_any_of; intro
    | emits_step ];
    solve [apply P_print; discriminate | apply P_http; reflexivity].
Qed.

Lemma auto_improve_repository_events self repo_name :
  emits P (auto_improve_repository self repo_name).
Proof.
  unfold auto_improve_repository.
  apply emits_bind; [apply analyze_repository_events | intros [a|]].
  - destruct (planned_improvements repo_name a).
    + method_events.
    + apply emits_bind; [apply auto_workflow_update_and_deploy_events | intro].
      method_events.
  - apply emits_ret.
Qed.

Lemma run_operation_events self operation files r :
  emits P (run_operation self operation files r).
Proof.
  unfold run_operation.
  repeat first
    [ apply auto_workflow_update_and_deploy_events
    | apply auto_improve_repository_events
    | apply trigger_all_deployments_events
    | emits_step ].
  apply P_print; discriminate.
Qed.

Lemma batch_loop_events self operation files repos :
  forall results, emits P (batch_loop self operation files repos results).
Proof.
  induction repos as [|r rest IH]; intros results; simpl.
  - apply emits_ret.
  - repeat first [ apply run_operation_events | apply IH | emits_step ];
      solve [apply P_print; discriminate | apply P_sleep].
Qed.

Lemma check_deployment_status_events self repo_name :
  emits P (check_deployment_status self repo_name).
Proof. unfold check_deployment_status. method_events. Qed.

Lemma health_report_events repos :
  forall report, emits P (health_report repos report).
Proof.
  induction repos as [|r rest IH]; intros report; simpl.
  - apply emits_ret.
  - repeat first [ apply IH | emits_step ].
Qed.

Lemma health_check_all_repos_events self : emits P (health_check_all_repos self).
Proof.
  unfold health_check_all_repos.
  repeat first [ apply health_report_events | emits_step ];
    solve [apply P_print; discriminate | apply P_http; reflexivity].
Qed.

Lemma review_files_events changed :
  forall rv, emits P (review_files changed rv).
Proof.
  induction changed as [|file rest IH]; intros rv; simpl.
  - apply emits_ret.
  - repeat first [ apply IH | emits_step ].
Qed.

Lemma auto_pr_review_events self repo_name pr_number :
  emits P (auto_pr_review self repo_name pr_number).
Proof.
  unfold auto_pr_review.
  repeat first [ apply review_files_events | emits_step ];
    solve [apply P_print; discriminate | apply P_http; reflexivity].
Qed.

Lemma invoke_events self c : emits P (invoke self c).
Proof.
  destruct c; simpl;
    try (apply emits_bind; [ | intro; apply emits_ret ]).
  - apply get_default_branch_events.
  - apply create_repository_events.
  - apply clone_repository_events.
  - apply commit_and_push_events.
  - apply create_pull_request_events.
  - apply merge_pull_request_events.
  - apply deploy_to_vercel_events.
  - apply deploy_to_render_events.
  - apply deploy_to_netlify_events.
  - apply auto_workflow_update_and_deploy_events.
  - apply trigger_all_deployments_events.
  - apply analyze_repository_events.
  - apply auto_improve_repository_events.
  - apply batch_loop_events.
  - apply check_deployment_status_events.
  - apply health_check_all_repos_events.
  - apply auto_pr_review_events.
Qed.

End MethodEvents.

(* ===================================================================== *)
(** ** The exceptions of a computation *)
(* ===================================================================== *)

Section Raises.

Variable Q : exn -> Prop.

Lemma raises_ret {A} (a : A) : raises_only Q (ret a).
Proof. intros w t e H. discriminate H. Qed.

Lemma raises_emit (ev : event) : raises_only Q (emit ev).
Proof. intros w t e H. discriminate H. Qed.

Lemma raises_bind {A B} (m : M A) (f : A -> M B) :
  raises_only Q m -> (forall a, raises_only Q (f a)) -> raises_only Q (bind m f).
Proof.
  intros Hm Hf w t e. unfold bind.
  destruct (m w t) as [[a|e'] t'] eqn:E.
  - apply Hf.
  - simpl. intros H. inversion H. subst e'.
    apply (Hm w t). rewrite E. reflexivity.
Qed.

(** A [try] whose [except] clause names every exception of its body, the
    handlers raising within [Q]. *)
Lemma raises_try {A} (Q' : exn -> Prop) (m : M A) (h : exn -> option (M A)) :
  raises_only Q' m ->
  (forall e, Q' e -> exists k, h e = Some k /\ raises_only Q k) ->
  raises_only Q (try_except m h).
Proof.
  intros Hm Hh w t e. unfold try_except.
  destruct (m w t) as [[a|e'] t'] eqn:E.
  - discriminate.
  - assert (Q' e') as He' by (apply (Hm w t); rewrite E; reflexivity).
    destruct (Hh e' He') as [k [Ek Hk]]. rewrite Ek. apply Hk.
Qed.

Lemma raises_weaken {A} (Q' : exn -> Prop) (m : M A) :
  raises_only Q' m -> (forall e, Q' e -> Q e) -> raises_only Q m.
Proof. intros Hm H w t e E. apply H. apply (Hm w t e E). Qed.

End Raises.

Lemma raises_subprocess_run c check :
  raises_only is_called_process_error (subprocess_run c check).
Proof.
  intros w t e. unfold subprocess_run. simpl.
  destruct (check && negb (returncode (proc_reply w t c) =? 0)%Z); intros H;
    inversion H. exact I.
Qed.

Lemma never_raises_value {A} (m : M A) w t :
  raises_only (fun _ => False) m -> exists a, fst (m w t) = Ret a.
Proof.
  intros H. destruct (fst (m w t)) as [a|e] eqn:E.
  - exists a. reflexivity.
  - destruct (H w t e E).
Qed.

Ltac raises_step :=
  lazymatch goal with
  | |- raises_only _ (bind _ _) => apply raises_bind; [ | intro ]
  | |- raises_only _ (ret _) => apply raises_ret
  | |- raises_only _ (print _) => apply raises_emit
  | |- raises_only _ (subprocess_run _ _) => apply raises_subprocess_run
  | |- raises_only _ (if ?b then _ else _) => destruct b
  | |- raises_only _ (match ?x with _ => _ end) => destruct x
  end.

(** A handler for [CalledProcessError] that cannot raise itself. *)
Ltac handles_called_process_error :=
  let e := fresh "e" in
  intros e; destruct e; simpl; intros []; eexists; split;
  [ reflexivity | repeat raises_step ].

Lemma git_add_each_raises repo_path files_to_add :
  raises_only is_called_process_error (git_add_each repo_path files_to_add).
Proof.
  induction files_to_add as [|file rest IH]; simpl.
  - apply raises_ret.
  - apply raises_bind; [apply raises_subprocess_run | intro; exact IH].
Qed.

(** A [try] whose [except] clause lets some exceptions of its body
    through. *)
Lemma raises_try_partial {A} (Q Q' : exn -> Prop) (m : M A) (h : exn -> option (M A)) :
  raises_only Q' m ->
  (forall e, Q' e -> match h e with Some k => raises_only Q k | None => Q e end) ->
  raises_only Q (try_except m h).
Proof.
  intros Hm Hh w t e. unfold try_except.
  destruct (m w t) as [[a|e'] t'] eqn:E.
  - discriminate.
  - assert (Q' e') as He' by (apply (Hm w t); rewrite E; reflexivity).
    specialize (Hh e' He'). destruct (h e') as [k|].
    + apply Hh.
    + simpl. intros H. inversion H. subst e'. exact Hh.
Qed.

Lemma raises_subprocess_read c check :
  raises_only is_read_error (subprocess_read c check).
Proof.
  intros w t e. unfold subprocess_read. simpl.
  destruct (negb (output_decodes w t c)); [intros H; inversion H; exact I|].
  destruct (check && negb (returncode (proc_reply w t c) =? 0)%Z); intros H;
    inversion H. exact I.
Qed.

Lemma raises_read_error_run c check :
  raises_only is_read_error (subprocess_run c check).
Proof.
  apply raises_weaken with (Q' := is_called_process_error);
    [apply raises_subprocess_run | intros e; destruct e; simpl; auto].
Qed.

(** The exceptions of a computation in one world. *)
Section RaisesIn.

Variable w : world.
Variable Q : exn -> Prop.

Lemma raises_in_only {A} (m : M A) : raises_only Q m -> raises_in w Q m.
Proof. intros H t e. apply H. Qed.

Lemma raises_in_bind {A B} (m : M A) (f : A -> M B) :
  raises_in w Q m -> (forall a, raises_in w Q (f a)) -> raises_in w Q (bind m f).
Proof.
  intros Hm Hf t e. unfold bind.
  destruct (m w t) as [[a|e'] t'] eqn:E.
  - apply Hf.
  - simpl. intros H. inversion H. subst e'.
    apply (Hm t). rewrite E. reflexivity.
Qed.

Lemma raises_in_try {A} (Q' : exn -> Prop) (m : M A) (h : exn -> option (M A)) :
  raises_in w Q' m ->
  (forall e, Q' e -> exists k, h e = Some k /\ raises_in w Q k) ->
  raises_in w Q (try_except m h).
Proof.
  intros Hm Hh t e. unfold try_except.
  destruct (m w t) as [[a|e'] t'] eqn:E.
  - discriminate.
  - assert (Q' e') as He' by (apply (Hm t); rewrite E; reflexivity).
    destruct (Hh e' He') as [k [Ek Hk]]. rewrite Ek. apply Hk.
Qed.

End RaisesIn.

(** Where every output decodes, a read fails like any other command. *)
Lemma raises_in_subprocess_read w c check :
  readable w -> raises_in w is_called_process_error (subprocess_read c check).
Proof.
  intros Hw t e. unfold subprocess_read. simpl. rewrite (Hw t c). cbn [negb].
  destruct (check && negb (returncode (proc_reply w t c) =? 0)%Z); intros H;
    inversion H. exact I.
Qed.

Lemma returns_in_value {A} (m : M A) w t :
  raises_in w (fun _ => False) m -> exists a, fst (m w t) = Ret a.
Proof.
  intros H. destruct (fst (m w t)) as [a|e] eqn:E.
  - exists a. reflexivity.
  - destruct (H t e E).
Qed.

Ltac read_step :=
  lazymatch goal with
  | |- raises_only _ (bind _ _) => apply raises_bind; [ | intro ]
  | |- raises_only _ (ret _) => apply raises_ret
  | |- raises_only _ (print _) => apply raises_emit
  | |- raises_only _ (subprocess_run _ _) => apply raises_read_error_run
  | |- raises_only _ (subprocess_read _ _) => apply raises_subprocess_read
  | |- raises_only _ (if ?b then _ else _) => destruct b
  | |- raises_only _ (match ?x with _ => _ end) => destruct x
  end.

Ltac raises_in_step Hw :=
  lazymatch goal with
  | |- raises_in _ _ (bind _ _) => apply raises_in_bind; [ | intro ]
  | |- raises_in _ _ (subprocess_read _ _) => apply raises_in_subprocess_read; exact Hw
  | |- raises_in _ _ (if ?b then _ else _) => destruct b
  | |- raises_in _ _ (match ?x with _ => _ end) => destruct x
  | |- raises_in _ _ _ => apply raises_in_only; repeat raises_step
  end.

(** A handler for [CalledProcessError] alone, which cannot raise itself:
    a [UnicodeDecodeError] of the body goes through. *)
Ltac lets_decode_error_through :=
  let e := fresh "e" in
  intros e; destruct e; simpl; intros []; repeat raises_step; exact I.

Ltac handles_called_process_error_in :=
  let e := fresh "e" in
  intros e; destruct e; simpl; intros []; eexists; split;
  [ reflexivity | apply raises_in_only; repeat raises_step ].

(** The [except] clause of [_ensure_git_identity] catches the failure of
    a [git] command, not that of decoding what a query printed. *)
Lemma _ensure_git_identity_raises self repo_path :
  raises_only is_decode_error (_ensure_git_identity self repo_path).
Proof.
  unfold _ensure_git_identity.
  apply raises_try_partial with (Q' := is_read_error).
  - repeat read_step.
  - lets_decode_error_through.
Qed.

Lemma _ensure_git_identity_returns_in w self repo_path :
  readable w -> raises_in w (fun _ => False) (_ensure_git_identity self repo_path).
Proof.
  intros Hw. unfold _ensure_git_identity.
  apply raises_in_try with (Q' := is_called_process_error).
  - repeat raises_in_step Hw.
  - handles_called_process_error_in.
Qed.

Lemma commit_block_raises (Q : exn -> Prop) repo_path message files_to_add (branch : string) :
  raises_only Q
    (try_except
       ((match files_to_add with
         | Some (f :: fs) => git_add_each repo_path (f :: fs)
         | _ => subprocess_run (git ["add"; "."] repo_path) true ;; ret tt
         end) ;;
        message <-
          (match message with
           | Some (String c m) => ret (String c m)
           | _ =>
               timestamp <- now_stamp ;;
               ret ("🤖 Auto-commit: Updated files at " ++ timestamp)%string
           end) ;;
        subprocess_run (git ["commit"; "-m"; message] repo_path) true ;;
        subprocess_run (git ["push"; "origin"; branch] repo_path) true ;;
        print (MPushed branch message))
       (fun e =>
          match e with
          | CalledProcessError c => Some (print (MGitFailed c))
          | _ => None
          end)).
Proof.
  apply raises_try with (Q' := is_called_process_error).
  - apply raises_bind.
    + destruct files_to_add as [[|f fs]|]; repeat raises_step.
      apply (git_add_each_raises repo_path (f :: fs)).
    + intro. apply raises_bind.
      { destruct message as [[|c m]|]; try apply raises_ret;
          (apply raises_bind; [ intros w t e H; discriminate H | intro; apply raises_ret ]). }
      intro. repeat raises_step.
  - handles_called_process_error.
Qed.

(** Every failing [git] step of [commit_and_push] is caught and reported:
    the method raises only when what a query printed does not decode. *)
Lemma commit_and_push_raises self repo_path message files_to_add branch :
  raises_only is_decode_error
    (commit_and_push self repo_path message files_to_add branch).
Proof.
  unfold commit_and_push.
  apply raises_bind; [apply _ensure_git_identity_raises | intro].
  apply raises_bind.
  - destruct branch as [[|c b]|]; try apply raises_ret;
      (apply raises_try_partial with (Q' := is_read_error);
       [ apply raises_bind; [apply raises_subprocess_read | intro; cbv zeta; apply raises_ret]
       | lets_decode_error_through ]).
  - intro. apply commit_block_raises.
Qed.

Lemma commit_and_push_returns_in w self repo_path message files_to_add branch :
  readable w ->
  raises_in w (fun _ => False)
    (commit_and_push self repo_path message files_to_add branch).
Proof.
  intros Hw. unfold commit_and_push.
  apply raises_in_bind; [apply _ensure_git_identity_returns_in; exact Hw | intro].
  apply raises_in_bind.
  - destruct branch as [[|c b]|]; try (apply raises_in_only; apply raises_ret);
      (apply raises_in_try with (Q' := is_called_process_error);
       [ apply raises_in_bind;
         [ apply raises_in_subprocess_read; exact Hw
         | intro; cbv zeta; apply raises_in_only; apply raises_ret ]
       | handles_called_process_error_in ]).
  - intro. apply raises_in_only. apply commit_block_raises.
Qed.

Lemma commit_and_push_decode_error self repo_path message files_to_add branch w t e :
  fst (commit_and_push self repo_path message files_to_add branch w t) = Raise e ->
  e = UnicodeDecodeError.
Proof.
  intros H.
  pose proof (commit_and_push_raises self repo_path message files_to_add branch w t e H) as Q.
  destruct e; simpl in Q; try contradiction. reflexivity.
Qed.

Lemma commit_and_push_returns self repo_path message files_to_add branch w t :
  readable w ->
  fst (commit_and_push self repo_path message files_to_add branch w t) = Ret tt.
Proof.
  intros Hw.
  destruct (returns_in_value _ w t
              (commit_and_push_returns_in w self repo_path message files_to_add branch Hw))
    as [[] E].
  exact E.
Qed.

(* ===================================================================== *)
(** ** Deployment fan-out *)
(* ===================================================================== *)

(** C2.  Render and Netlify are enabled and the Render API is out of
    reach: the [RequestException] of the Render trigger escapes
    [trigger_all_deployments], and the Netlify hook is never requested. *)
Theorem render_error_stops_fanout :
  trigger_all_deployments render_netlify_robot "demo" render_unreachable []
  = (Raise (RequestException ConnectionError),
     [EHttp (mk_request POST (UrlRender (PStr "srv-42"))
               [("Authorization", "Bearer rnd_secret"%string);
                ("Content-Type", "application/json"%string)] None None)
            (Failed ConnectionError)])
  /\ existsb (posts_to netlify_hook)
       (snd (trigger_all_deployments render_netlify_robot "demo" render_unreachable []))
     = false.
Proof. split; vm_compute; reflexivity. Qed.

(** The Vercel adapter, in contrast, catches the exception: with the
    Vercel hook out of reach the Netlify hook is requested all the same. *)
Lemma vercel_error_does_not_stop_fanout :
  trigger_all_deployments vercel_netlify_robot "demo" vercel_unreachable []
  = (Ret PNone,
     [EHttp (mk_request POST (UrlObj (PStr vercel_hook)) [] None None) (Failed ReadTimeout);
      EPrint (MVercelRequestError ReadTimeout);
      EHttp (mk_request POST (UrlObj (PStr netlify_hook)) [] None None)
            (Responded ok_response);
      EPrint MNetlifyTriggered]).
Proof. vm_compute. reflexivity. Qed.

(** The Render adapter has no [try]: a transport error of its request
    escapes it. *)
Lemma render_adapter_transport_error self block service_id used tok k w t :
  target_configuration self "render" = Some block ->
  enabled_flag block = true ->
  getenv w "RENDER_TOKEN" = Some tok ->
  tok <> ""%string ->
  (if truthy service_id then service_id else dict_get block "service_id" PNone) = used ->
  truthy used = true ->
  http_reply w t (render_request tok used) = Failed k ->
  deploy_to_render self service_id w t
  = (Raise (RequestException k), t ++ [EHttp (render_request tok used) (Failed k)]).
Proof.
  intros Hcfg Hflag Henv Htok Hused Htruthy Hreply. unfold enabled_flag in Hflag.
  unfold deploy_to_render.
  rewrite (bind_ret _ _ _ _ _ _ (platform_cfg_block _ _ _ w t Hcfg)).
  simpl. unfold bind at 1. simpl. rewrite Hflag. simpl.
  unfold bind at 1. unfold os_getenv. rewrite Henv.
  destruct tok as [|c tok]; [destruct Htok; reflexivity|].
  unfold bind at 1.
  assert ((if truthy service_id then ret service_id
           else ret (dict_get block "service_id" PNone)) w t = (Ret used, t)) as ->
    by (destruct (truthy service_id); subst used; reflexivity).
  rewrite Htruthy. simpl. unfold bind at 1. unfold requests_call.
  unfold render_request in Hreply. simpl in Hreply. rewrite Hreply. reflexivity.
Qed.

(** Vercel succeeds, Render fails with a 500 and Netlify succeeds: the
    three targets are attempted in order, no "no deployments triggered"
    message appears, and the caller receives [None]. *)
Lemma fanout_partial_success :
  trigger_all_deployments all_platforms_robot "demo" render_refuses []
  = (Ret PNone,
     [EHttp (hook_request (PStr vercel_hook)) (Responded ok_response);
      EPrint MVercelTriggered;
      EHttp (render_request "rnd_secret" (PStr "srv-42"))
            (Responded (mk_response 500 None "Internal Server Error"));
      EPrint (MError "Render deployment failed" 500
                (PDict [(PStr "text", PStr "Internal Server Error");
                        (PStr "status", PInt 500)]));
      EHttp (hook_request (PStr netlify_hook)) (Responded ok_response);
      EPrint MNetlifyTriggered]).
Proof. vm_compute. reflexivity. Qed.




Lemma filter_none {A} (p : A -> bool) (l : list A) :
  Forall (fun x => p x = false) l -> filter p l = [].
Proof.
  induction 1 as [|x l Hx _ IH]; simpl; auto. rewrite Hx. exact IH.
Qed.




(* ===================================================================== *)
(** ** Batch runner *)
(* ===================================================================== *)

Lemma processed_repos self operation files w repos t results t' :
  processed self operation files w repos t results t' ->
  map repo results = repos.
Proof.
  induction 1 as [|r rest t t1 t2 ok results _ _ IH]; simpl; [reflexivity|].
  rewrite IH. reflexivity.
Qed.

Lemma batch_loop_step self operation files r rest acc w t :
  batch_loop self operation files (r :: rest) acc w t
  = match run_operation self operation files r w (t ++ [EPrint (MProcessing r)]) with
    | (Ret ok, t1) =>
        batch_loop self operation files rest (acc ++ [mk_outcome r ok]) w (t1 ++ [ESleep 1200])
    | (Raise e, t1) => (Raise e, t1)
    end.
Proof.
  simpl. unfold bind at 1. simpl. unfold bind at 1.
  destruct (run_operation self operation files r w (t ++ [EPrint (MProcessing r)]))
    as [[ok|e] t1]; reflexivity.
Qed.

(** The loop after a processed prefix. *)
Lemma batch_loop_processed self operation files w pre :
  forall rest acc t results t1,
    processed self operation files w pre t results t1 ->
    batch_loop self operation files (pre ++ rest) acc w t
    = batch_loop self operation files rest (acc ++ results) w t1.
Proof.
  induction pre as [|r pre IH]; intros rest acc t results t1 H; inversion H; subst.
  - rewrite app_nil_r. reflexivity.
  - rewrite <- app_comm_cons, batch_loop_step.
    match goal with E : run_operation _ _ _ _ _ _ = _ |- _ => rewrite E end.
    erewrite IH by eassumption. rewrite <- app_assoc. reflexivity.
Qed.

Lemma batch_loop_all_processed self operation files w repos :
  (forall r t0 e, In r repos -> fst (run_operation self operation files r w t0) <> Raise e) ->
  forall t, exists results t', processed self operation files w repos t results t'.
Proof.
  induction repos as [|r rest IH]; intros Hop t.
  - exists [], t. constructor.
  - destruct (run_operation self operation files r w (t ++ [EPrint (MProcessing r)]))
      as [[ok|e] t1] eqn:E.
    + destruct (IH (fun r' t0 e' H => Hop r' t0 e' (or_intror H)) (t1 ++ [ESleep 1200]))
        as [results [t' H]].
      exists (mk_outcome r ok :: results), t'. econstructor; eassumption.
    + exfalso. apply (Hop r (t ++ [EPrint (MProcessing r)]) e (or_introl eq_refl)).
      rewrite E. reflexivity.
Qed.

(** A failure that the operation reports by returning [False] does not
    stop the batch: the clone of the second repository fails, and the
    three outcomes come in order. *)
Lemma batch_isolates_reported_failure :
  fst (batch_repository_operation default_robot ["r1"; "r2"; "r3"]%string
         "update_and_deploy" None second_repo_missing [])
  = Ret [mk_outcome "r1" true; mk_outcome "r2" false; mk_outcome "r3" true].
Proof. vm_compute. reflexivity. Qed.

(** An unknown operation selector is a failure of each item. *)
Lemma batch_unknown_operation w t :
  batch_repository_operation default_robot ["r1"; "r2"]%string "archive" None w t
  = (Ret [mk_outcome "r1" false; mk_outcome "r2" false],
     t ++ [EPrint (MProcessing "r1"); EPrint (MUnknownOperation "archive"); ESleep 1200;
           EPrint (MProcessing "r2"); EPrint (MUnknownOperation "archive"); ESleep 1200]).
Proof.
  unfold batch_repository_operation. simpl.
  unfold bind, print, sleep, emit, ret. simpl.
  rewrite <- !app_assoc. reflexivity.
Qed.

(** C1 (counterexample).  The listing of the second repository is out of
    reach: the exception of its operation escapes the batch runner, which
    returns no result list, and the third repository is never processed. *)
Lemma batch_aborts_on_exception :
  fst (batch_repository_operation default_robot ["r1"; "r2"; "r3"]%string "improve" None
         second_repo_unreachable [])
  = Raise (RequestException ConnectionError)
  /\ existsb (is_processing "r3")
       (snd (batch_repository_operation default_robot ["r1"; "r2"; "r3"]%string "improve" None
               second_repo_unreachable []))
     = false
  /\ ~ (exists results t',
          batch_repository_operation default_robot ["r1"; "r2"; "r3"]%string "improve" None
            second_repo_unreachable [] = (Ret results, t')
          /\ List.length results = 3).
Proof.
  assert (fst (batch_repository_operation default_robot ["r1"; "r2"; "r3"]%string "improve"
                 None second_repo_unreachable [])
          = Raise (RequestException ConnectionError)) as E
    by (vm_compute; reflexivity).
  split; [exact E|]. split; [vm_compute; reflexivity|].
  intros [results [t' [H _]]]. rewrite H in E. discriminate E.
Qed.

(** C1 (amended).  When no single-repository operation raises, the batch
    runner returns one outcome per repository, in the order of the input:
    every repository is processed, and the flag of each is the value its
    operation returned, so that an operation that returns [False] does not
    stop the batch.  An exception raised by an operation after a processed
    prefix of the list is not caught: the batch runner raises it and does
    nothing more. *)
Theorem batch_outcomes_in_order
    (self : robot) (repos : list string) (operation : string)
    (files : option (list (string * string))) (w : world) (t : trace) :
  ((forall r t0 e, In r repos ->
      fst (run_operation self operation files r w t0) <> Raise e) ->
   exists results t',
     batch_repository_operation self repos operation files w t = (Ret results, t')
     /\ map repo results = repos
     /\ List.length results = List.length repos
     /\ processed self operation files w repos t results t')
  /\ (forall pre r rest results t1 e t2,
        repos = pre ++ r :: rest ->
        processed self operation files w pre t results t1 ->
        run_operation self operation files r w (t1 ++ [EPrint (MProcessing r)])
        = (Raise e, t2) ->
        batch_repository_operation self repos operation files w t = (Raise e, t2)).
Proof.
  split.
  - intros Hop.
    destruct (batch_loop_all_processed self operation files w repos Hop t)
      as [results [t' H]].
    exists results, t'. unfold batch_repository_operation.
    pose proof (batch_loop_processed self operation files w repos [] [] t results t' H) as E.
    rewrite app_nil_r in E. simpl in E.
    pose proof (processed_repos _ _ _ _ _ _ _ _ H) as Hmap.
    split; [exact E|]. split; [exact Hmap|]. split; [|exact H].
    rewrite <- Hmap, length_map. reflexivity.
  - intros pre r rest results t1 e t2 -> H E.
    unfold batch_repository_operation.
    rewrite (batch_loop_processed self operation files w pre (r :: rest) [] t results t1 H).
    rewrite batch_loop_step, E. reflexivity.
Qed.

Lemma batch_outcomes_in_order_witness :
  exists results t',
    batch_repository_operation default_robot ["r1"; "r2"; "r3"]%string "deploy" None
      calm_world [] = (Ret results, t')
    /\ map repo results = ["r1"; "r2"; "r3"]%string
    /\ List.length results = 3
    /\ processed default_robot "deploy" None calm_world ["r1"; "r2"; "r3"]%string []
         results t'.
Proof.
  apply (proj1 (batch_outcomes_in_order default_robot ["r1"; "r2"; "r3"]%string "deploy"
                  None calm_world [])).
  intros r t0 e _. vm_compute. discriminate.
Defined.

(* ===================================================================== *)
(** ** Provider API operations and the access token *)
(* ===================================================================== *)

(** The operations that test the token do so before any request. *)
Lemma token_checked_before_request self w t :
  has_token self = false ->
  (forall r d p, create_repository self r d p w t = (Raise missing_token, t))
  /\ (forall r ti bo h b, create_pull_request self r ti bo h b w t = (Raise missing_token, t))
  /\ (forall r n m, merge_pull_request self r n m w t = (Raise missing_token, t))
  /\ (forall r n, auto_pr_review self r n w t = (Raise missing_token, t))
  /\ (forall r, check_deployment_status self r w t = (Ret (PDict []), t))
  /\ health_check_all_repos self w t = (Ret (PDict []), t ++ [EPrint MHealthSkipped])
  /\ (forall r, get_default_branch self r w t
                = (Ret (dict_get (config self) "default_branch" (PStr "main")), t)).
Proof.
  intros H.
  unfold create_repository, create_pull_request, merge_pull_request, auto_pr_review,
    check_deployment_status, health_check_all_repos, get_default_branch.
  rewrite H. simpl. repeat split; reflexivity.
Qed.

Lemma request_comes_first {A} (r : request) (f : response -> M A) w t :
  (forall resp, emits (fun _ => True) (f resp)) ->
  exists es,
    snd (bind (requests_call r) f w t) = t ++ EHttp r (http_reply w t r) :: es.
Proof.
  intros Hf. unfold bind, requests_call.
  destruct (http_reply w t r) as [resp|k].
  - destruct (Hf resp w (t ++ [EHttp r (Responded resp)])) as [es [E _]].
    exists es. rewrite E, <- app_assoc. reflexivity.
  - exists []. reflexivity.
Qed.

(** [analyze_repository] sends its request whatever the token. *)
Lemma analyze_repository_requests_first self repo_name w t :
  exists es,
    snd (analyze_repository self repo_name w t)
    = t ++ EHttp (contents_request self repo_name)
             (http_reply w t (contents_request self repo_name)) :: es.
Proof.
  unfold analyze_repository. apply request_comes_first. intros resp.
  repeat first
    [ apply emits_for_each; intro
    | apply emits_any_of; intro
    | emits_step ]; exact I.
Qed.

(** C5.  The robot has no token, and [analyze_repository] sends the
    content-listing request all the same, with an empty [Authorization]
    header.  The planner [auto_improve_repository] starts with that
    request. *)
Theorem listing_requested_without_token :
  has_token tokenless_robot = false
  /\ analyze_repository tokenless_robot "demo" calm_world []
     = (Ret (Some (mk_analysis [] false false false ["Add a README.md file"%string])),
        [EHttp (mk_request GET (UrlStr "https://api.github.com/repos/octocat/demo/contents")
                  [("Authorization", ""%string);
                   ("Accept", "application/vnd.github.v3+json"%string)] None None)
               (Responded ok_response)])
  /\ hd_error (snd (auto_improve_repository tokenless_robot "demo" calm_world []))
     = Some (EHttp (contents_request tokenless_robot "demo") (Responded ok_response)).
Proof. repeat split; vm_compute; reflexivity. Qed.

(* ===================================================================== *)
(** ** Outbound calls and wait time *)
(* ===================================================================== *)

Lemma untimed_events (es : list event) :
  Forall untimed es <-> existsb has_timeout es = false.
Proof.
  induction es as [|e es IH]; simpl.
  - split; auto.
  - rewrite orb_false_iff, <- IH. split.
    + intros H. inversion H; subst. split; auto.
      destruct e; try reflexivity. simpl in *.
      match goal with H : timeout _ = None |- _ => rewrite H end. reflexivity.
    + intros [H1 H2]. constructor; auto.
      destruct e; simpl in *; auto. destruct (timeout req); [discriminate | reflexivity].
Qed.

(** C6 (counterexample).  The requests of the Vercel adapter, of the Render
    adapter and of [get_default_branch] are sent without a [timeout]: no
    bound on the wait is set. *)
Lemma requests_sent_without_timeout :
  snd (deploy_to_vercel vercel_robot "demo" calm_world [])
  = [EHttp (mk_request POST (UrlObj (PStr vercel_hook)) [] None None)
           (Responded ok_response);
     EPrint MVercelTriggered]
  /\ map has_timeout (snd (deploy_to_vercel vercel_robot "demo" calm_world []))
     = [false; false]
  /\ map (fun e => (is_http e, has_timeout e))
       (snd (deploy_to_render render_netlify_robot PNone deploys_refused []))
     = [(true, false); (false, false)]
  /\ map (fun e => (is_http e, has_timeout e))
       (snd (get_default_branch default_robot "demo" calm_world []))
     = [(true, false)].
Proof. repeat split; vm_compute; reflexivity. Qed.

Lemma hook_adapter_transport_error self p block hook k m repo_name service_id w t :
  request_error_message p k = Some m ->
  target_configuration self (platform_key p) = Some block ->
  enabled_flag block = true ->
  dict_get block "deploy_hook_url" PNone = hook ->
  truthy hook = true ->
  http_reply w t (hook_request hook) = Failed k ->
  trigger_adapter self p repo_name service_id w t
  = (Ret false, t ++ [EHttp (hook_request hook) (Failed k); EPrint m]).
Proof.
  intros Hm Hcfg Hflag Hhook Htruthy Hreply. unfold enabled_flag in Hflag.
  destruct p; simpl in *; try discriminate; inversion Hm; subst m;
    [unfold deploy_to_vercel | unfold deploy_to_netlify];
    rewrite (bind_ret _ _ _ _ _ _ (platform_cfg_block _ _ _ w t Hcfg));
    simpl; unfold bind at 1; simpl; rewrite Hflag; simpl;
    unfold bind at 1; simpl; rewrite Hhook, Htruthy; simpl;
    unfold try_except, bind, requests_call; fold (hook_request hook);
    rewrite Hreply; simpl; rewrite <- app_assoc; reflexivity.
Qed.

(** C6 (amended).  No request of any method carries a [timeout]: the wait
    of an outbound call has no bound set by the program.  In the Vercel
    and Netlify adapters a transport error of any kind, a timeout
    included, is reported and becomes the result [False]. *)
Theorem outbound_calls_set_no_timeout :
  (forall self c w t, existsb has_timeout (events_since t (snd (invoke self c w t))) = false)
  /\ (forall self p block hook k m repo_name service_id w t,
        request_error_message p k = Some m ->
        target_configuration self (platform_key p) = Some block ->
        enabled_flag block = true ->
        dict_get block "deploy_hook_url" PNone = hook ->
        truthy hook = true ->
        http_reply w t (hook_request hook) = Failed k ->
        trigger_adapter self p repo_name service_id w t
        = (Ret false, t ++ [EHttp (hook_request hook) (Failed k); EPrint m])).
Proof.
  split.
  - intros self c w t.
    assert (emits untimed (invoke self c)) as H
      by (apply invoke_events; intros; simpl; auto;
          match goal with e : event |- _ => destruct e; simpl in *; auto; discriminate end).
    destruct (H w t) as [es [E F]].
    rewrite E, events_since_app. apply untimed_events. exact F.
  - apply hook_adapter_transport_error.
Qed.

Lemma outbound_calls_set_no_timeout_witness :
  existsb has_timeout
    (events_since []
       (snd (invoke all_platforms_robot
               (CallBatch ["r1"; "r2"]%string "improve" None) calm_world [])))
  = false
  /\ trigger_adapter vercel_netlify_robot Vercel "demo" PNone vercel_unreachable []
     = (Ret false,
        [EHttp (hook_request (PStr vercel_hook)) (Failed ReadTimeout);
         EPrint (MVercelRequestError ReadTimeout)]).
Proof.
  split.
  - apply (proj1 outbound_calls_set_no_timeout).
  - apply (proj2 outbound_calls_set_no_timeout vercel_netlify_robot Vercel
             [(PStr "enabled", PBool true); (PStr "deploy_hook_url", PStr vercel_hook)]
             (PStr vercel_hook) ReadTimeout (MVercelRequestError ReadTimeout)
             "demo"%string PNone vercel_unreachable []); reflexivity.
Defined.

(* ===================================================================== *)
(** ** Workflow sequencer *)
(* ===================================================================== *)

Lemma clone_repository_run self repo_name w t :
  clone_repository self repo_name None w t
  = let c := clone_command self repo_name in
    let out := proc_reply w t c in
    if (returncode out =? 0)%Z
    then (Ret ("./" ++ repo_name)%string, t ++ [ERun c out; EPrint (MCloned ("./" ++ repo_name))])
    else (Ret ""%string, t ++ [ERun c out; EPrint (MCloneFailed repo_name (returncode out))]).
Proof.
  unfold clone_repository, try_except, bind, subprocess_run, clone_command. simpl.
  destruct (returncode _ =? 0)%Z; simpl; rewrite <- app_assoc; reflexivity.
Qed.

Lemma resolve_working_copy_run self repo_name w t :
  resolve_working_copy self repo_name w t
  = let t0 := t ++ [EPrint (MStarting repo_name)] in
    if path_exists w t0 ("./" ++ repo_name)
    then (Ret ("./" ++ repo_name)%string, t0)
    else clone_repository self repo_name None w t0.
Proof.
  unfold resolve_working_copy. unfold bind at 1. simpl.
  unfold bind at 1. unfold os_path_exists. simpl.
  match goal with |- context [path_exists ?a ?b ?c] => destruct (path_exists a b c) end;
    reflexivity.
Qed.

(** The path that the first step yields: the working copy, or the empty
    path when there is none. *)
Lemma resolve_working_copy_path self repo_name w t :
  fst (resolve_working_copy self repo_name w t)
  = Ret (if working_copy_obtained self repo_name w t then ("./" ++ repo_name)%string
         else ""%string).
Proof.
  rewrite resolve_working_copy_run. unfold working_copy_obtained. simpl.
  match goal with |- context [path_exists ?a ?b ?c] => destruct (path_exists a b c) end;
    simpl; [reflexivity|].
  rewrite clone_repository_run. simpl.
  match goal with |- context [(?a =? 0)%Z] => destruct (a =? 0)%Z end; reflexivity.
Qed.

Lemma auto_workflow_split self repo_name files_to_update w t :
  auto_workflow_update_and_deploy self repo_name files_to_update w t
  = match resolve_working_copy self repo_name w t with
    | (Ret path, t') =>
        if (path =? "")%string then (Ret false, t')
        else update_in_working_copy self repo_name files_to_update path w t'
    | (Raise e, t') => (Raise e, t')
    end.
Proof.
  unfold auto_workflow_update_and_deploy, resolve_working_copy.
  cbv [bind print emit os_path_exists].
  match goal with |- context [path_exists ?a ?b ?c] => destruct (path_exists a b c) end;
    simpl.
  - reflexivity.
  - destruct (clone_repository self repo_name None w (t ++ [EPrint (MStarting repo_name)]))
      as [[path|e] t']; [destruct (path =? "")%string|]; reflexivity.
Qed.

(** The run of the sequencer, step by step. *)
Lemma auto_workflow_run self repo_name files_to_update w t :
  let p := ("./" ++ repo_name)%string in
  let t1 := snd (resolve_working_copy self repo_name w t) in
  let t2 := snd (write_files p files_to_update w t1) in
  let commit := commit_and_push self p (Some (auto_update_message files_to_update))
                  None None w t2 in
  let t3 := snd commit in
  auto_workflow_update_and_deploy self repo_name files_to_update w t
  = if negb (working_copy_obtained self repo_name w t) then (Ret false, t1)
    else match fst (write_files p files_to_update w t1) with
         | Raise e => (Raise e, t2)
         | Ret _ =>
             match fst commit with
             | Raise e => (Raise e, t3)
             | Ret _ =>
                 if truthy (dict_get (config self) "auto_deploy" (PBool true))
                 then (match fst (trigger_all_deployments self repo_name w t3) with
                       | Ret _ => Ret true
                       | Raise e => Raise e
                       end, snd (trigger_all_deployments self repo_name w t3))
                 else (Ret true, t3)
             end
         end.
Proof.
  intros p t1 t2 commit t3. rewrite auto_workflow_split.
  pose proof (resolve_working_copy_path self repo_name w t) as Hp.
  assert ((p =? "")%string = false) as Hne by reflexivity.
  change ("./" ++ repo_name)%string with p in Hp.
  subst t3 commit t2 t1. clearbody p.
  destruct (resolve_working_copy self repo_name w t) as [[path|e] t1];
    cbn [fst snd] in *; [|discriminate].
  inversion Hp as [Hpath]. clear Hp.
  destruct (working_copy_obtained self repo_name w t); cbn [negb]; subst path;
    [|reflexivity].
  rewrite Hne. unfold update_in_working_copy.
  fold (auto_update_message files_to_update).
  unfold bind at 1.
  destruct (write_files p files_to_update w t1) as [[[]|e] t2]; cbn [fst snd];
    [|reflexivity].
  unfold bind at 1.
  destruct (commit_and_push self p (Some (auto_update_message files_to_update))
              None None w t2) as [[[]|e] t3]; cbn [fst snd] in *; [|reflexivity].
  destruct (truthy (dict_get (config self) "auto_deploy" (PBool true))).
  - unfold bind.
    destruct (trigger_all_deployments self repo_name w t3) as [[v|e] t4]; reflexivity.
  - reflexivity.
Qed.

Lemma no_http_events (es : list event) :
  Forall (fun e => is_http e = false) es -> existsb is_http es = false.
Proof.
  induction 1 as [|e es He _ IH]; simpl; [reflexivity|]. rewrite He. exact IH.
Qed.

Lemma resolve_working_copy_events (P : event -> Prop) self repo_name :
  (forall m, m <> MNoDeployments -> P (EPrint m)) ->
  (forall c out, is_clone (ERun c out) = true -> P (ERun c out)) ->
  emits P (resolve_working_copy self repo_name).
Proof.
  intros Hp Hc. unfold resolve_working_copy.
  repeat first [ apply clone_repository_events; assumption | emits_step ].
  apply Hp. discriminate.
Qed.

(** The sequencer sends no request before the fan-out. *)
Lemma no_request_before_fanout self repo_name files_to_update w t :
  let p := ("./" ++ repo_name)%string in
  let t1 := snd (resolve_working_copy self repo_name w t) in
  let t2 := snd (write_files p files_to_update w t1) in
  let t3 := snd (commit_and_push self p (Some (auto_update_message files_to_update))
                   None None w t2) in
  existsb is_http (events_since t t3) = false.
Proof.
  intros p t1 t2 t3.
  set (P := fun e => is_http e = false).
  assert (forall m, m <> MNoDeployments -> P (EPrint m)) as Hp by reflexivity.
  assert (forall c out, is_clone (ERun c out) = true -> P (ERun c out)) as Hc by reflexivity.
  assert (forall c out, is_clone (ERun c out) = false -> P (ERun c out)) as Hg by reflexivity.
  assert (forall e, is_file_write e = true -> P e) as Hf
    by (intros e; destruct e; try discriminate; reflexivity).
  destruct (resolve_working_copy_events P self repo_name Hp Hc w t) as [e1 [E1 F1]].
  destruct (write_files_events P Hp Hf p files_to_update w t1) as [e2 [E2 F2]].
  destruct (commit_and_push_events P Hp Hg self p (Some (auto_update_message files_to_update))
              None None w t2) as [e3 [E3 F3]].
  subst t3. rewrite E3. subst t2. rewrite E2. subst t1. rewrite E1.
  rewrite <- !app_assoc, events_since_app.
  apply no_http_events. repeat (apply Forall_app; split); assumption.
Qed.

(** C4 (counterexample).  Vercel is enabled, [auto_deploy] is unspecified
    and every push is rejected: after the failed push the sequencer
    reports the failure and then requests the Vercel hook. *)
Lemma deployment_triggered_after_failed_push :
  events_after is_failed_push
    (snd (auto_workflow_update_and_deploy vercel_robot "demo" sample_files push_rejected []))
  = [EPrint (MGitFailed 1);
     EHttp (hook_request (PStr vercel_hook)) (Responded ok_response);
     EPrint MVercelTriggered]
  /\ existsb is_failed_push
       (snd (auto_workflow_update_and_deploy vercel_robot "demo" sample_files push_rejected []))
     = true.
Proof. split; vm_compute; reflexivity. Qed.

(** C4 (amended).  The sequencer invokes the deployment fan-out when and
    only when a working copy is at hand, the files have been written
    without an error, the commit-and-push step has not raised, and the
    [auto_deploy] flag is true (which it is when unspecified).  The
    commit-and-push step catches every failing [git] command: each
    command yielding an exit status, it raises only a
    [UnicodeDecodeError], when what one of its [git] queries printed does
    not decode as text, and never where every output decodes.  The fan-out thus runs after the commit-and-push step whether
    or not the commit and the push succeeded; up to there the sequencer
    has sent no request. *)
Theorem fanout_follows_commit_attempt
    (self : robot) (repo_name : string) (files_to_update : list (string * string))
    (w : world) (t : trace) :
  let p := ("./" ++ repo_name)%string in
  let t1 := snd (resolve_working_copy self repo_name w t) in
  let t2 := snd (write_files p files_to_update w t1) in
  let commit := commit_and_push self p (Some (auto_update_message files_to_update))
                  None None w t2 in
  let t3 := snd commit in
  auto_workflow_update_and_deploy self repo_name files_to_update w t
  = (if negb (working_copy_obtained self repo_name w t) then (Ret false, t1)
     else match fst (write_files p files_to_update w t1) with
          | Raise e => (Raise e, t2)
          | Ret _ =>
              match fst commit with
              | Raise e => (Raise e, t3)
              | Ret _ =>
                  if truthy (dict_get (config self) "auto_deploy" (PBool true))
                  then (match fst (trigger_all_deployments self repo_name w t3) with
                        | Ret _ => Ret true
                        | Raise e => Raise e
                        end, snd (trigger_all_deployments self repo_name w t3))
                  else (Ret true, t3)
              end
          end)
  /\ (forall e, fst commit = Raise e -> e = UnicodeDecodeError)
  /\ (readable w -> fst commit = Ret tt)
  /\ existsb is_http (events_since t t3) = false.
Proof.
  intros p t1 t2 commit t3. split; [|split; [|split]].
  - apply auto_workflow_run.
  - intros e. apply commit_and_push_decode_error.
  - apply commit_and_push_returns.
  - apply no_request_before_fanout.
Qed.

(** Every push is rejected and every output decodes: the commit-and-push
    step returns all the same. *)
Lemma fanout_follows_commit_attempt_witness :
  fst (commit_and_push vercel_robot "./demo" (Some (auto_update_message sample_files))
         None None push_rejected
         (snd (write_files "./demo" sample_files push_rejected
                 (snd (resolve_working_copy vercel_robot "demo" push_rejected [])))))
  = Ret tt.
Proof.
  apply (proj1 (proj2 (proj2 (fanout_follows_commit_attempt vercel_robot "demo" sample_files
                                push_rejected [])))).
  intros t c. reflexivity.
Defined.

(** C10 (counterexample).  The local directory exists, yet the sequencer
    does not return [True]: on a read-only disk the first write raises,
    and with Render enabled and out of reach the exception of the Render
    trigger escapes. *)
Lemma sequencer_raises_with_working_copy :
  working_copy_obtained default_robot "demo" read_only_disk [] = true
  /\ fst (auto_workflow_update_and_deploy default_robot "demo" sample_files read_only_disk [])
     = Raise OSError
  /\ working_copy_obtained render_netlify_robot "demo" render_unreachable [] = true
  /\ fst (auto_workflow_update_and_deploy render_netlify_robot "demo" sample_files
            render_unreachable [])
     = Raise (RequestException ConnectionError).
Proof. repeat split; vm_compute; reflexivity. Qed.

(** C10 (amended).  When a working copy is at hand, the files are written
    without an error, the commit-and-push step does not raise and the
    deployment fan-out does not raise, the sequencer returns [True],
    whatever the commit, the push and the deployment triggers did.  The
    commit-and-push step catches every failing [git] command: each
    command yielding an exit status, it raises only a
    [UnicodeDecodeError], when what one of its [git] queries printed does
    not decode as text, and never where every output decodes.  The sequencer returns [False] exactly when there is no local
    directory and the clone fails. *)
Theorem sequencer_success_flag
    (self : robot) (repo_name : string) (files_to_update : list (string * string))
    (w : world) (t : trace) :
  let p := ("./" ++ repo_name)%string in
  let t1 := snd (resolve_working_copy self repo_name w t) in
  let t2 := snd (write_files p files_to_update w t1) in
  let commit := commit_and_push self p (Some (auto_update_message files_to_update))
                  None None w t2 in
  let t3 := snd commit in
  (working_copy_obtained self repo_name w t = true ->
   fst (write_files p files_to_update w t1) = Ret tt ->
   fst commit = Ret tt ->
   (forall e, fst (trigger_all_deployments self repo_name w t3) <> Raise e) ->
   fst (auto_workflow_update_and_deploy self repo_name files_to_update w t) = Ret true)
  /\ (fst (auto_workflow_update_and_deploy self repo_name files_to_update w t) = Ret false
      <-> working_copy_obtained self repo_name w t = false)
  /\ (forall e, fst commit = Raise e -> e = UnicodeDecodeError)
  /\ (readable w -> fst commit = Ret tt).
Proof.
  intros p t1 t2 commit t3.
  pose proof (auto_workflow_run self repo_name files_to_update w t) as E.
  cbv zeta in E. fold p t1 t2 commit t3 in E. rewrite E. clear E.
  split; [|split; [|split]].
  - intros Hwc Hw Hc Hd. rewrite Hwc, Hw, Hc. cbn [negb].
    destruct (truthy (dict_get (config self) "auto_deploy" (PBool true)));
      [|reflexivity].
    cbn [fst].
    destruct (fst (trigger_all_deployments self repo_name w t3)) as [v|e] eqn:Ed;
      [reflexivity|]. destruct (Hd e). reflexivity.
  - destruct (working_copy_obtained self repo_name w t); cbn [negb].
    + split; [|discriminate]. intros H. exfalso.
      destruct (fst (write_files p files_to_update w t1)); [|discriminate].
      destruct (fst commit); [|discriminate].
      destruct (truthy (dict_get (config self) "auto_deploy" (PBool true)));
        [|discriminate].
      cbn [fst] in H.
      destruct (fst (trigger_all_deployments self repo_name w t3)); discriminate.
    + split; reflexivity.
  - intros e. apply commit_and_push_decode_error.
  - apply commit_and_push_returns.
Qed.

(** Every commit fails and every deploy endpoint answers 503: the flag is
    [True] all the same. *)
Lemma sequencer_success_flag_witness :
  fst (auto_workflow_update_and_deploy all_platforms_robot "demo" sample_files
         everything_fails []) = Ret true.
Proof.
  apply (proj1 (sequencer_success_flag all_platforms_robot "demo" sample_files
                  everything_fails [])).
  - vm_compute. reflexivity.
  - vm_compute. reflexivity.
  - vm_compute. reflexivity.
  - intros e. vm_compute. discriminate.
Defined.

(** C8.  With no local directory the sequencer starts with one clone
    request, and what follows holds no further clone: the clone comes
    once, before any file is written.  If the clone fails, the sequencer
    reports it and returns [False]; it writes no file and attempts no
    commit. *)
Theorem missing_working_copy_cloned_once
    (self : robot) (repo_name : string) (files_to_update : list (string * string))
    (w : world) (t : trace) :
  let t0 := t ++ [EPrint (MStarting repo_name)] in
  let c := clone_command self repo_name in
  let out := proc_reply w t0 c in
  path_exists w t0 ("./" ++ repo_name) = false ->
  (exists es,
     snd (auto_workflow_update_and_deploy self repo_name files_to_update w t)
     = t ++ [EPrint (MStarting repo_name); ERun c out] ++ es
     /\ existsb is_clone es = false)
  /\ (returncode out <> 0%Z ->
      auto_workflow_update_and_deploy self repo_name files_to_update w t
      = (Ret false,
         t ++ [EPrint (MStarting repo_name); ERun c out;
               EPrint (MCloneFailed repo_name (returncode out))])
      /\ forallb (fun e => negb (is_file_write e) && negb (is_commit e))
           (events_since t
              (snd (auto_workflow_update_and_deploy self repo_name files_to_update w t)))
         = true).
Proof.
  intros t0 c out Hmissing.
  assert (snd (resolve_working_copy self repo_name w t)
          = t0 ++ [ERun c out;
                   EPrint (if (returncode out =? 0)%Z
                           then MCloned ("./" ++ repo_name)
                           else MCloneFailed repo_name (returncode out))]) as E1.
  { rewrite resolve_working_copy_run. cbv zeta. fold t0. rewrite Hmissing.
    rewrite clone_repository_run. cbv zeta. fold c out.
    destruct (returncode out =? 0)%Z; reflexivity. }
  assert (working_copy_obtained self repo_name w t = (returncode out =? 0)%Z) as Hwc.
  { unfold working_copy_obtained. fold t0 c out. rewrite Hmissing. reflexivity. }
  pose proof (auto_workflow_run self repo_name files_to_update w t) as E.
  cbv zeta in E. rewrite Hwc in E.
  split.
  - set (P := fun e => is_clone e = false).
    assert (forall m, m <> MNoDeployments -> P (EPrint m)) as Hp by reflexivity.
    assert (forall c out, is_clone (ERun c out) = false -> P (ERun c out)) as Hg by auto.
    assert (forall e, is_file_write e = true -> P e) as Hf
      by (intros e; destruct e; try discriminate; reflexivity).
    assert (forall r o, timeout r = None -> P (EHttp r o)) as Hh by reflexivity.
    assert (existsb is_clone [] = false) as Hnil by reflexivity.
    assert (forall es, Forall P es -> existsb is_clone es = false) as Hall.
    { induction 1 as [|e es He _ IH]; simpl; [reflexivity|]. rewrite He. exact IH. }
    destruct (returncode out =? 0)%Z eqn:Hcode.
    + destruct (update_in_working_copy_events P Hp eq_refl Hf Hg Hh self repo_name
                  files_to_update ("./" ++ repo_name)
                  w (snd (resolve_working_copy self repo_name w t))) as [es [E2 F2]].
      assert (snd (auto_workflow_update_and_deploy self repo_name files_to_update w t)
              = snd (update_in_working_copy self repo_name files_to_update
                       ("./" ++ repo_name) w
                       (snd (resolve_working_copy self repo_name w t)))) as E3.
      { rewrite auto_workflow_split.
        pose proof (resolve_working_copy_path self repo_name w t) as Hpath.
        rewrite Hwc in Hpath.
        destruct (resolve_working_copy self repo_name w t) as [[path|e] t1];
          cbn [fst snd] in *; [|discriminate].
        inversion Hpath. reflexivity. }
      rewrite E3, E2, E1. unfold t0.
      exists (EPrint (MCloned ("./" ++ repo_name)) :: es).
      split.
      * rewrite <- !app_assoc. reflexivity.
      * simpl. apply Hall. exact F2.
    + rewrite E. cbn [negb snd]. rewrite E1. unfold t0.
      exists [EPrint (MCloneFailed repo_name (returncode out))].
      split; [rewrite <- !app_assoc; reflexivity | reflexivity].
  - intros Hfail.
    assert ((returncode out =? 0)%Z = false) as Hcode by (apply Z.eqb_neq; exact Hfail).
    rewrite Hcode in *. cbn [negb] in E.
    assert (auto_workflow_update_and_deploy self repo_name files_to_update w t
            = (Ret false,
               t ++ [EPrint (MStarting repo_name); ERun c out;
                     EPrint (MCloneFailed repo_name (returncode out))])) as E4.
    { rewrite E, E1. unfold t0. rewrite <- !app_assoc. reflexivity. }
    split; [exact E4|].
    rewrite E4. cbn [snd]. rewrite events_since_app. reflexivity.
Qed.

Lemma missing_working_copy_cloned_once_witness :
  path_exists clone_refused [EPrint (MStarting "demo")] "./demo" = false
  /\ auto_workflow_update_and_deploy default_robot "demo" sample_files clone_refused []
     = (Ret false,
        [EPrint (MStarting "demo");
         ERun (clone_command default_robot "demo") (mk_completed 128 "");
         EPrint (MCloneFailed "demo" 128)]).
Proof.
  split; [reflexivity|].
  apply (proj2 (missing_working_copy_cloned_once default_robot "demo" sample_files
                  clone_refused [] eq_refl)).
  vm_compute. discriminate.
Defined.

(* ===================================================================== *)
(** ** Repository improvement planner *)
(* ===================================================================== *)

Lemma listing_names entries names w t :
  Forall2 entry_named entries names ->
  for_each (fun f => py_getitem f "name") entries w t = (Ret (map PStr names), t).
Proof.
  induction 1 as [|e n entries names [d [-> Hd]] _ IH]; simpl; [reflexivity|].
  unfold bind at 1. simpl. rewrite Hd. simpl.
  unfold bind at 1. rewrite IH. reflexivity.
Qed.

Lemma any_of_strings (q : string -> bool) names w t :
  any_of (fun n => s <- py_string n ;; ret (q s)) (map PStr names) w t
  = (Ret (existsb q names), t).
Proof.
  induction names as [|n names IH]; simpl; [reflexivity|].
  unfold bind at 1. simpl. destruct (q n); simpl; [reflexivity | exact IH].
Qed.

Lemma any_of_contains s names w t :
  any_of (py_contains s) (map PStr names) w t = (Ret (existsb (contains s) names), t).
Proof.
  induction names as [|n names IH]; simpl; [reflexivity|].
  unfold bind at 1. simpl. destruct (contains s n); simpl; [reflexivity | exact IH].
Qed.

Lemma existsb_names (q : string -> bool) names :
  existsb (fun v => match v with PStr s => q s | _ => false end) (map PStr names)
  = existsb q names.
Proof. induction names as [|n names IH]; simpl; [reflexivity|]. rewrite IH. reflexivity. Qed.

(** The analysis of a successful listing. *)
Lemma analyze_repository_listing self repo_name w t resp entries names :
  http_reply w t (contents_request self repo_name) = Responded resp ->
  status_code resp = 200%Z ->
  json resp = Some (PList entries) ->
  Forall2 entry_named entries names ->
  analyze_repository self repo_name w t
  = (Ret (Some (analysis_of names)),
     t ++ [EHttp (contents_request self repo_name) (Responded resp)]).
Proof.
  intros Hreply Hstatus Hjson Hnames.
  unfold analyze_repository. fold (contents_request self repo_name).
  unfold bind at 1. unfold requests_call. rewrite Hreply, Hstatus. simpl.
  unfold bind at 1. unfold res_json. rewrite Hjson. simpl.
  unfold bind at 1. simpl.
  unfold bind at 1. rewrite (listing_names _ _ _ _ Hnames).
  unfold bind at 1. rewrite any_of_strings.
  unfold bind at 1. rewrite any_of_strings.
  unfold py_eq_str, key_is.
  rewrite (existsb_names (fun s => s =? "package.json")%string).
  unfold analysis_of. fold readme_like.
  change (fun s : string => startswith (lower s) "readme") with readme_like.
  destruct (existsb readme_like names);
    destruct (existsb (fun n => (n =? "package.json")%string) names); simpl;
    unfold bind at 1; try rewrite any_of_contains; simpl; try reflexivity;
    destruct (existsb (contains ".js") names); reflexivity.
Qed.

Lemma not_readme_like names :
  (forall n, In n names -> readme_like n = false) -> existsb readme_like names = false.
Proof.
  intros H. induction names as [|n names IH]; simpl; [reflexivity|].
  rewrite (H n (or_introl eq_refl)). apply IH. intros m Hm. apply H. right. exact Hm.
Qed.

Lemma gitignore_listed names :
  existsb (fun f => py_eq_str f ".gitignore") (map PStr names) = true <-> In ".gitignore"%string names.
Proof.
  unfold py_eq_str, key_is. rewrite (existsb_names (fun s => s =? ".gitignore")%string).
  rewrite existsb_exists. split.
  - intros [n [Hn E]]. apply String.eqb_eq in E. subst n. exact Hn.
  - intros H. exists ".gitignore"%string. split; [exact H | reflexivity].
Qed.

(** C9.  After a successful top-level listing the planner hands the
    sequencer a file mapping that always holds the CI workflow definition,
    so it is never empty.  The mapping is the README, the ignore file and
    the workflow, in that order, when no listed name starts with "readme"
    (in any case of letters) and none is ".gitignore"; it is the workflow
    alone when both are listed. *)
Theorem planner_file_mapping
    (self : robot) (repo_name : string) (w : world) (t : trace)
    (resp : response) (entries : list pyval) (names : list string) :
  http_reply w t (contents_request self repo_name) = Responded resp ->
  status_code resp = 200%Z ->
  json resp = Some (PList entries) ->
  Forall2 entry_named entries names ->
  let plan := planned_improvements repo_name (analysis_of names) in
  let workflow := generate_github_actions_workflow ["vercel"; "render"; "netlify"]%string in
  auto_improve_repository self repo_name w t
  = bind (auto_workflow_update_and_deploy self repo_name plan)
         (fun _ => print (MImproved repo_name (List.length plan)) ;; ret true)
         w (t ++ [EHttp (contents_request self repo_name) (Responded resp)])
  /\ 1 <= List.length plan
  /\ In (workflow_path, workflow) plan
  /\ ((forall n, In n names -> readme_like n = false) ->
      ~ In ".gitignore"%string names ->
      plan = [("README.md"%string, generate_readme repo_name);
              (".gitignore"%string, generate_gitignore);
              (workflow_path, workflow)])
  /\ ((exists n, In n names /\ readme_like n = true) ->
      In ".gitignore"%string names ->
      plan = [(workflow_path, workflow)]).
Proof.
  intros Hreply Hstatus Hjson Hnames plan workflow.
  assert (He : existsb (fun f => py_eq_str f ".gitignore") (files (analysis_of names)) = true
               <-> In ".gitignore"%string names) by apply gitignore_listed.
  assert (Hplan :
    plan = (if negb (has_readme (analysis_of names))
            then [("README.md"%string, generate_readme repo_name)] else [])
           ++ (if negb (existsb (fun f => py_eq_str f ".gitignore")
                          (files (analysis_of names)))
               then [(".gitignore"%string, generate_gitignore)] else [])
           ++ [(workflow_path, workflow)]).
  { unfold plan, planned_improvements.
    destruct (has_readme (analysis_of names));
      destruct (existsb (fun f => py_eq_str f ".gitignore") (files (analysis_of names)));
      reflexivity. }
  split; [|split; [|split; [|split]]].
  - unfold auto_improve_repository.
    rewrite (bind_ret _ _ _ _ _ _
               (analyze_repository_listing _ _ _ _ _ _ _ Hreply Hstatus Hjson Hnames)).
    fold plan. clearbody plan.
    destruct plan as [|entry plan]; [|reflexivity].
    destruct (negb _), (negb _) in Hplan; discriminate Hplan.
  - rewrite Hplan, !length_app. simpl. lia.
  - rewrite Hplan. apply in_or_app. right. apply in_or_app. right. left. reflexivity.
  - intros Hreadme Hignore. rewrite Hplan.
    change (has_readme (analysis_of names)) with (existsb readme_like names).
    rewrite (not_readme_like _ Hreadme).
    destruct (existsb (fun f => py_eq_str f ".gitignore") (files (analysis_of names)));
      [|reflexivity].
    destruct Hignore. apply He. reflexivity.
  - intros [n [Hn Hreadme]] Hignore. rewrite Hplan.
    change (has_readme (analysis_of names)) with (existsb readme_like names).
    assert (existsb readme_like names = true) as ->
      by (apply existsb_exists; exists n; auto).
    apply He in Hignore. rewrite Hignore. reflexivity.
Qed.

Lemma planner_file_mapping_witness :
  List.length (planned_improvements "demo" (analysis_of ["main.py"; "src"]%string)) = 3
  /\ planned_improvements "demo" (analysis_of ["main.py"; "src"]%string)
     = [("README.md"%string, generate_readme "demo");
        (".gitignore"%string, generate_gitignore);
        (workflow_path,
         generate_github_actions_workflow ["vercel"; "render"; "netlify"]%string)].
Proof.
  destruct (planner_file_mapping default_robot "demo" bare_repository []
              (mk_response 200 (Some (listing_of ["main.py"; "src"]%string)) "")
              (map listing_entry ["main.py"; "src"]%string) ["main.py"; "src"]%string
              eq_refl eq_refl eq_refl)
    as [_ [_ [_ [Hthree _]]]].
  - repeat constructor; eexists; split; reflexivity.
  - assert (planned_improvements "demo" (analysis_of ["main.py"; "src"]%string)
            = [("README.md"%string, generate_readme "demo");
               (".gitignore"%string, generate_gitignore);
               (workflow_path,
                generate_github_actions_workflow ["vercel"; "render"; "netlify"]%string)])
      as E.
    { apply Hthree.
      - intros n [<-|[<-|[]]]; reflexivity.
      - intros [H|[H|[]]]; discriminate H. }
    split; [rewrite E; reflexivity | exact E].
Defined.

(* ===================================================================== *)
(** ** Commit messages from file types *)
(* ===================================================================== *)

Lemma tally_get_set d k v k' x :
  tally_get (tally_set d k v) k' x = if (k =? k')%string then v else tally_get d k' x.
Proof.
  induction d as [|[k0 v0] d IH]; simpl.
  - reflexivity.
  - destruct (k0 =? k)%string eqn:E0; simpl.
    + apply String.eqb_eq in E0. subst k0. destruct (k =? k')%string; reflexivity.
    + destruct (k0 =? k')%string eqn:E1; [|exact IH].
      apply String.eqb_eq in E1. subst k0.
      rewrite String.eqb_sym, E0. reflexivity.
Qed.

Lemma tally_mem_set d k v k' :
  tally_mem (tally_set d k v) k' = orb (k =? k')%string (tally_mem d k').
Proof.
  unfold tally_mem. induction d as [|[k0 v0] d IH]; simpl.
  - rewrite orb_false_r. reflexivity.
  - destruct (k0 =? k)%string eqn:E0; simpl.
    + apply String.eqb_eq in E0. subst k0.
      destruct (k =? k')%string; reflexivity.
    + rewrite IH. destruct (k0 =? k')%string, (k =? k')%string; reflexivity.
Qed.

(** The dict of counts after the loop: the count of a suffix is the number
    of files that have it, and a suffix is a key when some file has it. *)
Lemma file_types_counts files k :
  forall d,
    tally_get (fold_left count_file_type files d) k 0
    = tally_get d k 0 + suffix_count k files
    /\ tally_mem (fold_left count_file_type files d) k
       = orb (tally_mem d k) (0 <? suffix_count k files)%nat.
Proof.
  unfold suffix_count.
  induction files as [|f files IH]; intros d; simpl.
  - rewrite Nat.add_0_r, orb_false_r. auto.
  - destruct (IH (count_file_type d f)) as [Hget Hmem].
    rewrite Hget, Hmem. unfold count_file_type.
    rewrite tally_get_set, tally_mem_set.
    destruct (lower (path_suffix f) =? k)%string eqn:E; simpl.
    + apply String.eqb_eq in E. rewrite E. split; [lia|].
      rewrite orb_true_r. reflexivity.
    + split; reflexivity.
Qed.

Lemma suffix_count_permutation k files files' :
  Permutation files files' -> suffix_count k files = suffix_count k files'.
Proof.
  unfold suffix_count. induction 1; simpl; auto.
  - destruct (lower (path_suffix x) =? k)%string; simpl; auto.
  - destruct (lower (path_suffix x) =? k)%string, (lower (path_suffix y) =? k)%string;
      reflexivity.
  - congruence.
Qed.

(** The message as a function of the counts. *)
Lemma smart_commit_message_counts files :
  smart_commit_message files
  = let n ext := suffix_count ext files in
    if (0 <? n ".py")%nat then
      ("🐍 Update Python files (" ++ str_of_nat (n ".py") ++ " files)")%string
    else if (0 <? n ".js" + n ".ts")%nat then
      ("📦 Update JavaScript/TypeScript (" ++ str_of_nat (n ".js" + n ".ts") ++ " files)")%string
    else if (0 <? n ".md")%nat then
      ("📝 Update documentation (" ++ str_of_nat (n ".md") ++ " files)")%string
    else if (0 <? n ".css" + n ".scss")%nat then
      ("🎨 Update styles (" ++ str_of_nat (n ".css" + n ".scss") ++ " files)")%string
    else
      ("🔧 Update " ++ str_of_nat (List.length files) ++ " files")%string.
Proof.
  unfold smart_commit_message. cbv zeta.
  assert (forall k, tally_get (fold_left count_file_type files []) k 0 = suffix_count k files)
    as Hget by (intros k; apply (file_types_counts files k [])).
  assert (forall k, tally_mem (fold_left count_file_type files []) k
                    = (0 <? suffix_count k files)%nat) as Hmem
    by (intros k; apply (file_types_counts files k [])).
  rewrite !Hget, !Hmem.
  assert (forall a b, orb (0 <? a)%nat (0 <? b)%nat = (0 <? a + b)%nat) as Hor.
  { intros a b. destruct a, b; simpl; auto. }
  rewrite !Hor. reflexivity.
Qed.

(** X1.  The commit message is chosen by file type in a fixed order of
    precedence: Python files first, then JavaScript or TypeScript, then
    Markdown, then style sheets, and the count it shows is the number of
    files of that type (suffixes compared without case).  With none of
    these types the message counts all the files. *)
Theorem smart_commit_message_precedence (changed_files : list string) :
  let n ext := suffix_count ext changed_files in
  (0 < n ".py" ->
   smart_commit_message changed_files
   = ("🐍 Update Python files (" ++ str_of_nat (n ".py") ++ " files)")%string)
  /\ (n ".py" = 0 -> 0 < n ".js" + n ".ts" ->
      smart_commit_message changed_files
      = ("📦 Update JavaScript/TypeScript (" ++ str_of_nat (n ".js" + n ".ts")
           ++ " files)")%string)
  /\ (n ".py" = 0 -> n ".js" + n ".ts" = 0 -> 0 < n ".md" ->
      smart_commit_message changed_files
      = ("📝 Update documentation (" ++ str_of_nat (n ".md") ++ " files)")%string)
  /\ (n ".py" = 0 -> n ".js" + n ".ts" = 0 -> n ".md" = 0 -> 0 < n ".css" + n ".scss" ->
      smart_commit_message changed_files
      = ("🎨 Update styles (" ++ str_of_nat (n ".css" + n ".scss") ++ " files)")%string)
  /\ (n ".py" = 0 -> n ".js" + n ".ts" = 0 -> n ".md" = 0 -> n ".css" + n ".scss" = 0 ->
      smart_commit_message changed_files
      = ("🔧 Update " ++ str_of_nat (List.length changed_files) ++ " files")%string).
Proof.
  intros n. rewrite smart_commit_message_counts. cbv zeta. fold n.
  repeat split; intros;
    repeat match goal with
           | H : 0 < _ |- _ => apply Nat.ltb_lt in H; rewrite H; clear H
           | H : _ = 0 |- _ => rewrite H; clear H
           end; reflexivity.
Qed.

Lemma smart_commit_message_precedence_witness :
  smart_commit_message ["docs/guide.md"; "src/app.TS"; "src/util.js"; "README.md"]%string
  = "📦 Update JavaScript/TypeScript (2 files)"%string.
Proof.
  apply (proj1 (proj2 (smart_commit_message_precedence
                         ["docs/guide.md"; "src/app.TS"; "src/util.js"; "README.md"]%string))).
  - reflexivity.
  - vm_compute. lia.
Defined.

(** X2.  The commit message does not depend on the order of the changed
    files. *)
Theorem smart_commit_message_order (changed_files changed_files' : list string) :
  Permutation changed_files changed_files' ->
  smart_commit_message changed_files = smart_commit_message changed_files'.
Proof.
  intros H. rewrite !smart_commit_message_counts. cbv zeta.
  rewrite (Permutation_length H).
  rewrite !(suffix_count_permutation _ _ _ H). reflexivity.
Qed.

Lemma smart_commit_message_order_witness :
  smart_commit_message ["a.css"; "b.md"]%string = smart_commit_message ["b.md"; "a.css"]%string.
Proof.
  apply smart_commit_message_order. apply perm_swap.
Defined.

(* ===================================================================== *)
(** ** Platform trigger adapters: required fields and responses *)
(* ===================================================================== *)

Lemma accepted_codes (code : Z) :
  accepted code = true <-> (code = 200 \/ code = 201 \/ code = 202)%Z.
Proof.
  unfold accepted. rewrite !orb_true_iff, !Z.eqb_eq. tauto.
Qed.

(** X3.  A hook adapter (Vercel, Netlify) whose target is enabled but has
    no deploy hook URL returns [False] after naming the missing field, and
    sends no request. *)
Theorem hook_adapter_missing_hook
    (self : robot) (p : platform) (m : message) (block : list (pyval * pyval))
    (repo_name : string) (service_id : pyval) (w : world) (t : trace) :
  missing_hook_message p = Some m ->
  target_configuration self (platform_key p) = Some block ->
  enabled_flag block = true ->
  truthy (dict_get block "deploy_hook_url" PNone) = false ->
  trigger_adapter self p repo_name service_id w t = (Ret false, t ++ [EPrint m]).
Proof.
  intros Hm Hcfg Hflag Hhook. unfold enabled_flag in Hflag.
  destruct p; simpl in *; try discriminate; inversion Hm; subst m;
    [unfold deploy_to_vercel | unfold deploy_to_netlify];
    rewrite (bind_ret _ _ _ _ _ _ (platform_cfg_block _ _ _ w t Hcfg));
    simpl; unfold bind at 1; simpl; rewrite Hflag; simpl;
    unfold bind at 1; simpl; rewrite Hhook; reflexivity.
Qed.

Lemma hook_adapter_missing_hook_witness :
  trigger_adapter
    (mk_robot (platforms_config (hook_block true "") (render_block false "")
                 (hook_block false "")) None "octocat")
    Vercel "demo" PNone calm_world []
  = (Ret false, [EPrint MVercelMissingHook]).
Proof.
  apply (hook_adapter_missing_hook _ Vercel MVercelMissingHook
           [(PStr "enabled", PBool true); (PStr "deploy_hook_url", PStr "")]
           "demo"%string PNone calm_world []); reflexivity.
Defined.

(** X4.  The Render adapter, its target enabled, returns [False] without
    a request when [RENDER_TOKEN] is unset or empty, and, with a token,
    when neither its argument nor the configuration gives a service id.
    The token is tested first. *)
Theorem render_adapter_missing_field
    (self : robot) (block : list (pyval * pyval)) (service_id : pyval)
    (w : world) (t : trace) :
  target_configuration self "render" = Some block ->
  enabled_flag block = true ->
  ((getenv w "RENDER_TOKEN" = None \/ getenv w "RENDER_TOKEN" = Some ""%string) ->
   deploy_to_render self service_id w t = (Ret false, t ++ [EPrint MRenderTokenMissing]))
  /\ (forall tok,
        getenv w "RENDER_TOKEN" = Some tok -> tok <> ""%string ->
        truthy service_id = false ->
        truthy (dict_get block "service_id" PNone) = false ->
        deploy_to_render self service_id w t
        = (Ret false, t ++ [EPrint MRenderMissingService])).
Proof.
  intros Hcfg Hflag. unfold enabled_flag in Hflag.
  assert (forall k : pyval -> M bool,
            bind (platform_cfg self "render") k w t = k (PDict block) w t) as Hstart
    by (intros k; apply bind_ret, platform_cfg_block, Hcfg).
  split.
  - intros Henv. unfold deploy_to_render. rewrite Hstart.
    simpl. unfold bind at 1. simpl. rewrite Hflag. simpl.
    unfold bind at 1. unfold os_getenv.
    destruct Henv as [-> | ->]; reflexivity.
  - intros tok Henv Htok Hsid Hconfigured. unfold deploy_to_render. rewrite Hstart.
    simpl. unfold bind at 1. simpl. rewrite Hflag. simpl.
    unfold bind at 1. unfold os_getenv. rewrite Henv.
    destruct tok as [|c tok]; [destruct Htok; reflexivity|].
    rewrite Hsid. unfold bind at 1. simpl. rewrite Hconfigured. reflexivity.
Qed.

Lemma render_adapter_missing_field_witness :
  deploy_to_render
    (mk_robot (platforms_config (hook_block false "") (render_block true "")
                 (hook_block false "")) None "octocat")
    PNone deploys_refused []
  = (Ret false, [EPrint MRenderMissingService]).
Proof.
  apply (proj2 (render_adapter_missing_field
                  (mk_robot (platforms_config (hook_block false "") (render_block true "")
                               (hook_block false "")) None "octocat")
                  [(PStr "enabled", PBool true); (PStr "service_id", PStr "")]
                  PNone deploys_refused [] eq_refl eq_refl) "rnd_secret"%string).
  - reflexivity.
  - discriminate.
  - reflexivity.
  - reflexivity.
Defined.

(** X5.  A hook adapter whose target is enabled and has a hook sends one
    [POST] to the hook, and on a response returns [True] exactly for the
    status codes 200, 201 and 202; any other status is reported with its
    code and body and gives [False]. *)
Theorem hook_adapter_response
    (self : robot) (p : platform) (m : message) (block : list (pyval * pyval))
    (hook : pyval) (resp : response)
    (repo_name : string) (service_id : pyval) (w : world) (t : trace) :
  missing_hook_message p = Some m ->
  target_configuration self (platform_key p) = Some block ->
  enabled_flag block = true ->
  dict_get block "deploy_hook_url" PNone = hook ->
  truthy hook = true ->
  http_reply w t (hook_request hook) = Responded resp ->
  trigger_adapter self p repo_name service_id w t
  = (Ret (accepted (status_code resp)),
     t ++ [EHttp (hook_request hook) (Responded resp); EPrint (response_report p resp)])
  /\ (accepted (status_code resp) = true
      <-> (status_code resp = 200 \/ status_code resp = 201 \/ status_code resp = 202)%Z).
Proof.
  intros Hm Hcfg Hflag Hhook Htruthy Hreply. unfold enabled_flag in Hflag.
  split; [|apply accepted_codes].
  unfold response_report.
  destruct p; simpl in *; try discriminate;
    [unfold deploy_to_vercel | unfold deploy_to_netlify];
    rewrite (bind_ret _ _ _ _ _ _ (platform_cfg_block _ _ _ w t Hcfg));
    simpl; unfold bind at 1; simpl; rewrite Hflag; simpl;
    unfold bind at 1; simpl; rewrite Hhook, Htruthy; simpl;
    unfold try_except, bind, requests_call; fold (hook_request hook);
    rewrite Hreply; simpl;
    destruct (accepted (status_code resp)); simpl; rewrite <- app_assoc; reflexivity.
Qed.

Lemma hook_adapter_response_witness :
  trigger_adapter vercel_netlify_robot Netlify "demo" PNone deploys_refused []
  = (Ret false,
     [EHttp (hook_request (PStr netlify_hook))
            (Responded (mk_response 503 None "Service Unavailable"));
      EPrint (MError "Netlify deployment failed" 503
                (PDict [(PStr "text", PStr "Service Unavailable");
                        (PStr "status", PInt 503)]))]).
Proof.
  apply (proj1 (hook_adapter_response vercel_netlify_robot Netlify MNetlifyMissingHook
                  [(PStr "enabled", PBool true); (PStr "deploy_hook_url", PStr netlify_hook)]
                  (PStr netlify_hook) (mk_response 503 None "Service Unavailable")
                  "demo"%string PNone deploys_refused []
                  eq_refl eq_refl eq_refl eq_refl eq_refl eq_refl)).
Defined.



(* ===================================================================== *)
(** ** Counting requests *)
(* ===================================================================== *)

Lemma request_count_app (a b : list event) :
  request_count (a ++ b) = request_count a + request_count b.
Proof. unfold request_count. rewrite filter_app, length_app. reflexivity. Qed.

Lemma request_count_none (es : list event) :
  Forall (fun e => is_http e = false) es -> request_count es = 0.
Proof. intros H. unfold request_count. rewrite filter_none by exact H. reflexivity. Qed.

(** A computation that sends no request. *)
Lemma sends_none {A} (m : M A) n :
  emits (fun e => is_http e = false) m -> sends_at_most n m.
Proof.
  intros H w t. destruct (H w t) as [es [E F]]. exists es. split; [exact E|].
  rewrite request_count_none by exact F. lia.
Qed.

Lemma sends_requests_call (r : request) : sends_at_most 1 (requests_call r).
Proof. intros w t. exists [EHttp r (http_reply w t r)]. split; [reflexivity|].
  unfold request_count. simpl. lia.
Qed.

Lemma sends_bind {A B} (a b n : nat) (m : M A) (f : A -> M B) :
  sends_at_most a m -> (forall x, sends_at_most b (f x)) -> a + b <= n ->
  sends_at_most n (bind m f).
Proof.
  intros Hm Hf Hn w t. destruct (Hm w t) as [es [E F]].
  unfold bind. destruct (m w t) as [[x|e] t']; simpl in E; subst t'.
  - destruct (Hf x w (t ++ es)) as [es' [E' F']].
    exists (es ++ es'). rewrite E', app_assoc. split; [reflexivity|].
    rewrite request_count_app. lia.
  - exists es. split; [reflexivity | lia].
Qed.

Lemma sends_try {A} (a b n : nat) (m : M A) (h : exn -> option (M A)) :
  sends_at_most a m -> (forall e k, h e = Some k -> sends_at_most b k) -> a + b <= n ->
  sends_at_most n (try_except m h).
Proof.
  intros Hm Hh Hn w t. destruct (Hm w t) as [es [E F]].
  unfold try_except. destruct (m w t) as [[x|e] t']; simpl in E; subst t'.
  - exists es. split; [reflexivity | lia].
  - destruct (h e) as [k|] eqn:Ek.
    + destruct (Hh e k Ek w (t ++ es)) as [es' [E' F']].
      exists (es ++ es'). rewrite E', app_assoc. split; [reflexivity|].
      rewrite request_count_app. lia.
    + exists es. split; [reflexivity | lia].
Qed.

(** What sends nothing: prints, reads of the configuration, [git]. *)
Ltac silent :=
  apply sends_none; emits_walk; reflexivity.

Lemma deploy_to_vercel_sends self repo_name : sends_at_most 1 (deploy_to_vercel self repo_name).
Proof.
  unfold deploy_to_vercel, platform_cfg.
  apply (sends_bind 0 1); [silent | intro | lia].
  apply (sends_bind 0 1); [silent | intro | lia].
  destruct (negb (truthy x0)); [silent|].
  apply (sends_bind 0 1); [silent | intro | lia].
  destruct (negb (truthy x1)); [silent|].
  apply (sends_try 1 0); [ | | lia].
  - apply (sends_bind 1 0); [apply sends_requests_call | intro; silent | lia].
  - intros e k H. destruct e; simpl in H; try discriminate H. injection H as <-. silent.
Qed.

Lemma deploy_to_netlify_sends self : sends_at_most 1 (deploy_to_netlify self).
Proof.
  unfold deploy_to_netlify, platform_cfg.
  apply (sends_bind 0 1); [silent | intro | lia].
  apply (sends_bind 0 1); [silent | intro | lia].
  destruct (negb (truthy x0)); [silent|].
  apply (sends_bind 0 1); [silent | intro | lia].
  destruct (truthy x1); [|silent].
  apply (sends_try 1 0); [ | | lia].
  - apply (sends_bind 1 0); [apply sends_requests_call | intro; silent | lia].
  - intros e k H. destruct e; simpl in H; try discriminate H. injection H as <-. silent.
Qed.

Lemma deploy_to_render_sends self service_id :
  sends_at_most 1 (deploy_to_render self service_id).
Proof.
  unfold deploy_to_render, platform_cfg.
  apply (sends_bind 0 1); [silent | intro | lia].
  apply (sends_bind 0 1); [silent | intro | lia].
  destruct (negb (truthy x0)); [silent|].
  apply (sends_bind 0 1); [silent | intro | lia].
  destruct x1 as [[|c tok]|]; try silent.
  apply (sends_bind 0 1); [silent | intro | lia].
  destruct (negb (truthy x1)); [silent|].
  apply (sends_bind 1 0); [apply sends_requests_call | intro; silent | lia].
Qed.

Lemma trigger_all_deployments_sends self repo_name :
  sends_at_most 3 (trigger_all_deployments self repo_name).
Proof.
  unfold trigger_all_deployments, platform_enabled.
  apply (sends_bind 0 3); [silent | intro | lia].
  apply (sends_bind 1 2); [ | intro | lia].
  { destruct x; [|silent].
    apply (sends_bind 1 0); [apply deploy_to_vercel_sends | intro; silent | lia]. }
  apply (sends_bind 0 2); [silent | intro | lia].
  apply (sends_bind 1 1); [ | intro | lia].
  { destruct x1; [|silent].
    apply (sends_bind 0 1); [silent | intro | lia].
    apply (sends_bind 0 1); [silent | intro | lia].
    apply (sends_bind 1 0); [apply deploy_to_render_sends | intro; silent | lia]. }
  apply (sends_bind 0 1); [silent | intro | lia].
  apply (sends_bind 1 0); [ | intro; silent | lia].
  destruct x3; [|silent].
  apply (sends_bind 1 0); [apply deploy_to_netlify_sends | intro; silent | lia].
Qed.

Lemma forallb_events (p : event -> bool) (es : list event) :
  Forall (fun e => p e = true) es -> forallb p es = true.
Proof. induction 1 as [|e es He _ IH]; simpl; [reflexivity|]. rewrite He. exact IH. Qed.

(** X7.  Whatever the configuration and the world, the deployment fan-out
    only prints and sends [POST] requests without a body to deploy
    endpoints, at most three of them: it runs no [git] command, touches no
    file and never pauses. *)
Theorem fanout_only_triggers (self : robot) (repo_name : string) (w : world) (t : trace) :
  let es := events_since t (snd (trigger_all_deployments self repo_name w t)) in
  forallb (fun e => is_print e || is_deploy_request e) es = true
  /\ request_count es <= 3.
Proof.
  intros es. subst es. split.
  - assert (emits (fun e => is_print e || is_deploy_request e = true)
              (trigger_all_deployments self repo_name)) as H.
    { unfold trigger_all_deployments, platform_enabled, deploy_to_vercel, deploy_to_render,
        deploy_to_netlify, platform_cfg.
      emits_walk; reflexivity. }
    destruct (H w t) as [es [E F]]. rewrite E, events_since_app.
    apply forallb_events. exact F.
  - destruct (trigger_all_deployments_sends self repo_name w t) as [es [E F]].
    rewrite E, events_since_app. exact F.
Qed.

(* ===================================================================== *)
(** ** Batch runner: flags, pauses and requests *)
(* ===================================================================== *)

Lemma no_sleep_events (es : list event) :
  Forall (fun e => is_sleep e = false) es -> filter is_sleep es = [].
Proof. apply filter_none. Qed.

Lemma run_operation_never_sleeps self operation files r :
  emits (fun e => is_sleep e = false) (run_operation self operation files r).
Proof.
  apply run_operation_events; try reflexivity.
  intros e. destruct e; try discriminate; reflexivity.
Qed.

Lemma batch_loop_sleeps self operation files w repos :
  forall acc t results t',
    batch_loop self operation files repos acc w t = (Ret results, t') ->
    filter is_sleep (events_since t t') = repeat (ESleep 1200) (List.length repos).
Proof.
  induction repos as [|r rest IH]; intros acc t results t' H.
  - simpl in H. inversion H; subst.
    rewrite <- (app_nil_r t') at 2. rewrite events_since_app. reflexivity.
  - rewrite batch_loop_step in H.
    destruct (run_operation_never_sleeps self operation files r w
                (t ++ [EPrint (MProcessing r)])) as [es [E F]].
    destruct (run_operation self operation files r w (t ++ [EPrint (MProcessing r)]))
      as [[ok|e] t1]; [|discriminate]. simpl in E. subst t1.
    pose proof (IH _ _ _ _ H) as Hrest.
    assert (exists es', t' = ((t ++ [EPrint (MProcessing r)]) ++ es) ++ [ESleep 1200] ++ es')
      as [es' Et'].
    { assert (emits (fun _ => True) (batch_loop self operation files rest
                                       (acc ++ [mk_outcome r ok]))) as Hb
        by (apply batch_loop_events; intros; exact I).
      destruct (Hb w (((t ++ [EPrint (MProcessing r)]) ++ es) ++ [ESleep 1200]))
        as [es' [E' _]].
      rewrite H in E'. simpl in E'. exists es'. rewrite E', <- !app_assoc. reflexivity. }
    rewrite Et' in Hrest |- *.
    rewrite app_assoc, events_since_app in Hrest.
    rewrite <- !app_assoc, events_since_app. simpl.
    rewrite filter_app, (no_sleep_events _ F). simpl. rewrite Hrest. reflexivity.
Qed.

(** X8.  A batch that returns has paused once per repository, for 1.2
    seconds each time, the last repository included. *)
Theorem batch_pauses_once_per_repository
    (self : robot) (repos : list string) (operation : string)
    (files : option (list (string * string))) (w : world) (t t' : trace)
    (results : list outcome) :
  batch_repository_operation self repos operation files w t = (Ret results, t') ->
  filter is_sleep (events_since t t') = repeat (ESleep 1200) (List.length repos).
Proof. apply batch_loop_sleeps. Qed.

Lemma batch_pauses_once_per_repository_witness :
  filter is_sleep
    (events_since []
       (snd (batch_repository_operation default_robot ["r1"; "r2"; "r3"]%string
               "update_and_deploy" None second_repo_missing [])))
  = [ESleep 1200; ESleep 1200; ESleep 1200].
Proof.
  apply (batch_pauses_once_per_repository default_robot ["r1"; "r2"; "r3"]%string
           "update_and_deploy" None second_repo_missing [] _
           [mk_outcome "r1" true; mk_outcome "r2" false; mk_outcome "r3" true]).
  vm_compute. reflexivity.
Defined.

Lemma quiet_file_write (e : event) : is_file_write e = true -> is_http e = false.
Proof. destruct e; try discriminate; reflexivity. Qed.

Lemma auto_workflow_update_and_deploy_sends self repo_name files_to_update :
  sends_at_most 3 (auto_workflow_update_and_deploy self repo_name files_to_update).
Proof.
  unfold auto_workflow_update_and_deploy.
  apply (sends_bind 0 3); [silent | intro | lia].
  apply (sends_bind 0 3); [silent | intro | lia].
  apply (sends_bind 0 3); [ | intro | lia].
  { destruct (negb x0); [|silent].
    apply sends_none. apply clone_repository_events; reflexivity. }
  destruct (x1 =? "")%string; [silent|].
  unfold update_in_working_copy.
  apply (sends_bind 0 3); [ | intro | lia].
  { apply sends_none. apply write_files_events; [reflexivity | apply quiet_file_write]. }
  apply (sends_bind 0 3); [ | intro | lia].
  { apply sends_none. apply commit_and_push_events; reflexivity. }
  apply (sends_bind 3 0); [ | intro; silent | lia].
  destruct (truthy _); [|silent].
  apply (sends_bind 3 0); [apply trigger_all_deployments_sends | intro; silent | lia].
Qed.

Lemma analyze_repository_sends self repo_name :
  sends_at_most 1 (analyze_repository self repo_name).
Proof.
  unfold analyze_repository.
  apply (sends_bind 1 0); [apply sends_requests_call | intro | lia].
  apply sends_none.
  repeat first
    [ apply emits_for_each; intro
    | apply emits_any_of; intro
    | emits_step ]; reflexivity.
Qed.

Lemma auto_improve_repository_sends self repo_name :
  sends_at_most 4 (auto_improve_repository self repo_name).
Proof.
  unfold auto_improve_repository.
  apply (sends_bind 1 3); [apply analyze_repository_sends | intros [a|] | lia];
    [|silent].
  destruct (planned_improvements repo_name a); [silent|].
  apply (sends_bind 3 0);
    [apply auto_workflow_update_and_deploy_sends | intro; silent | lia].
Qed.

Lemma run_operation_sends self operation files r :
  sends_at_most 4 (run_operation self operation files r).
Proof.
  unfold run_operation.
  destruct (operation =? "update_and_deploy")%string.
  { intros w t.
    destruct (auto_workflow_update_and_deploy_sends self r
                (match files with Some f => f | None => [] end) w t) as [es [E F]].
    exists es. split; [exact E | lia]. }
  destruct (operation =? "improve")%string; [apply auto_improve_repository_sends|].
  destruct (operation =? "deploy")%string; [|silent].
  apply (sends_bind 3 0); [apply trigger_all_deployments_sends | intro; silent | lia].
Qed.

Lemma batch_loop_sends self operation files repos :
  forall acc, sends_at_most (4 * List.length repos)
                (batch_loop self operation files repos acc).
Proof.
  induction repos as [|r rest IH]; intros acc.
  - simpl. silent.
  - cbn [batch_loop].
    apply (sends_bind 0 (4 + 4 * List.length rest)); [silent | intro | simpl; lia].
    apply (sends_bind 4 (4 * List.length rest));
      [apply run_operation_sends | intro | simpl; lia].
    apply (sends_bind 0 (4 * List.length rest)); [silent | intro; apply IH | lia].
Qed.

(** X9.  A batch over [n] repositories sends at most [4 * n] requests,
    whatever the operation and the world: for each repository at most the
    content listing and one trigger per hosting platform. *)
Theorem batch_request_bound
    (self : robot) (repos : list string) (operation : string)
    (files : option (list (string * string))) (w : world) (t : trace) :
  request_count
    (events_since t (snd (batch_repository_operation self repos operation files w t)))
  <= 4 * List.length repos.
Proof.
  destruct (batch_loop_sends self operation files repos [] w t) as [es [E F]].
  unfold batch_repository_operation. rewrite E, events_since_app. exact F.
Qed.

(** X10.  In a batch with the operation "deploy" every recorded flag is
    [True], whatever the triggers returned: the batch returns these flags
    whenever the fan-out does not raise. *)
Theorem batch_deploy_flags
    (self : robot) (repos : list string)
    (files : option (list (string * string))) (w : world) (t : trace) :
  (forall results t',
     batch_repository_operation self repos "deploy" files w t = (Ret results, t') ->
     results = map (fun r => mk_outcome r true) repos)
  /\ ((forall r t0 e, fst (trigger_all_deployments self r w t0) <> Raise e) ->
      exists t',
        batch_repository_operation self repos "deploy" files w t
        = (Ret (map (fun r => mk_outcome r true) repos), t')).
Proof.
  assert (forall r t0 ok t1,
            run_operation self "deploy" files r w t0 = (Ret ok, t1) -> ok = true) as Hop.
  { intros r t0 ok t1. unfold run_operation. simpl. unfold bind.
    destruct (trigger_all_deployments self r w t0) as [[v|e] t2]; simpl; intros H;
      inversion H; reflexivity. }
  assert (forall rs acc t0 results t',
            batch_loop self "deploy" files rs acc w t0 = (Ret results, t') ->
            results = acc ++ map (fun r => mk_outcome r true) rs) as Hloop.
  { induction rs as [|r rest IH]; intros acc t0 results t' H.
    - simpl in H. inversion H. rewrite app_nil_r. reflexivity.
    - rewrite batch_loop_step in H.
      destruct (run_operation self "deploy" files r w (t0 ++ [EPrint (MProcessing r)]))
        as [[ok|e] t1] eqn:E; [|discriminate].
      apply Hop in E. subst ok. apply IH in H. rewrite H, <- app_assoc. reflexivity. }
  split.
  - intros results t' H. apply (Hloop repos [] t results t' H).
  - intros Hfan.
    destruct (batch_loop_all_processed self "deploy" files w repos) with (t := t)
      as [results [t' Hp]].
    { intros r t0 e _ H. apply (Hfan r t0 e).
      revert H. unfold run_operation. simpl. unfold bind.
      destruct (trigger_all_deployments self r w t0) as [[v|e'] t2]; simpl; intros H;
        inversion H. reflexivity. }
    pose proof (batch_loop_processed self "deploy" files w repos [] [] t results t' Hp) as E.
    rewrite app_nil_r in E. simpl in E.
    exists t'. unfold batch_repository_operation. rewrite E.
    rewrite (Hloop repos [] t results t' E). reflexivity.
Qed.

Lemma batch_deploy_flags_witness :
  exists t',
    batch_repository_operation all_platforms_robot ["r1"; "r2"]%string "deploy" None
      deploys_refused []
    = (Ret [mk_outcome "r1" true; mk_outcome "r2" true], t').
Proof.
  apply (proj2 (batch_deploy_flags all_platforms_robot ["r1"; "r2"]%string None
                  deploys_refused [])).
  intros r t0 e. vm_compute. discriminate.
Defined.

(** X11.  With an operation selector that the batch runner does not know,
    every repository is recorded as a failure; the batch only prints and
    pauses, and sends, runs and writes nothing. *)
Theorem batch_unknown_operation_fails_each
    (self : robot) (repos : list string) (operation : string)
    (files : option (list (string * string))) (w : world) (t : trace) :
  operation <> "update_and_deploy"%string ->
  operation <> "improve"%string ->
  operation <> "deploy"%string ->
  batch_repository_operation self repos operation files w t
  = (Ret (map (fun r => mk_outcome r false) repos),
     t ++ flat_map (fun r => [EPrint (MProcessing r);
                              EPrint (MUnknownOperation operation);
                              ESleep 1200]) repos).
Proof.
  intros H1 H2 H3.
  apply String.eqb_neq in H1, H2, H3.
  assert (forall rs acc t0,
            batch_loop self operation files rs acc w t0
            = (Ret (acc ++ map (fun r => mk_outcome r false) rs),
               t0 ++ flat_map (fun r => [EPrint (MProcessing r);
                                         EPrint (MUnknownOperation operation);
                                         ESleep 1200]) rs)) as Hloop.
  { induction rs as [|r rest IH]; intros acc t0.
    - simpl. rewrite !app_nil_r. reflexivity.
    - rewrite batch_loop_step. unfold run_operation. rewrite H1, H2, H3.
      unfold bind, print, emit, ret. simpl. rewrite IH.
      rewrite <- !app_assoc. reflexivity. }
  apply (Hloop repos [] t).
Qed.

Lemma batch_unknown_operation_fails_each_witness :
  batch_repository_operation default_robot ["r1"]%string "archive" None calm_world []
  = (Ret [mk_outcome "r1" false],
     [EPrint (MProcessing "r1"); EPrint (MUnknownOperation "archive"); ESleep 1200]).
Proof.
  apply (batch_unknown_operation_fails_each default_robot ["r1"]%string "archive" None
           calm_world []); discriminate.
Defined.

(* ===================================================================== *)
(** ** Provider operations *)
(* ===================================================================== *)

(** X12.  Without a token (none, or the empty string) the provider
    operations send no request:
    creating a repository, creating or merging a pull request and
    reviewing one raise a [ValueError] at once, the status reporter returns
    an empty result, the health reporter prints that it is skipped and
    returns an empty result, and [get_default_branch] falls back on the
    configured branch, or "main". *)
Theorem tokenless_operations_send_nothing (self : robot) (w : world) (t : trace) :
  has_token self = false ->
  (forall name description private,
      create_repository self name description private w t = (Raise missing_token, t))
  /\ (forall repo title body head base,
         create_pull_request self repo title body head base w t = (Raise missing_token, t))
  /\ (forall repo number method,
         merge_pull_request self repo number method w t = (Raise missing_token, t))
  /\ (forall repo number, auto_pr_review self repo number w t = (Raise missing_token, t))
  /\ (forall repo, check_deployment_status self repo w t = (Ret (PDict []), t))
  /\ health_check_all_repos self w t = (Ret (PDict []), t ++ [EPrint MHealthSkipped])
  /\ (forall repo,
         get_default_branch self repo w t
         = (Ret (dict_get (config self) "default_branch" (PStr "main")), t)).
Proof.
  intros H.
  unfold create_repository, create_pull_request, merge_pull_request, auto_pr_review,
    check_deployment_status, health_check_all_repos, get_default_branch.
  rewrite H. simpl. repeat split; reflexivity.
Qed.

Lemma tokenless_operations_send_nothing_witness :
  create_repository tokenless_robot "demo" "a demo" false calm_world []
  = (Raise (ValueError "Missing GITHUB_TOKEN for GitHub API calls."), [])
  /\ health_check_all_repos tokenless_robot calm_world []
     = (Ret (PDict []), [EPrint MHealthSkipped]).
Proof.
  destruct (tokenless_operations_send_nothing tokenless_robot calm_world [] eq_refl)
    as [Hcreate [_ [_ [_ [_ [Hhealth _]]]]]].
  split; [apply Hcreate | exact Hhealth].
Defined.

Lemma after_request {A} (r : request) (k : response -> M A) w t resp :
  http_reply w t r = Responded resp ->
  bind (requests_call r) k w t = k resp w (t ++ [EHttp r (Responded resp)]).
Proof. intros H. unfold bind, requests_call. rewrite H. reflexivity. Qed.

(** X13.  With a token, [get_default_branch] asks the provider once.  On
    a 200 response it returns the [default_branch] of the body, and "main"
    when the body has none, whatever branch the configuration names; on
    any other status it returns the configured branch, or "main". *)
Theorem get_default_branch_resolution
    (self : robot) (repo_name : string) (resp : response) (w : world) (t : trace) :
  has_token self = true ->
  http_reply w t (repository_request self repo_name) = Responded resp ->
  let t' := t ++ [EHttp (repository_request self repo_name) (Responded resp)] in
  (status_code resp <> 200%Z ->
   get_default_branch self repo_name w t
   = (Ret (dict_get (config self) "default_branch" (PStr "main")), t'))
  /\ (forall d,
        status_code resp = 200%Z ->
        json resp = Some (PDict d) ->
        get_default_branch self repo_name w t
        = (Ret (match dict_find d "default_branch" with
                | Some branch => branch
                | None => PStr "main"
                end), t')).
Proof.
  intros Htoken Hreply t'. unfold get_default_branch. rewrite Htoken.
  cbv zeta. fold (repository_request self repo_name).
  rewrite (after_request _ _ _ _ _ Hreply). fold t'.
  split.
  - intros Hstatus. apply Z.eqb_neq in Hstatus. rewrite Hstatus. reflexivity.
  - intros d Hstatus Hjson. rewrite Hstatus. simpl.
    unfold bind, res_json. rewrite Hjson. reflexivity.
Qed.

Lemma get_default_branch_resolution_witness :
  get_default_branch default_robot "demo" (answering (PDict [(PStr "id", PInt 7)])) []
  = (Ret (PStr "main"),
     [EHttp (repository_request default_robot "demo")
            (Responded (mk_response 200 (Some (PDict [(PStr "id", PInt 7)])) ""))]).
Proof.
  apply (proj2 (get_default_branch_resolution default_robot "demo"
                  (mk_response 200 (Some (PDict [(PStr "id", PInt 7)])) "")
                  (answering (PDict [(PStr "id", PInt 7)])) [] eq_refl eq_refl)
           [(PStr "id", PInt 7)]); reflexivity.
Defined.



Lemma pydict_insert_fresh (d : list (pyval * pyval)) (k v : pyval) :
  Forall (fun kv => py_key_eq (fst kv) k = false) d ->
  pydict_insert d k v = d ++ [(k, v)].
Proof.
  induction 1 as [|[k' v'] d Hk _ IH]; simpl; [reflexivity|].
  simpl in Hk. rewrite Hk, IH. reflexivity.
Qed.

Lemma health_report_run entries facts w t :
  Forall2 entry_describes entries facts ->
  NoDup (map facts_name facts) ->
  forall report,
    Forall (fun f => Forall (fun kv => py_key_eq (fst kv) (PStr (facts_name f)) = false)
                       report) facts ->
    health_report entries report w t = (Ret (report ++ map health_entry facts), t).
Proof.
  induction 1 as [|e f entries facts [d [-> [Hn [Hu [Hc [Hp Hb]]]]]] _ IH];
    intros Hnodup report Hfresh.
  - simpl. rewrite app_nil_r. reflexivity.
  - inversion Hnodup as [|n ns Hnotin Hrest]; subst.
    inversion Hfresh as [|f0 fs Hf Hfs]; subst.
    simpl. unfold bind at 1. simpl. rewrite Hu. simpl.
    unfold bind at 1. simpl. rewrite Hc. simpl.
    unfold bind at 1. simpl.
    unfold bind at 1. simpl. rewrite Hp. simpl.
    unfold bind at 1. simpl. rewrite Hb. simpl.
    unfold bind at 1. simpl. rewrite Hn. simpl.
    unfold bind at 1. simpl.
    rewrite (pydict_insert_fresh _ _ _ Hf).
    rewrite IH; [rewrite <- app_assoc; reflexivity | exact Hrest |].
    apply Forall_forall. intros f' Hin. apply Forall_app. split.
    + rewrite Forall_forall in Hfs. apply Hfs. exact Hin.
    + constructor; [|constructor]. simpl.
      apply String.eqb_neq. intros Heq. apply Hnotin. rewrite Heq.
      apply in_map. exact Hin.
Qed.

(** X15.  With a token and a 200 response that lists repositories of
    distinct names, [health_check_all_repos] returns one report entry per
    repository, in the order of the listing: the update time, the
    visibility and the default branch as the provider gives them, and
    [has_issues] true exactly when the count of open issues is positive. *)
Theorem health_report_per_repository
    (self : robot) (resp : response) (entries : list pyval)
    (facts : list repository_facts) (w : world) (t : trace) :
  has_token self = true ->
  http_reply w t (repositories_request self) = Responded resp ->
  status_code resp = 200%Z ->
  json resp = Some (PList entries) ->
  Forall2 entry_describes entries facts ->
  NoDup (map facts_name facts) ->
  health_check_all_repos self w t
  = (Ret (PDict (map health_entry facts)),
     t ++ [EHttp (repositories_request self) (Responded resp)]).
Proof.
  intros Htoken Hreply Hstatus Hjson Hentries Hnodup.
  unfold health_check_all_repos. rewrite Htoken. cbn [negb].
  fold (repositories_request self).
  rewrite (after_request _ _ _ _ _ Hreply). rewrite Hstatus. simpl.
  unfold bind at 1. unfold res_json. rewrite Hjson. simpl.
  unfold bind at 1. simpl.
  unfold bind at 1.
  rewrite (health_report_run _ _ _ _ Hentries Hnodup []).
  - reflexivity.
  - apply Forall_forall. intros f _. constructor.
Qed.

Lemma health_report_per_repository_witness :
  health_check_all_repos default_robot (answering sample_repositories) []
  = (Ret (PDict [(PStr "alpha",
                  PDict [(PStr "last_updated", PStr "2024-05-01T10:00:00Z");
                         (PStr "has_issues", PBool true);
                         (PStr "is_private", PBool false);
                         (PStr "default_branch", PStr "main")]);
                 (PStr "beta",
                  PDict [(PStr "last_updated", PStr "2024-04-01T10:00:00Z");
                         (PStr "has_issues", PBool false);
                         (PStr "is_private", PBool true);
                         (PStr "default_branch", PStr "trunk")])]),
     [EHttp (repositories_request default_robot)
            (Responded (mk_response 200 (Some sample_repositories) ""))]).
Proof.
  apply (health_report_per_repository default_robot
           (mk_response 200 (Some sample_repositories) "")
           (match sample_repositories with PList l => l | _ => [] end)
           [mk_repository_facts "alpha" (PStr "2024-05-01T10:00:00Z") 3 (PBool false)
              (PStr "main");
            mk_repository_facts "beta" (PStr "2024-04-01T10:00:00Z") 0 (PBool true)
              (PStr "trunk")]
           (answering sample_repositories) []); try reflexivity.
  - repeat constructor; eexists; repeat split; reflexivity.
  - repeat constructor; simpl; intuition discriminate.
Defined.

Ltac run_step tac := erewrite bind_ret by tac.

Lemma review_files_run entries fs w t :
  Forall2 entry_changes entries fs ->
  forall rv,
    review_files entries rv w t
    = (Ret (mk_review (review_suggestions rv ++ flat_map file_suggestions fs)
              (review_warnings rv ++ flat_map file_warnings fs)
              (review_approvals rv)), t).
Proof.
  induction 1 as [|e f entries fs [d [-> [Hname [Hpatch Hadd]]]] _ IH]; intros rv.
  - simpl. rewrite !app_nil_r. destruct rv; reflexivity.
  - assert ((if truthy (dict_get d "patch" (PStr "")) then dict_get d "patch" (PStr "")
             else PStr "") = PStr (changed_patch f)) as Heff.
    { destruct Hpatch as [-> | [-> ->]]; [|reflexivity].
      simpl. destruct (changed_patch f); reflexivity. }
    cbn [review_files].
    run_step ltac:(cbn [py_getitem]; rewrite Hname; reflexivity).
    run_step ltac:(reflexivity).
    rewrite Heff.
    run_step ltac:(reflexivity).
    erewrite (bind_ret _ _ _ _ (endswith (changed_filename f) ".js"
                                && contains "console.log" (changed_patch f)) t)
      by (destruct (endswith (changed_filename f) ".js"); reflexivity).
    erewrite (bind_ret _ _ _ _ (endswith (changed_filename f) ".py"
                                && contains "print(" (changed_patch f)) t)
      by (destruct (endswith (changed_filename f) ".py"); reflexivity).
    run_step ltac:(reflexivity).
    rewrite Hadd.
    run_step ltac:(reflexivity).
    cbn [flat_map]. unfold file_suggestions at 1, file_warnings at 1.
    destruct (changed_additions f >? 500)%Z eqn:Hlarge.
    + assert (dict_find d "additions" = Some (PInt (changed_additions f))) as Hfind.
      { unfold dict_get in Hadd. destruct (dict_find d "additions") as [x|].
        - rewrite Hadd. reflexivity.
        - inversion Hadd as [H0]. rewrite <- H0 in Hlarge. discriminate Hlarge. }
      erewrite (bind_ret _ _ _ _ _ t)
        by (run_step ltac:(cbn [py_getitem]; rewrite Hfind; reflexivity); reflexivity).
      rewrite IH. cbn [review_suggestions review_warnings review_approvals].
      destruct (endswith (changed_filename f) ".js"
                && contains "console.log" (changed_patch f));
        destruct (endswith (changed_filename f) ".py"
                  && contains "print(" (changed_patch f));
        simpl; rewrite <- ?app_assoc; reflexivity.
    + run_step ltac:(reflexivity).
      rewrite IH. cbn [review_suggestions review_warnings review_approvals].
      destruct (endswith (changed_filename f) ".js"
                && contains "console.log" (changed_patch f));
        destruct (endswith (changed_filename f) ".py"
                  && contains "print(" (changed_patch f));
        simpl; rewrite <- ?app_assoc; reflexivity.
Qed.

(** X16.  With a token and a 200 response that lists the changed files,
    [auto_pr_review] reviews file by file, in order: a warning for a ".js"
    file whose patch holds "console.log", a suggestion for a ".py" file
    whose patch holds "print(", a warning for a file with more than 500
    additions.  It never approves: the approvals are empty. *)
Theorem pr_review_rules
    (self : robot) (repo_name : string) (pr_number : Z) (resp : response)
    (entries : list pyval) (fs : list changed_file) (w : world) (t : trace) :
  has_token self = true ->
  http_reply w t (pull_files_request self repo_name pr_number) = Responded resp ->
  status_code resp = 200%Z ->
  json resp = Some (PList entries) ->
  Forall2 entry_changes entries fs ->
  auto_pr_review self repo_name pr_number w t
  = (Ret (Some (mk_review (flat_map file_suggestions fs) (flat_map file_warnings fs) [])),
     t ++ [EHttp (pull_files_request self repo_name pr_number) (Responded resp)]).
Proof.
  intros Htoken Hreply Hstatus Hjson Hentries.
  unfold auto_pr_review. rewrite Htoken. cbn [negb]. cbv zeta.
  fold (pull_files_request self repo_name pr_number).
  rewrite (after_request _ _ _ _ _ Hreply). rewrite Hstatus. simpl.
  unfold bind at 1. unfold res_json. rewrite Hjson. simpl.
  unfold bind at 1. simpl.
  unfold bind at 1. rewrite (review_files_run _ _ _ _ Hentries). reflexivity.
Qed.

Lemma pr_review_rules_witness :
  auto_pr_review default_robot "demo" 7 (answering sample_pull_files) []
  = (Ret (Some (mk_review [UseLogging "tools/gen.py"]
                  [ConsoleLogFound "web/app.js"; LargeChange "tools/gen.py" (PInt 640)]
                  [])),
     [EHttp (pull_files_request default_robot "demo" 7)
            (Responded (mk_response 200 (Some sample_pull_files) ""))]).
Proof.
  apply (pr_review_rules default_robot "demo" 7
           (mk_response 200 (Some sample_pull_files) "")
           (match sample_pull_files with PList l => l | _ => [] end)
           [mk_changed_file "web/app.js" "+ console.log(state)" 12;
            mk_changed_file "tools/gen.py" "+ print(total)" 640;
            mk_changed_file "assets/logo.png" "" 0]
           (answering sample_pull_files) []); try reflexivity.
  repeat constructor; eexists; repeat split; try reflexivity; left; reflexivity.
Defined.

(* ===================================================================== *)
(** ** Git helpers *)
(* ===================================================================== *)

(** X17.  [clone_repository] runs one [git clone] into the given path,
    or into "./<name>" when the path is absent or empty, and, the command
    running to an exit code, never raises.  It returns that path, which
    is not empty, when the clone exits with 0, and the empty string
    otherwise: the empty string is the sign of failure. *)
Theorem clone_repository_outcome
    (self : robot) (repo_name : string) (local_path : option string)
    (w : world) (t : trace) :
  let path := clone_target repo_name local_path in
  let c := clone_command_to self repo_name path in
  let out := proc_reply w t c in
  clone_repository self repo_name local_path w t
  = (if (returncode out =? 0)%Z
     then (Ret path, t ++ [ERun c out; EPrint (MCloned path)])
     else (Ret ""%string, t ++ [ERun c out; EPrint (MCloneFailed repo_name (returncode out))]))
  /\ path <> ""%string
  /\ (fst (clone_repository self repo_name local_path w t) = Ret ""%string
      <-> returncode out <> 0%Z).
Proof.
  intros path c out.
  assert (path <> ""%string) as Hpath.
  { unfold path, clone_target. destruct local_path as [[|a p]|]; discriminate. }
  assert (clone_repository self repo_name local_path w t
          = (if (returncode out =? 0)%Z
             then (Ret path, t ++ [ERun c out; EPrint (MCloned path)])
             else (Ret ""%string,
                   t ++ [ERun c out; EPrint (MCloneFailed repo_name (returncode out))])))
    as E.
  { unfold clone_repository. fold (clone_target repo_name local_path). fold path.
    fold (clone_command_to self repo_name path). fold c.
    unfold try_except, bind, subprocess_run. fold out. cbn [andb].
    destruct (returncode out =? 0)%Z; cbn [negb]; unfold print, emit, ret;
      rewrite <- app_assoc; reflexivity. }
  split; [exact E|]. split; [exact Hpath|].
  rewrite E. destruct (returncode out =? 0)%Z eqn:Hcode; cbn [fst].
  - apply Z.eqb_eq in Hcode. split.
    + intros H. inversion H. congruence.
    + intros H. destruct (H Hcode).
  - apply Z.eqb_neq in Hcode. split; auto.
Qed.

(** A run that only emits events within [P] and raises decoding errors
    alone. *)
Lemma run_prefix {A} (P : event -> Prop) (m : M A) w t :
  emits P m -> raises_only is_decode_error m ->
  exists es,
    Forall P es
    /\ ((exists a, m w t = (Ret a, t ++ es))
        \/ m w t = (Raise UnicodeDecodeError, t ++ es)).
Proof.
  intros He Hr. destruct (He w t) as [es [E F]]. exists es. split; [exact F|].
  destruct (m w t) as [[a|e] t'] eqn:Em; simpl in E; subst t'.
  - left. exists a. reflexivity.
  - right. pose proof (Hr w t e) as Q. rewrite Em in Q. specialize (Q eq_refl).
    destruct e; simpl in Q; try contradiction. reflexivity.
Qed.

Lemma raises_failure_subprocess_run c check :
  raises_only is_process_failure (subprocess_run c check).
Proof.
  intros w t e. unfold subprocess_run. simpl.
  destruct check; simpl.
  - destruct (returncode (proc_reply w t c) =? 0)%Z eqn:E; simpl; intros H; inversion H.
    simpl. apply Z.eqb_neq. exact E.
  - discriminate.
Qed.

Lemma git_add_each_failure repo_path files_to_add :
  raises_only is_process_failure (git_add_each repo_path files_to_add).
Proof.
  induction files_to_add as [|file rest IH]; simpl.
  - apply raises_ret.
  - apply raises_bind; [apply raises_failure_subprocess_run | intro; exact IH].
Qed.

Lemma git_add_each_quiet repo_path files_to_add :
  emits quiet_git (git_add_each repo_path files_to_add).
Proof.
  induction files_to_add as [|file rest IH]; simpl.
  - apply emits_ret.
  - repeat first [ exact IH | emits_step ]. reflexivity.
Qed.

Lemma _ensure_git_identity_quiet self repo_path :
  emits quiet_git (_ensure_git_identity self repo_path).
Proof. unfold _ensure_git_identity. emits_walk; reflexivity. Qed.

(** Staging: events before the commit, and a failure with its code. *)
Lemma staging_run repo_path (files : option (list string)) w t :
  exists es,
    Forall quiet_git es
    /\ ((match files with
         | Some (f :: fs) => git_add_each repo_path (f :: fs)
         | _ => subprocess_run (git ["add"; "."] repo_path) true ;; ret tt
         end) w t = (Ret tt, t ++ es)
        \/ exists c, c <> 0%Z /\
             (match files with
              | Some (f :: fs) => git_add_each repo_path (f :: fs)
              | _ => subprocess_run (git ["add"; "."] repo_path) true ;; ret tt
              end) w t = (Raise (CalledProcessError c), t ++ es)).
Proof.
  set (stage := match files with
                | Some (f :: fs) => git_add_each repo_path (f :: fs)
                | _ => subprocess_run (git ["add"; "."] repo_path) true ;; ret tt
                end).
  assert (emits quiet_git stage) as He.
  { unfold stage. destruct files as [[|f fs]|];
      try apply git_add_each_quiet; emits_walk; reflexivity. }
  assert (raises_only is_process_failure stage) as Hr.
  { unfold stage. destruct files as [[|f fs]|];
      try apply git_add_each_failure;
      (apply raises_bind; [apply raises_failure_subprocess_run | intro; apply raises_ret]). }
  destruct (He w t) as [es [E F]]. exists es. split; [exact F|].
  destruct (stage w t) as [[[]|e] t'] eqn:Es; simpl in E; subst t'.
  - left. reflexivity.
  - right. pose proof (Hr w t e) as Hq. rewrite Es in Hq. specialize (Hq eq_refl).
    destruct e as [| code | | | | | | | |]; simpl in Hq; try contradiction.
    exists code. auto.
Qed.

Lemma commit_block_run (stage : M unit) (msg : M string) (repo_path branch : string) w t :
  (exists es,
     Forall quiet_git es
     /\ (stage w t = (Ret tt, t ++ es)
         \/ exists c, c <> 0%Z /\ stage w t = (Raise (CalledProcessError c), t ++ es))) ->
  (forall w t, exists m, msg w t = (Ret m, t)) ->
  exists es ending,
    try_except
      (stage ;;
       message <- msg ;;
       subprocess_run (git ["commit"; "-m"; message] repo_path) true ;;
       subprocess_run (git ["push"; "origin"; branch] repo_path) true ;;
       print (MPushed branch message))
      (fun e =>
         match e with
         | CalledProcessError c => Some (print (MGitFailed c))
         | _ => None
         end) w t
    = (Ret tt, t ++ es ++ ending)
    /\ Forall quiet_git es /\ commit_ending repo_path ending.
Proof.
  intros [es [F Hstage]] Hmsg. exists es.
  unfold try_except.
  destruct Hstage as [E | [c [Hc E]]].
  - rewrite (bind_ret _ _ _ _ _ _ E).
    destruct (Hmsg w (t ++ es)) as [m Em]. rewrite (bind_ret _ _ _ _ _ _ Em).
    unfold bind at 1. unfold subprocess_run at 1. cbn [andb].
    set (out := proc_reply w (t ++ es) (git ["commit"; "-m"; m] repo_path)).
    destruct (returncode out =? 0)%Z eqn:Hout; cbn [negb].
    + unfold bind at 1. unfold subprocess_run at 1. cbn [andb].
      set (pushed := proc_reply w _ (git ["push"; "origin"; branch] repo_path)).
      apply Z.eqb_eq in Hout.
      destruct (returncode pushed =? 0)%Z eqn:Hpushed; cbn [negb].
      * apply Z.eqb_eq in Hpushed.
        eexists. split; [|split; [exact F | apply (push_done _ m branch out pushed); auto]].
        unfold print, emit. rewrite <- !app_assoc. reflexivity.
      * apply Z.eqb_neq in Hpushed.
        eexists. split; [|split; [exact F | apply (push_failed _ m branch out pushed); auto]].
        unfold print, emit. rewrite <- !app_assoc. reflexivity.
    + apply Z.eqb_neq in Hout.
      eexists. split; [|split; [exact F | apply (commit_failed _ m out); auto]].
      unfold print, emit. rewrite <- !app_assoc. reflexivity.
  - rewrite (bind_raise _ _ _ _ _ _ E).
    eexists. split; [|split; [exact F | apply (staging_failed _ c); auto]].
    unfold print, emit. rewrite <- !app_assoc. reflexivity.
Qed.

Lemma branch_choice_run (repo_path : string) (branch : option string) :
  let choice :=
    match branch with
    | Some (String c b) => ret (String c b)
    | _ =>
        try_except
          (cur <- subprocess_read (git ["rev-parse"; "--abbrev-ref"; "HEAD"] repo_path) true ;;
           let b := strip (stdout cur) in
           ret (if (b =? "")%string then "main"%string else b))
          (fun e =>
             match e with
             | CalledProcessError _ => Some (ret "main"%string)
             | _ => None
             end)
    end in
  emits quiet_git choice /\ raises_only is_decode_error choice.
Proof.
  intros choice. subst choice. split.
  - destruct branch as [[|c b]|]; emits_walk; reflexivity.
  - destruct branch as [[|c b]|]; try apply raises_ret;
      (apply raises_try_partial with (Q' := is_read_error);
       [ apply raises_bind;
         [apply raises_subprocess_read | intro; cbv zeta; apply raises_ret]
       | intros e; destruct e; simpl; intros []; [apply raises_ret | exact I] ]).
Qed.

(** X18.  A run of [commit_and_push], each [git] command yielding an exit
    status, either raises a [UnicodeDecodeError] or returns, and it
    returns where every output of [git] decodes.  Up to
    the raise, and in a run that returns up to the end of the identity,
    the branch and the staging steps, there is no commit, no push and no
    report.  A run that returns then ends in one of four ways: the staging
    failed and the failure is reported; the commit failed, is reported and
    no push follows; the commit succeeded, the push failed and is
    reported; both succeeded and the push is reported.  A push is thus
    attempted only right after a commit that exited with 0, and success is
    reported only when both exited with 0. *)
Theorem commit_and_push_ending
    (self : robot) (repo_path : string) (message : option string)
    (files_to_add : option (list string)) (branch : option string)
    (w : world) (t : trace) :
  (exists es,
     forallb before_commit es = true
     /\ (commit_and_push self repo_path message files_to_add branch w t
         = (Raise UnicodeDecodeError, t ++ es)
         \/ exists ending,
              commit_and_push self repo_path message files_to_add branch w t
              = (Ret tt, t ++ es ++ ending)
              /\ commit_ending repo_path ending))
  /\ (readable w ->
      fst (commit_and_push self repo_path message files_to_add branch w t) = Ret tt).
Proof.
  split.
  - unfold commit_and_push.
    destruct (run_prefix quiet_git (_ensure_git_identity self repo_path) w t
                (_ensure_git_identity_quiet self repo_path)
                (_ensure_git_identity_raises self repo_path))
      as [es1 [F1 [[[] E1] | E1]]].
    + rewrite (bind_ret _ _ _ _ _ _ E1).
      destruct (branch_choice_run repo_path branch) as [Hbe Hbr].
      cbv zeta in Hbe, Hbr.
      destruct (run_prefix quiet_git _ w (t ++ es1) Hbe Hbr) as [es2 [F2 [[b E2] | E2]]].
      * rewrite (bind_ret _ _ _ _ _ _ E2).
        match goal with
        | |- context [try_except (bind ?stage (fun _ => bind ?msg _)) _] =>
            destruct (commit_block_run stage msg repo_path b w ((t ++ es1) ++ es2))
              as [es3 [ending [E3 [F3 Hend]]]]
        end.
        { apply staging_run. }
        { intros w0 t0. destruct message as [[|c m]|]; eexists; reflexivity. }
        exists (es1 ++ es2 ++ es3). split.
        { apply forallb_events. repeat (apply Forall_app; split); assumption. }
        right. exists ending. split; [|exact Hend].
        rewrite E3, <- !app_assoc. reflexivity.
      * rewrite (bind_raise _ _ _ _ _ _ E2).
        exists (es1 ++ es2). split.
        { apply forallb_events. apply Forall_app; split; assumption. }
        left. rewrite <- app_assoc. reflexivity.
    + rewrite (bind_raise _ _ _ _ _ _ E1).
      exists es1. split; [apply forallb_events; exact F1 | left; reflexivity].
  - apply commit_and_push_returns.
Qed.

(** Every process exits with 0 and writes text: the method returns. *)
Lemma commit_and_push_ending_witness :
  fst (commit_and_push default_robot "./demo" None None None calm_world []) = Ret tt.
Proof.
  apply (proj2 (commit_and_push_ending default_robot "./demo" None None None calm_world [])).
  intros t c. reflexivity.
Defined.

(** X19.  [_ensure_git_identity], each [git] command yielding an exit
    status, raises exactly when what one of its two queries printed does
    not decode as text: a [UnicodeDecodeError], which
    its [except] clause does not catch, and nothing is set.  Otherwise it
    returns.  When the user name and the user email of the working copy
    are set (not empty once the white space around them is removed), it
    only reads them: it runs the two queries and changes nothing.  When
    the name is not set and cannot be set, it warns and leaves the email
    as it is. *)
Theorem ensure_git_identity_behaviour
    (self : robot) (repo_path : string) (w : world) (t : trace) :
  let read_name := git ["config"; "user.name"] repo_path in
  let read_email := git ["config"; "user.email"] repo_path in
  let set_name := git ["config"; "user.name"; "AI DevOps Robot"] repo_path in
  let name := proc_reply w t read_name in
  let t1 := t ++ [ERun read_name name] in
  let email := proc_reply w t1 read_email in
  let t2 := t1 ++ [ERun read_email email] in
  (output_decodes w t read_name = false ->
   _ensure_git_identity self repo_path w t = (Raise UnicodeDecodeError, t1))
  /\ (output_decodes w t read_name = true ->
      output_decodes w t1 read_email = false ->
      _ensure_git_identity self repo_path w t = (Raise UnicodeDecodeError, t2))
  /\ (output_decodes w t read_name = true ->
      output_decodes w t1 read_email = true ->
      fst (_ensure_git_identity self repo_path w t) = Ret tt
      /\ (strip (stdout name) <> ""%string -> strip (stdout email) <> ""%string ->
          _ensure_git_identity self repo_path w t = (Ret tt, t2))
      /\ (strip (stdout name) = ""%string ->
          returncode (proc_reply w t2 set_name) <> 0%Z ->
          _ensure_git_identity self repo_path w t
          = (Ret tt, t2 ++ [ERun set_name (proc_reply w t2 set_name);
                            EPrint (MIdentityWarn
                                      (returncode (proc_reply w t2 set_name)))]))).
Proof.
  intros read_name read_email set_name name t1 email t2.
  assert (forall check, output_decodes w t read_name = true ->
            subprocess_read read_name check w t
            = (if check && negb (returncode name =? 0)%Z
               then Raise (CalledProcessError (returncode name)) else Ret name, t1)) as Rn.
  { intros check H. unfold subprocess_read. rewrite H. reflexivity. }
  assert (forall check, output_decodes w t1 read_email = true ->
            subprocess_read read_email check w t1
            = (if check && negb (returncode email =? 0)%Z
               then Raise (CalledProcessError (returncode email)) else Ret email, t2)) as Re.
  { intros check H. unfold subprocess_read. rewrite H. reflexivity. }
  split; [|split].
  - intros Hn. unfold _ensure_git_identity, try_except.
    fold read_name read_email set_name.
    rewrite (bind_raise _ _ _ _ UnicodeDecodeError t1); [reflexivity|].
    unfold subprocess_read. rewrite Hn. reflexivity.
  - intros Hn He. unfold _ensure_git_identity, try_except.
    fold read_name read_email set_name.
    rewrite (bind_ret _ _ _ _ name t1) by (apply (Rn false Hn)).
    rewrite (bind_raise _ _ _ _ UnicodeDecodeError t2); [reflexivity|].
    unfold subprocess_read. fold email. rewrite He. reflexivity.
  - intros Hn He.
    assert (_ensure_git_identity self repo_path w t
            = try_except
                ((if (strip (stdout name) =? "")%string then
                    subprocess_run set_name true ;; ret tt
                  else ret tt) ;;
                 (if (strip (stdout email) =? "")%string then
                    subprocess_run
                      (git ["config"; "user.email";
                            (github_username self ++ "@users.noreply.github.com")%string]
                         repo_path) true ;;
                    ret tt
                  else ret tt))
                (fun e =>
                   match e with
                   | CalledProcessError c => Some (print (MIdentityWarn c))
                   | _ => None
                   end) w t2) as E.
    { unfold _ensure_git_identity, try_except.
      fold read_name read_email set_name.
      rewrite (bind_ret _ _ _ _ name t1) by (apply (Rn false Hn)).
      rewrite (bind_ret _ _ _ _ email t2) by (apply (Re false He)).
      reflexivity. }
    rewrite E. clear E. split; [|split].
    + match goal with
      | |- fst (try_except ?m ?h w t2) = _ =>
          assert (raises_only (fun _ => False) (try_except m h)) as Hr
      end.
      { apply raises_try with (Q' := is_called_process_error).
        - repeat raises_step.
        - handles_called_process_error. }
      destruct (never_raises_value _ w t2 Hr) as [[] Ev]. exact Ev.
    + intros Hname Hemail.
      apply String.eqb_neq in Hname, Hemail.
      rewrite Hname, Hemail. reflexivity.
    + intros Hname Hset.
      apply String.eqb_eq in Hname. apply Z.eqb_neq in Hset.
      rewrite Hname. unfold try_except.
      unfold bind at 1. unfold bind at 1. unfold subprocess_run at 1.
      rewrite Hset. cbn [andb negb]. unfold print, emit.
      rewrite <- app_assoc. reflexivity.
Qed.

(** The bytes of the user name do not decode: the error escapes after the
    first query. *)
Lemma ensure_git_identity_behaviour_witness :
  _ensure_git_identity default_robot "./demo" garbled_identity []
  = (Raise UnicodeDecodeError,
     [ERun (git ["config"; "user.name"] "./demo") (mk_completed 0 "main")]).
Proof.
  apply (proj1 (ensure_git_identity_behaviour default_robot "./demo" garbled_identity [])).
  reflexivity.
Defined.

(* ===================================================================== *)
(** ** Workflow sequencer: files and paths *)
(* ===================================================================== *)







Lemma prefix_append (a b : string) : String.prefix a (a ++ b) = true.
Proof.
  induction a as [|c a IH]; simpl.
  - destruct b; reflexivity.
  - destruct (ascii_dec c c) as [_|Hne]; [exact IH | destruct Hne; reflexivity].
Qed.




(** X22.  When the local directory of the repository exists, the
    sequencer never clones: no [git clone] is run at any point of the
    workflow. *)
Theorem existing_working_copy_not_cloned
    (self : robot) (repo_name : string) (files_to_update : list (string * string))
    (w : world) (t : trace) :
  path_exists w (t ++ [EPrint (MStarting repo_name)]) ("./" ++ repo_name) = true ->
  existsb is_clone
    (events_since t (snd (auto_workflow_update_and_deploy self repo_name files_to_update w t)))
  = false.
Proof.
  intros Hexists.
  set (P := fun e => is_clone e = false).
  assert (forall es, Forall P es -> existsb is_clone es = false) as Hall.
  { induction 1 as [|e es He _ IH]; simpl; [reflexivity|]. rewrite He. exact IH. }
  assert (emits P (update_in_working_copy self repo_name files_to_update
                     ("./" ++ repo_name))) as Hrest.
  { apply update_in_working_copy_events; try reflexivity; auto.
    intros e. destruct e; try discriminate; reflexivity. }
  rewrite auto_workflow_split, resolve_working_copy_run. cbv zeta. rewrite Hexists.
  change (("./" ++ repo_name =? "")%string) with false. cbv iota.
  destruct (Hrest w (t ++ [EPrint (MStarting repo_name)])) as [es [E F]].
  rewrite E, <- app_assoc, events_since_app. simpl. apply Hall. exact F.
Qed.

Lemma existing_working_copy_not_cloned_witness :
  existsb is_clone
    (events_since []
       (snd (auto_workflow_update_and_deploy vercel_robot "demo" sample_files calm_world [])))
  = false.
Proof.
  apply (existing_working_copy_not_cloned vercel_robot "demo" sample_files calm_world []).
  reflexivity.
Defined.

(* ===================================================================== *)
(** ** Repository improvement planner: results and failures *)
(* ===================================================================== *)

(** X23.  After a successful listing, [auto_improve_repository] returns
    [True] and reports the number of planned files whenever the sequencer
    returns, whatever the sequencer returned: also when the sequencer
    returned [False] because no working copy could be obtained and no file
    was written. *)
Theorem planner_ignores_sequencer_result
    (self : robot) (repo_name : string) (w : world) (t t2 : trace)
    (resp : response) (entries : list pyval) (names : list string) (ok : bool) :
  http_reply w t (contents_request self repo_name) = Responded resp ->
  status_code resp = 200%Z ->
  json resp = Some (PList entries) ->
  Forall2 entry_named entries names ->
  let plan := planned_improvements repo_name (analysis_of names) in
  auto_workflow_update_and_deploy self repo_name plan w
    (t ++ [EHttp (contents_request self repo_name) (Responded resp)]) = (Ret ok, t2) ->
  auto_improve_repository self repo_name w t
  = (Ret true, t2 ++ [EPrint (MImproved repo_name (List.length plan))]).
Proof.
  intros Hreply Hstatus Hjson Hnames plan Hseq.
  unfold auto_improve_repository.
  rewrite (bind_ret _ _ _ _ _ _
             (analyze_repository_listing _ _ _ _ _ _ _ Hreply Hstatus Hjson Hnames)).
  fold plan.
  assert (plan <> []) as Hplan.
  { unfold plan, planned_improvements.
    destruct (negb (has_readme (analysis_of names)));
      destruct (negb (existsb (fun f => py_eq_str f ".gitignore")
                        (files (analysis_of names)))); discriminate. }
  destruct plan as [|entry rest] eqn:Eplan; [destruct Hplan; reflexivity|].
  rewrite (bind_ret _ _ _ _ _ _ Hseq). reflexivity.
Qed.

Lemma planner_ignores_sequencer_result_witness :
  auto_improve_repository default_robot "demo" listed_but_uncloneable []
  = (Ret true,
     [EHttp (contents_request default_robot "demo")
            (Responded (mk_response 200 (Some (listing_of ["main.py"; "src"]%string)) ""));
      EPrint (MStarting "demo");
      ERun (clone_command default_robot "demo") (mk_completed 128 "");
      EPrint (MCloneFailed "demo" 128);
      EPrint (MImproved "demo" 3)]).
Proof.
  apply (planner_ignores_sequencer_result default_robot "demo" listed_but_uncloneable []
           [EHttp (contents_request default_robot "demo")
                  (Responded (mk_response 200 (Some (listing_of ["main.py"; "src"]%string)) ""));
            EPrint (MStarting "demo");
            ERun (clone_command default_robot "demo") (mk_completed 128 "");
            EPrint (MCloneFailed "demo" 128)]
           (mk_response 200 (Some (listing_of ["main.py"; "src"]%string)) "")
           (map listing_entry ["main.py"; "src"]%string) ["main.py"; "src"]%string false
           eq_refl eq_refl eq_refl).
  - repeat constructor; eexists; split; reflexivity.
  - vm_compute. reflexivity.
Defined.

(** X24.  When the listing is answered with a status other than 200, the
    planner reports the failure and returns [False]: it plans nothing, and
    after its one request it writes no file, runs no command and triggers
    no deployment. *)
Theorem planner_aborts_on_failed_listing
    (self : robot) (repo_name : string) (w : world) (t : trace) (resp : response) :
  http_reply w t (contents_request self repo_name) = Responded resp ->
  status_code resp <> 200%Z ->
  auto_improve_repository self repo_name w t
  = (Ret false,
     t ++ [EHttp (contents_request self repo_name) (Responded resp);
           EPrint (MError "Failed to analyze repository" (status_code resp)
                     (_safe_json resp))]).
Proof.
  intros Hreply Hstatus. apply Z.eqb_neq in Hstatus.
  unfold auto_improve_repository, analyze_repository.
  fold (contents_request self repo_name).
  unfold bind at 1. rewrite (after_request _ _ _ _ _ Hreply). rewrite Hstatus.
  cbn [negb]. unfold bind, _print_err, print, emit, ret.
  rewrite <- app_assoc. reflexivity.
Qed.

Lemma planner_aborts_on_failed_listing_witness :
  auto_improve_repository default_robot "demo" not_found []
  = (Ret false,
     [EHttp (contents_request default_robot "demo")
            (Responded (mk_response 404 (Some (PDict [(PStr "message", PStr "Not Found")])) ""));
      EPrint (MError "Failed to analyze repository" 404
                (PDict [(PStr "message", PStr "Not Found")]))]).
Proof.
  apply (planner_aborts_on_failed_listing default_robot "demo" not_found []
           (mk_response 404 (Some (PDict [(PStr "message", PStr "Not Found")])) "")).
  - reflexivity.
  - discriminate.
Defined.



